(** * AXTerm RF channel simulator: KISS framing, AX.25 header decoding and
      the shared-channel broadcast model.

    Shallow embedding of
      - Docker/rf_simulator.py      (module [RfSimulator])
      - Scripts/interactive-test.py (modules [InteractiveTest], [TestStation],
                                     [TestFrames])
      - Scripts/visual-test.py      (modules [VisualTest], [TestStation],
                                     [TestFrames], [VisualTestDecoder])
      - Scripts/kiss-monitor.py     (modules [KissMonitor],
                                     [KissMonitorDecoder], [KissMonitorFrames])
      - tnc4_config.py              (modules [Tnc4Config], [Tnc4Frames],
                                     [Tnc4Commands])

    Conventions.
      - A Python [bytes]/[bytearray] value is a [list Z]; every element of a
        real [bytes] object lies in [0, 256), which is stated as [is_bytes]
        where a result depends on it.
      - A Python [str] is a [string]; [ord]/[chr] are the Latin-1 code of
        the character.
      - A scan [while i < len(data)] over an index [i] is a recursion on the
        suffix [data[i:]].
      - Wall-clock time ([time.time()]) is an exact rational, and so is
        every quantity computed from it.
      - A [Station] object lives in a store keyed by its id; the registry
        and the calls refer to stations by id, so that an update of a
        station is seen through every reference to it.
      - A coroutine is cut at the one point where it gives way to others,
        the sleep for the propagation delay; each part is a function from
        world to world. *)

From Stdlib Require Import ZArith QArith Lqa Lia List String Ascii Bool.
From stdpp Require Import gmap strings list pretty.

Local Open Scope Z_scope.

Abbreviation bytes := (list Z).

Definition is_byte (b : Z) : Prop := 0 <= b < 256.
Definition is_bytes (data : bytes) : Prop := Forall is_byte data.

(** ** KISS protocol constants (identical in every file of the repository) *)

Definition FEND : Z := 0xC0.
Definition FESC : Z := 0xDB.
Definition TFEND : Z := 0xDC.
Definition TFESC : Z := 0xDD.

(** [kiss_escape] of Scripts/interactive-test.py and Scripts/visual-test.py,
    and [RFChannel._kiss_escape] of Docker/rf_simulator.py: the three bodies
    are the same loop. *)
Fixpoint kiss_escape (data : bytes) : bytes :=
  match data with
  | [] => []
  | byte :: rest =>
      if byte =? FEND then [FESC; TFEND] ++ kiss_escape rest
      else if byte =? FESC then [FESC; TFESC] ++ kiss_escape rest
      else byte :: kiss_escape rest
  end.

(** The byte appended for the operand [b] of an escape. *)
Definition unescaped_operand (b : Z) : Z :=
  if b =? TFEND then FEND else if b =? TFESC then FESC else b.

(** ** Python built-ins used by the sources *)

(** [chr] and [ord] on one-byte code points. *)
Definition chr (n : Z) : ascii := ascii_of_N (Z.to_N n).
Definition ord (c : ascii) : Z := Z.of_N (N_of_ascii c).

(** [str.isspace] on one character, for code points below 256. *)
Definition isspace (c : ascii) : bool :=
  let n := ord c in
  ((9 <=? n) && (n <=? 13)) || ((28 <=? n) && (n <=? 32))
  || (n =? 0x85) || (n =? 0xA0).

Fixpoint lstrip (s : string) : string :=
  match s with
  | EmptyString => EmptyString
  | String c rest => if isspace c then lstrip rest else s
  end.

Fixpoint rstrip (s : string) : string :=
  match s with
  | EmptyString => EmptyString
  | String c rest =>
      match rstrip rest with
      | EmptyString => if isspace c then EmptyString else String c EmptyString
      | r => String c r
      end
  end.

(** [str.strip()] with no argument. *)
Definition strip (s : string) : string := rstrip (lstrip s).

(** [str.upper()] on ASCII text: the letters a-z move to A-Z and every
    other ASCII character stays. *)
Definition upper_char (c : ascii) : ascii :=
  let n := ord c in
  if (97 <=? n) && (n <=? 122) then chr (n - 32) else c.

Fixpoint upper (s : string) : string :=
  match s with
  | EmptyString => EmptyString
  | String c rest => String (upper_char c) (upper rest)
  end.

(** [s.ljust(width)]: pad with spaces on the right up to [width]. *)
Definition ljust (width : nat) (s : string) : string :=
  s +:+ string_of_list_ascii (repeat " "%char (width - String.length s)).

(** [s[:n]]. *)
Definition str_take (n : nat) (s : string) : string :=
  string_of_list_ascii (take n (list_ascii_of_string s)).

(** One upper-case hexadecimal digit. *)
Definition hex_digit (d : Z) : ascii :=
  if d <? 10 then chr (48 + d) else chr (55 + d).

(** [f"{n:02X}"] for a byte [n]: two upper-case hexadecimal digits. *)
Definition format_02X (n : Z) : string :=
  String (hex_digit (n / 16)) (String (hex_digit (n mod 16)) EmptyString).

(** [", ".join]-style joining with a separator. *)
Fixpoint join (sep : string) (parts : list string) : string :=
  match parts with
  | [] => EmptyString
  | [p] => p
  | p :: rest => p +:+ sep +:+ join sep rest
  end.

(** ** Docker/rf_simulator.py: framing and frame decoding *)

Module RfSimulator.

Definition TX_DELAY_MS : Q := 100.
Definition STATION_PORTS : list Z := [8001; 8002; 8003; 8004].
Definition ACTIVE_PORTS : list Z := [8001; 8002].

Inductive FrameType := I_FRAME | S_FRAME | U_FRAME | UNKNOWN.

Record AX25Address := { callsign : string; ssid : Z }.

(** [AX25Address.__str__] *)
Definition AX25Address_str (a : AX25Address) : string :=
  if ssid a =? 0 then callsign a
  else callsign a +:+ "-" +:+ pretty (ssid a).

Record AX25Frame := {
  raw : bytes;
  dest : option AX25Address;
  source : option AX25Address;
  via : list AX25Address;
  control : Z;
  frame_type : FrameType;
  ns : Z;
  nr : Z;
  pf : bool;
  pid : Z;
  info : bytes
}.

(** [AX25Frame(raw=data)]: every other field at its default. *)
Definition AX25Frame_new (data : bytes) : AX25Frame :=
  {| raw := data; dest := None; source := None; via := []; control := 0;
     frame_type := UNKNOWN; ns := 0; nr := 0; pf := false; pid := 0;
     info := [] |}.

Definition s_types : gmap Z string :=
  list_to_map [(0, "RR"); (1, "RNR"); (2, "REJ"); (3, "SREJ")]%string.

Definition u_types : gmap Z string :=
  list_to_map [(0x2F, "SABM"); (0x0F, "DM"); (0x43, "DISC");
               (0x63, "UA"); (0x03, "UI"); (0x87, "FRMR")]%string.

(** The value of [u_type] in [AX25Frame.__str__]:
    [u_types.get(self.control & 0xEF, f"U({self.control:02X})")]. *)
Definition u_type_str (control : Z) : string :=
  default ("U(" +:+ format_02X control +:+ ")")
          (u_types !! Z.land control 0xEF).

(** The value of [type_detail] in [AX25Frame.__str__]. *)
Definition type_detail (f : AX25Frame) : string :=
  match frame_type f with
  | I_FRAME => " I N(S)=" +:+ pretty (ns f) +:+ " N(R)=" +:+ pretty (nr f)
  | S_FRAME =>
      let s_type :=
        default "S?"%string
                (s_types !! Z.land (Z.shiftr (control f) 2) 0x03) in
      " " +:+ s_type +:+ " N(R)=" +:+ pretty (nr f)
  | U_FRAME => " " +:+ u_type_str (control f)
  | UNKNOWN => ""
  end.

Definition option_str (o : option AX25Address) : string :=
  match o with Some a => AX25Address_str a | None => "None" end.

(** [AX25Frame.__str__] *)
Definition AX25Frame_str (f : AX25Frame) : string :=
  let via_str :=
    match via f with
    | [] => ""
    | _ => " via " +:+ join "," (map AX25Address_str (via f))
    end in
  let pf_str := if pf f then " P/F" else "" in
  option_str (source f) +:+ "->" +:+ option_str (dest f) +:+ via_str
    +:+ type_detail f +:+ pf_str.

(** [data[i]] for an index that the caller has checked. *)
Definition at_index (data : bytes) (i : nat) : Z := nth i data 0.

(** [decode_ax25_address] *)
Definition decode_ax25_address (data : bytes) (offset : nat)
  : AX25Address * bool :=
  if (length data <? offset + 7)%nat then
    ({| callsign := "??????"; ssid := 0 |}, true)
  else
    let callsign :=
      fold_left
        (fun (callsign : string) (i : nat) =>
           let char :=
             Z.land (Z.shiftr (at_index data (offset + i)) 1) 0x7F in
           if negb (char =? 0x20)
           then callsign +:+ String (chr char) EmptyString
           else callsign)
        (seq 0 6) EmptyString in
    let ssid_byte := at_index data (offset + 6) in
    let ssid := Z.land (Z.shiftr ssid_byte 1) 0x0F in
    let is_last := negb (Z.land ssid_byte 0x01 =? 0) in
    ({| callsign := strip callsign; ssid := ssid |}, is_last).

(** The loop [while not is_last and offset + 7 <= len(data)] of
    [decode_ax25_frame]; [fuel] bounds the number of iterations. *)
Fixpoint via_loop (fuel : nat) (data : bytes) (via : list AX25Address)
    (offset : nat) (is_last : bool) : list AX25Address * nat * bool :=
  match fuel with
  | O => (via, offset, is_last)
  | S fuel' =>
      if negb is_last && (offset + 7 <=? length data)%nat then
        let '(via_addr, is_last') := decode_ax25_address data offset in
        via_loop fuel' data (via ++ [via_addr]) (offset + 7)%nat is_last'
      else (via, offset, is_last)
  end.

(** The branch [if offset < len(data)] on the control field (lines
    155-174): [frame_type], [ns], [nr] and [pf] as assigned for the
    control byte [c]; a field that a branch does not assign keeps the
    value it has in [f]. *)
Definition classify_control (f : AX25Frame) (c : Z) : AX25Frame :=
  if Z.land c 0x01 =? 0 then
    {| raw := raw f; dest := dest f; source := source f; via := via f;
       control := c; frame_type := I_FRAME;
       ns := Z.land (Z.shiftr c 1) 0x07;
       nr := Z.land (Z.shiftr c 5) 0x07;
       pf := negb (Z.land c 0x10 =? 0);
       pid := pid f; info := info f |}
  else if Z.land c 0x03 =? 0x01 then
    {| raw := raw f; dest := dest f; source := source f; via := via f;
       control := c; frame_type := S_FRAME;
       ns := ns f;
       nr := Z.land (Z.shiftr c 5) 0x07;
       pf := negb (Z.land c 0x10 =? 0);
       pid := pid f; info := info f |}
  else
    {| raw := raw f; dest := dest f; source := source f; via := via f;
       control := c; frame_type := U_FRAME;
       ns := ns f; nr := nr f;
       pf := negb (Z.land c 0x10 =? 0);
       pid := pid f; info := info f |}.

Definition FrameType_eqb (a b : FrameType) : bool :=
  match a, b with
  | I_FRAME, I_FRAME | S_FRAME, S_FRAME | U_FRAME, U_FRAME
  | UNKNOWN, UNKNOWN => true
  | _, _ => false
  end.

(** [decode_ax25_frame] *)
Definition decode_ax25_frame (data : bytes) : AX25Frame :=
  let frame := AX25Frame_new data in
  if (length data <? 14)%nat then frame
  else
    let '(dest_addr, _) := decode_ax25_address data 0 in
    let '(source_addr, is_last) := decode_ax25_address data 7 in
    let '(via_path, offset, _) :=
      via_loop (length data) data [] 14%nat is_last in
    let frame :=
      {| raw := raw frame; dest := Some dest_addr;
         source := Some source_addr; via := via_path;
         control := control frame; frame_type := frame_type frame;
         ns := ns frame; nr := nr frame; pf := pf frame;
         pid := pid frame; info := info frame |} in
    (* Control field *)
    let '(frame, offset) :=
      if (offset <? length data)%nat
      then (classify_control frame (at_index data offset), S offset)
      else (frame, offset) in
    (* PID (for I and UI frames) *)
    let '(frame, offset) :=
      if FrameType_eqb (frame_type frame) I_FRAME
         || (FrameType_eqb (frame_type frame) U_FRAME
             && (Z.land (control frame) 0xEF =? 0x03))
      then
        if (offset <? length data)%nat
        then ({| raw := raw frame; dest := dest frame;
                 source := source frame; via := via frame;
                 control := control frame;
                 frame_type := frame_type frame;
                 ns := ns frame; nr := nr frame; pf := pf frame;
                 pid := at_index data offset; info := info frame |},
              S offset)
        else (frame, offset)
      else (frame, offset) in
    (* Info field *)
    if (offset <? length data)%nat
    then {| raw := raw frame; dest := dest frame; source := source frame;
            via := via frame; control := control frame;
            frame_type := frame_type frame;
            ns := ns frame; nr := nr frame; pf := pf frame;
            pid := pid frame; info := drop offset data |}
    else frame.

(** [kiss_unescape]: a FESC with a successor consumes two bytes and
    appends one; a FESC that is the last byte consumes one byte and
    appends nothing. *)
Fixpoint kiss_unescape (data : bytes) : bytes :=
  match data with
  | [] => []
  | b :: rest =>
      if b =? FESC then
        match rest with
        | next :: rest' => unescaped_operand next :: kiss_unescape rest'
        | [] => []
        end
      else b :: kiss_unescape rest
  end.

(** *** The channel model: [Station] and [RFChannel] *)

(** [a < b] on timestamps, as a boolean. *)
Definition Qltb (a b : Q) : bool := negb (Qle_bool b a).

(** The [asyncio.StreamWriter] of a connection, as the channel sees it:
    [write] followed by [drain] either hands the data to the peer or, once
    the connection is lost, raises. *)
Record StreamWriter := { connection_lost : bool; written : list bytes }.

(** [writer.write(data); await writer.drain()]; [None] stands for the
    exception. *)
Definition write_drain (w : StreamWriter) (data : bytes)
  : option StreamWriter :=
  if connection_lost w then None
  else Some {| connection_lost := false; written := written w ++ [data] |}.

(** A [Station] object. Stations are compared and hashed by [id] alone, and
    ids are handed out once each, so the object of station [n] is kept in
    the object store under the key [n], and a reference to a station is
    its id. *)
Record Station := {
  writer : StreamWriter;
  port : Z;
  addr : string;
  tx_count : Z;
  rx_count : Z;
  last_tx : Q
}.

(** The object read through a reference that points nowhere; no reference
    handed out by [add_station] does. *)
#[global] Instance Station_inhabited : Inhabited Station :=
  populate {| writer := {| connection_lost := true; written := [] |};
              port := 0; addr := ""; tx_count := 0; rx_count := 0;
              last_tx := 0%Q |}.

(** What the simulator logs at level INFO or above ([logger.debug] calls
    produce nothing at the configured level). *)
Inductive LogRecord :=
| LogConnected (station_id : Z) (port : Z) (addr : string)
| LogDisconnected (station_id : Z) (tx rx : Z)
| LogActiveStations (counts : list (Z * nat))
| LogFrameTooShort (station_id : Z) (len : nat)
| LogCollision (station_id : Z)
| LogTx (frame_id : Z) (station_id : Z) (frame : AX25Frame)
        (is_dupe : bool)
| LogDeliveryFailed (station_id : Z).

(** The fields of an [RFChannel] object (the lock apart). [stations] is
    the dict from port to the set of stations, in the insertion order of
    its keys; a set is a duplicate-free list of station references. *)
Record RFChannel := {
  stations : list (Z * list Z);
  station_counter : Z;
  frame_counter : Z;
  channel_busy : bool;
  channel_busy_until : Q;
  ber : Q;
  collision_count : Z;
  recent_frames : gmap string Q
}.

(** The channel together with what its methods act on: the station
    objects, the log, and the number of values drawn from [random]. *)
Record World := {
  chan : RFChannel;
  objects : gmap Z Station;
  log : list LogRecord;
  draws : nat
}.

(** [RFChannel.__init__] *)
Definition RFChannel_init (ber : Q) : RFChannel :=
  {| stations := map (fun p => (p, [])) STATION_PORTS;
     station_counter := 0; frame_counter := 0;
     channel_busy := false; channel_busy_until := 0%Q; ber := ber;
     collision_count := 0; recent_frames := ∅ |}.

Definition World_init (ber : Q) : World :=
  {| chan := RFChannel_init ber; objects := ∅; log := []; draws := 0 |}.

Definition with_chan (c : RFChannel) (w : World) : World :=
  {| chan := c; objects := objects w; log := log w; draws := draws w |}.

Definition with_objects (o : gmap Z Station) (w : World) : World :=
  {| chan := chan w; objects := o; log := log w; draws := draws w |}.

Definition with_draws (k : nat) (w : World) : World :=
  {| chan := chan w; objects := objects w; log := log w; draws := k |}.

(** [logger.info], [logger.warning], [logger.error] *)
Definition logged (r : LogRecord) (w : World) : World :=
  {| chan := chan w; objects := objects w; log := log w ++ [r];
     draws := draws w |}.

Definition with_stations (s : list (Z * list Z)) (c : RFChannel)
  : RFChannel :=
  {| stations := s; station_counter := station_counter c;
     frame_counter := frame_counter c; channel_busy := channel_busy c;
     channel_busy_until := channel_busy_until c; ber := ber c;
     collision_count := collision_count c;
     recent_frames := recent_frames c |}.

(** [self.stations[port]]; [None] stands for [KeyError]. *)
Fixpoint stations_get (port : Z) (d : list (Z * list Z))
  : option (list Z) :=
  match d with
  | [] => None
  | (p, set) :: rest => if p =? port then Some set
                        else stations_get port rest
  end.

(** Replace the set stored under [port]. *)
Fixpoint stations_set (port : Z) (set : list Z) (d : list (Z * list Z))
  : list (Z * list Z) :=
  match d with
  | [] => []
  | (p, old) :: rest => if p =? port then (p, set) :: rest
                        else (p, old) :: stations_set port set rest
  end.

(** [set.add] and [set.discard] on a set of station references. *)
Definition set_add (r : Z) (set : list Z) : list Z :=
  if existsb (Z.eqb r) set then set else set ++ [r].

Definition set_discard (r : Z) (set : list Z) : list Z :=
  List.filter (fun x => negb (x =? r)) set.

(** [_log_station_count]: the ports of [ACTIVE_PORTS] whose set is not
    empty, each with the size of its set. *)
Definition log_station_count (w : World) : World :=
  let counts :=
    flat_map
      (fun p =>
         match stations_get p (stations (chan w)) with
         | Some (r :: set) => [(p, length (r :: set))]
         | _ => []
         end)
      ACTIVE_PORTS in
  logged (LogActiveStations counts) w.

(** [add_station]: the new station's reference, or [None] when
    [self.stations[port]] raises [KeyError] (the counter has been
    incremented by then). *)
Definition add_station (wr : StreamWriter) (port : Z) (addr : string)
    (w : World) : World * option Z :=
  let c := chan w in
  let n := station_counter c + 1 in
  let c :=
    {| stations := stations c; station_counter := n;
       frame_counter := frame_counter c; channel_busy := channel_busy c;
       channel_busy_until := channel_busy_until c; ber := ber c;
       collision_count := collision_count c;
       recent_frames := recent_frames c |} in
  let station :=
    {| writer := wr; port := port; addr := addr; tx_count := 0;
       rx_count := 0; last_tx := 0%Q |} in
  match stations_get port (stations c) with
  | None => (with_chan c w, None)
  | Some set =>
      let c := with_stations
                 (stations_set port (set_add n set) (stations c)) c in
      (log_station_count
         (logged (LogConnected n port addr)
            (with_objects (<[n := station]> (objects w)) (with_chan c w))),
       Some n)
  end.

(** [remove_station]; [None] stands for [KeyError]. *)
Definition remove_station (station : Z) (w : World) : option World :=
  let s := objects w !!! station in
  match stations_get (port s) (stations (chan w)) with
  | None => None
  | Some set =>
      let c := with_stations
                 (stations_set (port s) (set_discard station set)
                    (stations (chan w))) (chan w) in
      Some (log_station_count
              (logged (LogDisconnected station (tx_count s) (rx_count s))
                 (with_chan c w)))
  end.

(** The first locked block of [transmit] (lines 317-332): collision
    check, busy window, frame counter, sender's [tx_count]. Returns the
    frame id. *)
Definition mark_busy (from_station : Z) (current_time : Q) (len : nat)
    (w : World) : World * Z :=
  let c := chan w in
  let collision :=
    channel_busy c && Qltb current_time (channel_busy_until c) in
  let frame_duration_ms :=
    ((inject_Z (Z.of_nat len * 8) / 1200) * 1000 + TX_DELAY_MS)%Q in
  let frame_id := frame_counter c + 1 in
  let c :=
    {| stations := stations c; station_counter := station_counter c;
       frame_counter := frame_id;
       channel_busy := true;
       channel_busy_until := (current_time + frame_duration_ms / 1000)%Q;
       ber := ber c;
       collision_count :=
         if collision then collision_count c + 1 else collision_count c;
       recent_frames := recent_frames c |} in
  let w := if collision then logged (LogCollision from_station) w else w in
  let s := objects w !!! from_station in
  let s :=
    {| writer := writer s; port := port s; addr := addr s;
       tx_count := tx_count s + 1; rx_count := rx_count s;
       last_tx := last_tx s |} in
  (with_objects (<[from_station := s]> (objects w)) (with_chan c w),
   frame_id).

(** The second locked block of [transmit] (lines 337-345): duplicate
    check against [recent_frames], then record and purge. Returns
    [is_dupe]. *)
Definition check_duplicate (frame_hash : string) (current_time : Q)
    (w : World) : World * bool :=
  let c := chan w in
  let is_dupe :=
    match recent_frames c !! frame_hash with
    | Some t => Qltb (current_time - t) 1
    | None => false
    end in
  let recent := <[frame_hash := current_time]> (recent_frames c) in
  let recent :=
    filter (fun ht : string * Q => Qltb 5 (current_time - ht.2) = false)
           recent in
  let c :=
    {| stations := stations c; station_counter := station_counter c;
       frame_counter := frame_counter c; channel_busy := channel_busy c;
       channel_busy_until := channel_busy_until c; ber := ber c;
       collision_count := collision_count c;
       recent_frames := recent |} in
  (with_chan c w, is_dupe).

(** The third locked block (lines 368-373): every station of every
    port's set that is not the sender. *)
Definition recipients_of (from_station : Z) (w : World) : list Z :=
  flat_map
    (fun entry : Z * list Z =>
       List.filter (fun station => negb (station =? from_station))
                   entry.2)
    (stations (chan w)).

(** The delivery loop (lines 375-382). *)
Fixpoint deliver (kiss_out : bytes) (recipients : list Z) (w : World)
  : World :=
  match recipients with
  | [] => w
  | station :: rest =>
      let s := objects w !!! station in
      match write_drain (writer s) kiss_out with
      | Some wr =>
          let s :=
            {| writer := wr; port := port s; addr := addr s;
               tx_count := tx_count s; rx_count := rx_count s + 1;
               last_tx := last_tx s |} in
          deliver kiss_out rest
                  (with_objects (<[station := s]> (objects w)) w)
      | None => deliver kiss_out rest (logged (LogDeliveryFailed station) w)
      end
  end.

(** [kiss_out] of line 365. *)
Definition kiss_out_of (kiss_cmd : Z) (ax25_data : bytes) : bytes :=
  [FEND; kiss_cmd] ++ kiss_escape ax25_data ++ [FEND].

Section Transmit.

(** [hashlib.md5(data).hexdigest()[:12]] *)
Variable md5_hexdigest_12 : bytes -> string.

(** The [k]-th value returned by [random.random()]. *)
Variable random : nat -> Q.

(** [_frame_hash] *)
Definition frame_hash_of (ax25_data : bytes) : string :=
  md5_hexdigest_12 ax25_data.

(** The inner loop [for bit in range(8)] of [apply_bit_errors] on one
    byte; [k] draws have been made before it. *)
Definition flip_bits (ber : Q) (k : nat) (b : Z) : Z :=
  fold_left
    (fun (acc : Z) (bit : nat) =>
       if Qltb (random (k + bit)) ber
       then Z.lxor acc (Z.shiftl 1 (Z.of_nat bit)) else acc)
    (seq 0 8) b.

Fixpoint flip_bytes (ber : Q) (k : nat) (data : bytes) : bytes :=
  match data with
  | [] => []
  | b :: rest => flip_bits ber k b :: flip_bytes ber (k + 8) rest
  end.

(** [apply_bit_errors]: the result and the number of draws made. *)
Definition apply_bit_errors (data : bytes) (ber : Q) (k : nat)
  : bytes * nat :=
  if Qle_bool ber 0 then (data, k)
  else (flip_bytes ber k data, (k + 8 * length data)%nat).

(** The bytes that [transmit] re-encodes (lines 361-362). *)
Definition on_air (ax25_data : bytes) (w : World) : bytes * nat :=
  if Qltb 0 (ber (chan w))
  then apply_bit_errors ax25_data (ber (chan w)) (draws w)
  else (ax25_data, draws w).

(** What a call of [transmit] holds in its local variables while it
    sleeps for the propagation delay. *)
Record InFlight := {
  flight_id : Z;
  flight_cmd : Z;
  flight_data : bytes;
  flight_from : Z
}.

(** [RFChannel.transmit] from its first line to
    [await asyncio.sleep(PROPAGATION_DELAY_MS / 1000)] (lines 299-358);
    the lock is free whenever a coroutine asks for it, so no other
    coroutine runs in between. [current_time] is the value of [time.time()] on entry; [None]
    stands for the early [return]. *)
Definition transmit_until_sleep (kiss_frame : bytes) (from_station : Z)
    (current_time : Q) (w : World) : World * option InFlight :=
  if (length kiss_frame <? 3)%nat then (w, None)
  else
    let kiss_cmd := at_index kiss_frame 0 in
    let ax25_data := kiss_unescape (drop 1 kiss_frame) in
    if (length ax25_data <? 14)%nat then
      (logged (LogFrameTooShort from_station (length ax25_data)) w, None)
    else
      let frame := decode_ax25_frame ax25_data in
      let '(w, frame_id) :=
        mark_busy from_station current_time (length ax25_data) w in
      let '(w, is_dupe) :=
        check_duplicate (frame_hash_of ax25_data) current_time w in
      let w := logged (LogTx frame_id from_station frame is_dupe) w in
      (w, Some {| flight_id := frame_id; flight_cmd := kiss_cmd;
                  flight_data := ax25_data; flight_from := from_station |}).

(** [RFChannel.transmit] after the sleep (lines 360-384), in the world as
    it is by then. *)
Definition transmit_after_sleep (p : InFlight) (w : World) : World :=
  let '(ax25_out, k) := on_air (flight_data p) w in
  let w := with_draws k w in
  let kiss_out := kiss_out_of (flight_cmd p) ax25_out in
  deliver kiss_out (recipients_of (flight_from p) w) w.

(** [RFChannel.transmit] with no other coroutine taking a turn while it
    sleeps. *)
Definition transmit (kiss_frame : bytes) (from_station : Z)
    (current_time : Q) (w : World) : World :=
  match transmit_until_sleep kiss_frame from_station current_time w with
  | (w, Some p) => transmit_after_sleep p w
  | (w, None) => w
  end.

End Transmit.

(** The local variables [buffer] and [in_frame] of [handle_station]. *)
Record Framer := { buffer : bytes; in_frame : bool }.

Definition Framer_init : Framer := {| buffer := []; in_frame := false |}.

(** The loop [for byte in data] of [handle_station] (lines 415-424) on one
    chunk read from the connection: the frames handed to [transmit], in
    order, and the state carried to the next chunk. *)
Fixpoint feed (data : bytes) (st : Framer) : list bytes * Framer :=
  match data with
  | [] => ([], st)
  | byte :: rest =>
      if byte =? FEND then
        let complete :=
          if in_frame st && (0 <? length (buffer st))%nat
          then [buffer st] else [] in
        let '(frames, st') :=
          feed rest {| buffer := []; in_frame := true |} in
        (complete ++ frames, st')
      else if in_frame st then
        feed rest {| buffer := buffer st ++ [byte]; in_frame := true |}
      else feed rest st
  end.

End RfSimulator.

(** ** Scripts/interactive-test.py *)

Module InteractiveTest.

(** [kiss_unescape] of Scripts/interactive-test.py (Scripts/visual-test.py
    has the same body): the test is [data[i] == FESC and i + 1 < len(data)],
    so a FESC that is the last byte takes the [else] branch and is
    appended as it is. *)
Fixpoint kiss_unescape (data : bytes) : bytes :=
  match data with
  | [] => []
  | b :: rest =>
      match rest with
      | next :: rest' =>
          if b =? FESC then unescaped_operand next :: kiss_unescape rest'
          else b :: kiss_unescape rest
      | [] => [b]
      end
  end.

(** [build_kiss_frame]: [cmd = (port << 4) | 0x00]. *)
Definition build_kiss_frame (ax25_data : bytes) (port : Z) : bytes :=
  let cmd := Z.lor (Z.shiftl port 4) 0x00 in
  [FEND; cmd] ++ kiss_escape ax25_data ++ [FEND].

End InteractiveTest.

(** ** Scripts/visual-test.py *)

Module VisualTest.

(** [encode_ax25_address]; [None] stands for the [ValueError] that
    [bytearray.append] raises for a value outside [range(256)]. *)
Definition encode_ax25_address (callsign : string) (ssid : Z)
    (is_last : bool) : option bytes :=
  let call := str_take 6 (ljust 6 (upper callsign)) in
  let data := map (fun c => Z.shiftl (ord c) 1) (list_ascii_of_string call) in
  if forallb (fun v => v <? 256) data then
    let ssid_byte := Z.lor 0x60 (Z.shiftl (Z.land ssid 0x0F) 1) in
    let ssid_byte := if is_last then Z.lor ssid_byte 0x01 else ssid_byte in
    Some (data ++ [ssid_byte])
  else None.

End VisualTest.

(** ** Scripts/kiss-monitor.py *)

Module KissMonitor.

Inductive FrameType :=
| UI | I | RR | RNR | REJ | SABM | SABME | UA | DM | DISC | FRMR | XID
| TEST | UNKNOWN.

(** [AX25Decoder.decode_frame_type]: (frame type, N(S), N(R), P/F). *)
Definition decode_frame_type (control : Z)
  : FrameType * option Z * option Z * bool :=
  if Z.land control 0x01 =? 0 then
    let ns := Z.land (Z.shiftr control 1) 0x07 in
    let nr := Z.land (Z.shiftr control 5) 0x07 in
    let pf := negb (Z.land control 0x10 =? 0) in
    (I, Some ns, Some nr, pf)
  else if Z.land control 0x03 =? 0x01 then
    let nr := Z.land (Z.shiftr control 5) 0x07 in
    let pf := negb (Z.land control 0x10 =? 0) in
    let s_type := Z.land (Z.shiftr control 2) 0x03 in
    if s_type =? 0 then (RR, None, Some nr, pf)
    else if s_type =? 1 then (RNR, None, Some nr, pf)
    else if s_type =? 2 then (REJ, None, Some nr, pf)
    else (UNKNOWN, None, Some nr, pf)
  else
    let pf := negb (Z.land control 0x10 =? 0) in
    let u_type := Z.land control 0xEF in
    if u_type =? 0x03 then (UI, None, None, pf)
    else if u_type =? 0x2F then (SABM, None, None, pf)
    else if u_type =? 0x6F then (SABME, None, None, pf)
    else if u_type =? 0x63 then (UA, None, None, pf)
    else if u_type =? 0x0F then (DM, None, None, pf)
    else if u_type =? 0x43 then (DISC, None, None, pf)
    else if u_type =? 0x87 then (FRMR, None, None, pf)
    else if u_type =? 0xAF then (XID, None, None, pf)
    else if u_type =? 0xE3 then (TEST, None, None, pf)
    else (UNKNOWN, None, None, pf).

End KissMonitor.

(** ** tnc4_config.py *)

Module Tnc4Config.

(** The [for b in data] loop of [kiss_unescape] in tnc4_config.py, with the
    flag [esc] carried from one byte to the next. *)
Fixpoint kiss_unescape_from (esc : bool) (data : bytes) : bytes :=
  match data with
  | [] => []
  | b :: rest =>
      if esc then unescaped_operand b :: kiss_unescape_from false rest
      else if b =? FESC then kiss_unescape_from true rest
      else b :: kiss_unescape_from false rest
  end.

Definition kiss_unescape (data : bytes) : bytes :=
  kiss_unescape_from false data.

(** [kiss_frame]: FEND + type + escaped payload + FEND; the loop of the
    source is the loop of [kiss_escape]. *)
Definition kiss_frame (kiss_type : Z) (payload : bytes) : bytes :=
  [FEND; kiss_type] ++ kiss_escape payload ++ [FEND].

End Tnc4Config.

(** Whether a scan of [data] ends inside an escape, that is, on a FESC that
    is not itself the operand of an earlier FESC. *)
Fixpoint escape_open (data : bytes) : bool :=
  match data with
  | [] => false
  | b :: rest =>
      if b =? FESC then
        match rest with
        | _ :: rest' => escape_open rest'
        | [] => true
        end
      else escape_open rest
  end.

(** ** Vocabulary of the statements about address fields *)

(** An upper-case letter A-Z. *)
Definition is_upper_letter (c : ascii) : Prop := 65 <= ord c <= 90.

(** The seventh byte of an address field, as [encode_ax25_address] builds
    it. *)
Definition ssid_byte_of (ssid : Z) (is_last : bool) : Z :=
  let b := Z.lor 0x60 (Z.shiftl (Z.land ssid 0x0F) 1) in
  if is_last then Z.lor b 0x01 else b.

(** One step of the loop [for i in range(6)] of [decode_ax25_address]. *)
Definition callsign_step (callsign : string) (b : Z) : string :=
  let char := Z.land (Z.shiftr b 1) 0x7F in
  if negb (char =? 0x20)
  then (callsign +:+ String (chr char) EmptyString)%string
  else callsign.

(** ** Vocabulary of the statements about the channel *)

Module Channel.
Import RfSimulator.

(** The two length guards of [transmit] (lines 302 and 309) let the frame
    through. *)
Definition accepted (kiss_frame : bytes) : Prop :=
  (3 <= length kiss_frame)%nat
  /\ (14 <= length (kiss_unescape (drop 1 kiss_frame)))%nat.

(** Station [r] is in the set of some port. *)
Definition registered (r : Z) (w : World) : Prop :=
  exists port set, In (port, set) (stations (chan w)) /\ In r set.

(** What has been written to the connection of station [r], and its
    [rx_count]. *)
Definition outbox (r : Z) (w : World) : list bytes :=
  written (writer (objects w !!! r)).

Definition rx_of (r : Z) (w : World) : Z := rx_count (objects w !!! r).

Definition reachable (r : Z) (w : World) : Prop :=
  connection_lost (writer (objects w !!! r)) = false.

(** How many times station [r] occurs among the recipients of a frame
    sent by [from_station]. *)
Definition copies (from_station r : Z) (w : World) : nat :=
  count_occ Z.eq_dec (recipients_of from_station w) r.

(** Between [w] and [w'] every registered station other than the sender
    whose connection is up has been written [frame], once per occurrence
    among the recipients, and its [rx_count] has followed. *)
Definition delivered_to_others (frame : bytes) (from_station : Z)
    (w w' : World) : Prop :=
  forall r, registered r w -> r <> from_station -> reachable r w ->
    (1 <= copies from_station r w)%nat
    /\ outbox r w' = outbox r w ++ repeat frame (copies from_station r w)
    /\ rx_of r w' = rx_of r w + Z.of_nat (copies from_station r w).

(** No station is registered twice. *)
Definition registry_ok (w : World) : Prop :=
  NoDup (flat_map snd (stations (chan w))).

(** What [add_station] and [remove_station] maintain: no station is
    registered twice, and no registered id exceeds the counter that ids
    are drawn from. *)
Definition registry_inv (w : World) : Prop :=
  registry_ok w
  /\ forall r, registered r w -> r <= station_counter (chan w).

(** The [is_dupe] flags of the transmissions logged so far, oldest
    first. *)
Fixpoint dupe_flags (l : list LogRecord) : list bool :=
  match l with
  | [] => []
  | LogTx _ _ _ is_dupe :: rest => is_dupe :: dupe_flags rest
  | _ :: rest => dupe_flags rest
  end.

(** The stations for which a failed delivery has been logged. *)
Fixpoint delivery_failures (l : list LogRecord) : list Z :=
  match l with
  | [] => []
  | LogDeliveryFailed r :: rest => r :: delivery_failures rest
  | _ :: rest => delivery_failures rest
  end.

(** One call of [transmit]: the frame, the sender, the time of the
    call. *)
Record Call := { call_frame : bytes; call_from : Z; call_time : Q }.

Section Runs.
Variable md5_hexdigest_12 : bytes -> string.
Variable random : nat -> Q.

(** The frame that [transmit] writes to the recipients. *)
Definition relayed (kiss_frame : bytes) (w : World) : bytes :=
  kiss_out_of (at_index kiss_frame 0)
    (on_air random (kiss_unescape (drop 1 kiss_frame)) w).1.

(** The digest under which [transmit] records the frame. *)
Definition digest (kiss_frame : bytes) : string :=
  frame_hash_of md5_hexdigest_12 (kiss_unescape (drop 1 kiss_frame)).

(** Calls of [transmit] made one after the other. *)
Definition run (calls : list Call) (w : World) : World :=
  fold_left
    (fun w c =>
       transmit md5_hexdigest_12 random (call_frame c) (call_from c)
                (call_time c) w)
    calls w.
End Runs.

End Channel.

(** ** Sample data for running the model *)

Module Sample.
Import RfSimulator.

(** A stand-in for the truncated MD5 digest: the bytes themselves, as
    text. Like the digest, it gives equal frames equal keys. *)
Definition digest_of (data : bytes) : string :=
  string_of_list_ascii (map chr data).

(** A random source that always returns 1/2. *)
Definition coin (k : nat) : Q := (1 # 2)%Q.

(** The UI frame TEST-1 -> TEST-2 with PID 0xF0 and payload "HELLO", as
    [build_ui_frame] of the test scripts lays it out. *)
Definition ui_hello : bytes :=
  [0xA8; 0x8A; 0xA6; 0xA8; 0x40; 0x40; 0x64;
   0xA8; 0x8A; 0xA6; 0xA8; 0x40; 0x40; 0x63;
   0x03; 0xF0; 0x48; 0x45; 0x4C; 0x4C; 0x4F].

(** What [handle_station] hands to [transmit] for it: the command byte
    and the escaped payload. *)
Definition kiss_hello : bytes := 0x00 :: kiss_escape ui_hello.

(** A frame of two bytes, as [handle_station] passes it on when it
    reads C0 00 41 C0. *)
Definition kiss_tiny : bytes := [0x00; 0x41].

Definition connected : StreamWriter :=
  {| connection_lost := false; written := [] |}.

Definition disconnected : StreamWriter :=
  {| connection_lost := true; written := [] |}.

(** Stations 1 and 3 on port 8001 and station 2 on port 8002; the peer
    of station 3 is gone. *)
Definition three_stations : World :=
  let w := World_init 0 in
  let w := (add_station connected 8001 "10.0.0.1:5001" w).1 in
  let w := (add_station connected 8002 "10.0.0.2:5002" w).1 in
  (add_station disconnected 8001 "10.0.0.3:5003" w).1.

End Sample.

(** ** Vocabulary of the further statements *)

Module Further.
Import RfSimulator.

(** One step of the loop [for bit in range(8)] of [apply_bit_errors]:
    the body of the fold in [flip_bits]. *)
Definition flip_step (random : nat -> Q) (ber : Q) (k : nat) (acc : Z)
    (bit : nat) : Z :=
  if Qltb (random (k + bit)%nat) ber
  then Z.lxor acc (Z.shiftl 1 (Z.of_nat bit)) else acc.

(** The peer of station [station] goes away: from then on a write to its
    connection raises. *)
Definition lose_connection (station : Z) (w : World) : World :=
  match objects w !! station with
  | Some s =>
      let s :=
        {| writer := {| connection_lost := true;
                        written := written (writer s) |};
           port := port s; addr := addr s; tx_count := tx_count s;
           rx_count := rx_count s; last_tx := last_tx s |} in
      with_objects (<[station := s]> (objects w)) w
  | None => w
  end.

Section Reach.
Variable md5_hexdigest_12 : bytes -> string.
Variable random : nat -> Q.

(** The worlds that the simulator can be in: it starts from
    [RFChannel.__init__]; stations connect and disconnect; calls of
    [transmit] run up to their sleep, and later broadcast; peers go
    away. *)
Inductive Reachable (ber : Q) : World -> Prop :=
| Reach_init : Reachable ber (World_init ber)
| Reach_add (wr : StreamWriter) (port : Z) (addr : string) (w : World) :
    Reachable ber w -> Reachable ber (add_station wr port addr w).1
| Reach_remove (station : Z) (w w' : World) :
    Reachable ber w -> remove_station station w = Some w' ->
    Reachable ber w'
| Reach_transmit (f : bytes) (from_station : Z) (now : Q) (w : World) :
    Reachable ber w ->
    Reachable ber
      (transmit_until_sleep md5_hexdigest_12 f from_station now w).1
| Reach_broadcast (p : InFlight) (w : World) :
    Reachable ber w -> Reachable ber (transmit_after_sleep random p w)
| Reach_lost (station : Z) (w : World) :
    Reachable ber w -> Reachable ber (lose_connection station w).

End Reach.

(** Every registered station has its object in the store, and the object
    carries the port under which the station is registered. *)
Definition registry_backed (w : World) : Prop :=
  forall port set r,
    In (port, set) (stations (chan w)) -> In r set ->
    exists s, objects w !! r = Some s /\ RfSimulator.port s = port.

(** The frame ids of the transmissions logged so far, and the senders of
    the collisions logged so far, oldest first. *)
Fixpoint tx_ids (l : list LogRecord) : list Z :=
  match l with
  | [] => []
  | LogTx frame_id _ _ _ :: rest => frame_id :: tx_ids rest
  | _ :: rest => tx_ids rest
  end.

Fixpoint collisions (l : list LogRecord) : list Z :=
  match l with
  | [] => []
  | LogCollision station :: rest => station :: collisions rest
  | _ :: rest => collisions rest
  end.

(** The sample world after two stations have each sent the sample frame,
    the second while the channel is still busy with the first. *)
Definition after_two_calls : World :=
  transmit Sample.digest_of Sample.coin Sample.kiss_hello 2 (1 # 10)
    (transmit Sample.digest_of Sample.coin Sample.kiss_hello 1 0
       Sample.three_stations).

(** The address and the flag that [decode_ax25_address] reads from one
    address field of seven bytes. *)
Definition field_address (field : bytes) : AX25Address :=
  (decode_ax25_address field 0).1.

Definition field_is_last (field : bytes) : bool :=
  negb (Z.land (at_index field 6) 0x01 =? 0).

(** The address fields of a frame, the source first, followed by [tail]:
    every field but the last has the is-last bit clear, and the last one
    has it set, or fewer than seven bytes follow it. *)
Fixpoint chained (fields : list bytes) (tail : bytes) : Prop :=
  match fields with
  | [] => True
  | field :: rest =>
      match rest with
      | [] => field_is_last field = true \/ (length tail < 7)%nat
      | _ :: _ => field_is_last field = false /\ chained rest tail
      end
  end.

(** The control bytes after which [decode_ax25_frame] reads a PID: those
    of the information frames and of the UI frames. *)
Definition has_pid (c : Z) : bool :=
  (Z.land c 0x01 =? 0) || (Z.land c 0xEF =? 0x03).

(** The characters a call sign is written with: printable ASCII other
    than the space. *)
Definition is_call_char (c : ascii) : Prop := 33 <= ord c <= 126.

(** The addresses that the decoder can return: a call sign of at most six
    characters and a secondary id from 0 to 15. *)
Definition address_ok (a : AX25Address) : Prop :=
  (String.length (callsign a) <= 6)%nat /\ 0 <= ssid a <= 15.

End Further.

(** ** tnc4_config.py: frames read from the serial line *)

Module Tnc4Frames.

(** The loop [while i < len(raw) and raw[i] == FEND: i += 1]. *)
Fixpoint skip_fends (raw : bytes) : bytes :=
  match raw with
  | [] => []
  | b :: rest => if b =? FEND then skip_fends rest else raw
  end.

(** The loop [while i < len(raw) and raw[i] != FEND] that fills
    [frame_bytes]: the bytes collected, and what is left from index [i]
    on. *)
Fixpoint collect (raw : bytes) : bytes * bytes :=
  match raw with
  | [] => ([], [])
  | b :: rest =>
      if b =? FEND then ([], raw)
      else let '(frame_bytes, rest') := collect rest in
           (b :: frame_bytes, rest')
  end.

(** The outer loop [while i < len(raw)] of [extract_kiss_frames], on the
    bytes from index [i] on; every iteration moves [i] forward, and
    [fuel] bounds the number of iterations. *)
Fixpoint extract_loop (fuel : nat) (raw : bytes) : list (Z * bytes) :=
  match fuel with
  | O => []
  | S fuel' =>
      match raw with
      | [] => []
      | b :: rest =>
          if b =? FEND then
            let rest := skip_fends rest in
            match rest with
            | [] => []
            | _ :: _ =>
                let '(frame_bytes, rest) := collect rest in
                let found :=
                  match frame_bytes with
                  | [] => []
                  | _ :: _ =>
                      match Tnc4Config.kiss_unescape frame_bytes with
                      | [] => []
                      | kiss_type :: payload => [(kiss_type, payload)]
                      end
                  end in
                found ++ extract_loop fuel' rest
            end
          else extract_loop fuel' rest
      end
  end.

Definition extract_kiss_frames (raw : bytes) : list (Z * bytes) :=
  extract_loop (length raw) raw.

End Tnc4Frames.

(** ** Scripts/kiss-monitor.py: the frame decoder of the monitor *)

Module KissMonitorDecoder.

(** The fields of a [KISSDecoder]. *)
Record KISSDecoder := { buffer : bytes; in_frame : bool }.

Definition KISSDecoder_init : KISSDecoder :=
  {| buffer := []; in_frame := false |}.

(** [KISSDecoder.feed]: the frames returned, and the decoder as the call
    leaves it. *)
Fixpoint feed (data : bytes) (self : KISSDecoder)
  : list bytes * KISSDecoder :=
  match data with
  | [] => ([], self)
  | byte :: rest =>
      if byte =? FEND then
        let complete :=
          if in_frame self && (0 <? length (buffer self))%nat
          then [buffer self] else [] in
        let '(frames, self') :=
          feed rest {| buffer := []; in_frame := true |} in
        (complete ++ frames, self')
      else if in_frame self then
        if byte =? FESC then feed rest self
        else if (0 <? length (buffer self))%nat
                && (List.last (buffer self) 0 =? FESC) then
          let buffer := removelast (buffer self) in
          let buffer :=
            if byte =? TFEND then buffer ++ [FEND]
            else if byte =? TFESC then buffer ++ [FESC]
            else buffer in
          feed rest {| buffer := buffer; in_frame := true |}
        else feed rest {| buffer := buffer self ++ [byte]; in_frame := true |}
      else feed rest self
  end.

End KissMonitorDecoder.

(** ** Scripts/visual-test.py, Scripts/interactive-test.py: the receiving
    side of a test station *)

Module TestStation.

(** The fields [parser_buffer] and [in_frame] of a [Station]. *)
Record Parser := { parser_buffer : bytes; in_frame : bool }.

Definition Parser_init : Parser :=
  {| parser_buffer := []; in_frame := false |}.

(** [Station._process_received] ([_process_data] in interactive-test.py):
    the frames passed to [_handle_frame], in order, and the parser as the
    call leaves it. *)
Fixpoint process_received (data : bytes) (self : Parser)
  : list bytes * Parser :=
  match data with
  | [] => ([], self)
  | byte :: rest =>
      if byte =? FEND then
        let handled :=
          if in_frame self && (0 <? length (parser_buffer self))%nat then
            let kiss_data := parser_buffer self in
            if (1 <? length kiss_data)%nat
            then [InteractiveTest.kiss_unescape (drop 1 kiss_data)]
            else []
          else [] in
        let '(frames, self') :=
          process_received rest {| parser_buffer := []; in_frame := true |} in
        (handled ++ frames, self')
      else if in_frame self then
        process_received rest
          {| parser_buffer := parser_buffer self ++ [byte];
             in_frame := true |}
      else process_received rest self
  end.

End TestStation.

(** ** Scripts/visual-test.py, Scripts/interactive-test.py: the frames the
    test stations build *)

Module TestFrames.

(** [s.split("-")]: the pieces between the dashes; never an empty list. *)
Fixpoint split_dash (s : string) : list string :=
  match s with
  | EmptyString => [EmptyString]
  | String c rest =>
      if Ascii.eqb c "-" then EmptyString :: split_dash rest
      else match split_dash rest with
           | part :: parts => String c part :: parts
           | [] => [String c EmptyString]
           end
  end.

Section Builders.

(** [int(text)]; [None] stands for [ValueError]. *)
Variable int : string -> option Z.

(** [parts[0]] *)
Definition call_of (parts : list string) : string := hd EmptyString parts.

(** [int(parts[1]) if len(parts) > 1 else 0] *)
Definition ssid_of (parts : list string) : option Z :=
  match parts with
  | _ :: part :: _ => int part
  | _ => Some 0
  end.

(** The loop [for i, v in enumerate(via)] of [build_ui_frame]: the bytes
    it appends from index [i] on, for a path of [n] entries. *)
Fixpoint via_fields (via : list string) (i n : nat) : option bytes :=
  match via with
  | [] => Some []
  | v :: rest =>
      let v_parts := split_dash (upper v) in
      let v_call := call_of v_parts in
      match ssid_of v_parts with
      | None => None
      | Some v_ssid =>
          match VisualTest.encode_ax25_address v_call v_ssid
                  (Z.of_nat i =? Z.of_nat n - 1) with
          | None => None
          | Some field =>
              match via_fields rest (S i) n with
              | None => None
              | Some fields => Some (field ++ fields)
              end
          end
      end
  end.

(** [build_ui_frame] of Scripts/visual-test.py; the one of
    Scripts/interactive-test.py is the same without the via path. [None]
    stands for an exception. *)
Definition build_ui_frame (source dest : string) (payload : bytes)
    (via : list string) : option bytes :=
  let src_parts := split_dash (upper source) in
  let src_call := call_of src_parts in
  match ssid_of src_parts with
  | None => None
  | Some src_ssid =>
      let dst_parts := split_dash (upper dest) in
      let dst_call := call_of dst_parts in
      match ssid_of dst_parts with
      | None => None
      | Some dst_ssid =>
          match VisualTest.encode_ax25_address dst_call dst_ssid false with
          | None => None
          | Some dst_field =>
              match VisualTest.encode_ax25_address src_call src_ssid
                      (length via =? 0)%nat with
              | None => None
              | Some src_field =>
                  match via_fields via 0 (length via) with
                  | None => None
                  | Some fields =>
                      Some (dst_field ++ src_field ++ fields
                            ++ [0x03] ++ [0xF0] ++ payload)
                  end
              end
          end
      end
  end.

(** [build_sabm] (control byte 0x3F) and [build_ua] (control byte 0x73):
    the two differ in the control byte only. *)
Definition build_unnumbered (control : Z) (source dest : string)
  : option bytes :=
  let src_parts := split_dash (upper source) in
  let dst_parts := split_dash (upper dest) in
  match ssid_of dst_parts with
  | None => None
  | Some dst_ssid =>
      match VisualTest.encode_ax25_address (call_of dst_parts) dst_ssid
              false with
      | None => None
      | Some dst_field =>
          match ssid_of src_parts with
          | None => None
          | Some src_ssid =>
              match VisualTest.encode_ax25_address (call_of src_parts)
                      src_ssid true with
              | None => None
              | Some src_field => Some (dst_field ++ src_field ++ [control])
              end
          end
      end
  end.

Definition build_sabm : string -> string -> option bytes :=
  build_unnumbered 0x3F.

Definition build_ua : string -> string -> option bytes :=
  build_unnumbered 0x73.

(** The text [text] names the station [call] with secondary id [ssid]: it
    is the call sign, of at most six printable characters, in either case,
    alone or followed by a dash and a number. *)
Definition names (text call : string) (ssid : Z) : Prop :=
  call_of (split_dash (upper text)) = call
  /\ ssid_of (split_dash (upper text)) = Some ssid
  /\ (String.length call <= 6)%nat
  /\ Forall Further.is_call_char (list_ascii_of_string call).

End Builders.

(** A reading of decimal numerals, for the examples: [int] on the texts
    that consist of digits. *)
Fixpoint digits_value (acc : Z) (s : string) : option Z :=
  match s with
  | EmptyString => Some acc
  | String c rest =>
      let n := ord c in
      if (48 <=? n) && (n <=? 57) then digits_value (10 * acc + (n - 48)) rest
      else None
  end.

Definition int_of_digits (s : string) : option Z :=
  match s with
  | EmptyString => None
  | _ => digits_value 0 s
  end.

End TestFrames.

(** ** tnc4_config.py: the commands that set the parameters of the TNC *)

Module Tnc4Commands.

Definition KISS_TYPE_TXDELAY : Z := 0x01.
Definition KISS_TYPE_PERSIST : Z := 0x02.
Definition KISS_TYPE_SLOTTIME : Z := 0x03.
Definition KISS_TYPE_TXTAIL : Z := 0x04.
Definition KISS_TYPE_DUPLEX : Z := 0x05.
Definition KISS_TYPE_HARDWARE : Z := 0x06.

Definition HW_SET_OUTPUT_GAIN : Z := 0x01.
Definition HW_SET_INPUT_GAIN : Z := 0x02.
Definition HW_RESET : Z := 0x0B.
Definition HW_SET_INPUT_TWIST : Z := 0x18.
Definition HW_SET_OUTPUT_TWIST : Z := 0x1A.
Definition HW_SAVE_EEPROM : Z := 0x2A.
Definition HW_SET_USB_POWER_ON : Z := 0x49.
Definition HW_SET_USB_POWER_OFF : Z := 0x4B.
Definition HW_SET_PTT_CHANNEL : Z := 0x4F.
Definition HW_SET_PASSALL : Z := 0x51.
Definition HW_SET_RX_REV_POLARITY : Z := 0x53.
Definition HW_SET_TX_REV_POLARITY : Z := 0x55.

(** [SETTING_MAP]: setting name to (KISS type, hardware command,
    description). *)
Definition SETTING_MAP : gmap string (Z * option Z * string) :=
  list_to_map
    [("GET_TXDELAY", (KISS_TYPE_TXDELAY, None, "TX Delay"));
     ("GET_PERSIST", (KISS_TYPE_PERSIST, None, "Persistence"));
     ("GET_TIMESLOT", (KISS_TYPE_SLOTTIME, None, "Slot Time"));
     ("GET_TXTAIL", (KISS_TYPE_TXTAIL, None, "TX Tail"));
     ("GET_DUPLEX", (KISS_TYPE_DUPLEX, None, "Duplex"));
     ("GET_OUTPUT_GAIN",
      (KISS_TYPE_HARDWARE, Some HW_SET_OUTPUT_GAIN, "Output Gain"));
     ("GET_INPUT_GAIN",
      (KISS_TYPE_HARDWARE, Some HW_SET_INPUT_GAIN, "Input Gain"));
     ("GET_INPUT_TWIST",
      (KISS_TYPE_HARDWARE, Some HW_SET_INPUT_TWIST, "Input Twist"));
     ("GET_OUTPUT_TWIST",
      (KISS_TYPE_HARDWARE, Some HW_SET_OUTPUT_TWIST, "Output Twist"));
     ("GET_PASSALL",
      (KISS_TYPE_HARDWARE, Some HW_SET_PASSALL, "Passall"));
     ("GET_PTT_CHANNEL",
      (KISS_TYPE_HARDWARE, Some HW_SET_PTT_CHANNEL, "PTT Channel"));
     ("GET_RX_REV_POLARITY",
      (KISS_TYPE_HARDWARE, Some HW_SET_RX_REV_POLARITY,
       "RX Reverse Polarity"));
     ("GET_TX_REV_POLARITY",
      (KISS_TYPE_HARDWARE, Some HW_SET_TX_REV_POLARITY,
       "TX Reverse Polarity"));
     ("GET_USB_POWER_ON",
      (KISS_TYPE_HARDWARE, Some HW_SET_USB_POWER_ON, "USB Power On"));
     ("GET_USB_POWER_OFF",
      (KISS_TYPE_HARDWARE, Some HW_SET_USB_POWER_OFF, "USB Power Off"))]%string.

(** A value of the settings dict as the code tells them apart: an [int]
    (a [bool] is one, with the values 1 and 0), or anything else. *)
Inductive Value :=
| VInt (n : Z)
| VBool (b : bool)
| VOther.

(** [str(value)] for the values that pass [isinstance(value, int)]. *)
Definition Value_str (v : Value) : string :=
  match v with
  | VInt n => pretty n
  | VBool true => "True"
  | VBool false => "False"
  | VOther => ""
  end.

(** [sorted(settings.items())]: the keys of a dict are distinct, so the
    items are ordered by their keys, compared character by character. *)
Fixpoint insert_item (item : string * Value) (items : list (string * Value))
  : list (string * Value) :=
  match items with
  | [] => [item]
  | other :: rest =>
      if String.leb item.1 other.1 then item :: items
      else other :: insert_item item rest
  end.

Definition sorted (items : list (string * Value)) : list (string * Value) :=
  foldr insert_item [] items.

(** The body of the loop of [build_set_commands] for one item: nothing for
    an item that is skipped, the command otherwise; [None] stands for the
    [TypeError] of [bytes([None, val])]. *)
Definition set_command (key : string) (value : Value)
  : option (list (string * bytes)) :=
  match SETTING_MAP !! key with
  | None => Some []
  | Some (kiss_type, hw_cmd, desc) =>
      let as_int :=
        match value with
        | VInt n => Some n
        | VBool b => Some (Z.b2z b)
        | VOther => None
        end in
      match as_int with
      | None => Some []
      | Some n =>
          let val := Z.land n 0xFF in
          let text := (desc +:+ " = " +:+ Value_str value)%string in
          if kiss_type =? KISS_TYPE_HARDWARE then
            match hw_cmd with
            | Some hw_cmd =>
                Some [(text,
                       Tnc4Config.kiss_frame KISS_TYPE_HARDWARE [hw_cmd; val])]
            | None => None
            end
          else Some [(text, Tnc4Config.kiss_frame kiss_type [val])]
      end
  end.

(** [build_set_commands], on the items of the settings dict. *)
Fixpoint commands_of (items : list (string * Value))
  : option (list (string * bytes)) :=
  match items with
  | [] => Some []
  | (key, value) :: rest =>
      match set_command key value with
      | None => None
      | Some command =>
          match commands_of rest with
          | None => None
          | Some commands => Some (command ++ commands)
          end
      end
  end.

Definition build_set_commands (settings : list (string * Value))
  : option (list (string * bytes)) :=
  commands_of (sorted settings).

(** [cmd_apply]: the frames written to the serial port, in order. *)
Definition cmd_apply (settings : list (string * Value))
    (dry_run save_eeprom reset : bool) : option (list bytes) :=
  match build_set_commands settings with
  | None => None
  | Some commands =>
      match commands with
      | [] => Some []
      | _ :: _ =>
          if dry_run then Some []
          else
            Some (map snd commands
                  ++ (if save_eeprom
                      then [Tnc4Config.kiss_frame KISS_TYPE_HARDWARE
                              [HW_SAVE_EEPROM]]
                      else [])
                  ++ (if reset
                      then [Tnc4Config.kiss_frame KISS_TYPE_HARDWARE
                              [HW_RESET]]
                      else []))
      end
  end.

(** The frames that carry a setting, as (type, payload): a KISS parameter
    with its value byte, or a hardware command with its command byte and
    its value byte. *)
Definition setting_frame (f : Z * bytes) : Prop :=
  1 <= f.1 <= 6 /\ is_bytes f.2
  /\ (f.1 = KISS_TYPE_HARDWARE -> length f.2 = 2%nat)
  /\ (f.1 <> KISS_TYPE_HARDWARE -> length f.2 = 1%nat).

End Tnc4Commands.

(** ** Scripts/visual-test.py: the decoder of the test station *)

Module VisualTestDecoder.
Import RfSimulator.

Definition AXDP_MAGIC : bytes := [0x41; 0x58; 0x54; 0x31].

(** [bytes.startswith] *)
Fixpoint startswith (data magic : bytes) : bool :=
  match magic, data with
  | [], _ => true
  | m :: magic', d :: data' => (d =? m) && startswith data' magic'
  | _ :: _, [] => false
  end.

(** [decode_ax25_address] of Scripts/visual-test.py: (address, is_last,
    new offset); its [AX25Address] has the fields of the simulator's. *)
Definition decode_ax25_address (data : bytes) (offset : nat)
  : option AX25Address * bool * nat :=
  if (length data <? offset + 7)%nat then (None, true, offset)
  else
    let callsign :=
      fold_left
        (fun (callsign : string) (i : nat) =>
           let char :=
             Z.land (Z.shiftr (at_index data (offset + i)) 1) 0x7F in
           if negb (char =? 0x20)
           then callsign +:+ String (chr char) EmptyString
           else callsign)
        (seq 0 6) EmptyString in
    let ssid_byte := at_index data (offset + 6) in
    let ssid := Z.land (Z.shiftr ssid_byte 1) 0x0F in
    let is_last := negb (Z.land ssid_byte 0x01 =? 0) in
    (Some {| callsign := strip callsign; ssid := ssid |}, is_last,
     (offset + 7)%nat).

(** [decode_frame_type]: (frame type, details). *)
Definition decode_frame_type (control : Z) : string * string :=
  if Z.land control 0x01 =? 0 then
    let ns := Z.land (Z.shiftr control 1) 0x07 in
    let nr := Z.land (Z.shiftr control 5) 0x07 in
    let pf := Z.land (Z.shiftr control 4) 0x01 in
    ("I", "N(S)=" +:+ pretty ns +:+ " N(R)=" +:+ pretty nr
          +:+ " P/F=" +:+ pretty pf)%string
  else if Z.land control 0x03 =? 0x01 then
    let s_type := Z.land (Z.shiftr control 2) 0x03 in
    let nr := Z.land (Z.shiftr control 5) 0x07 in
    let pf := Z.land (Z.shiftr control 4) 0x01 in
    (default "S?" (s_types !! s_type),
     "N(R)=" +:+ pretty nr +:+ " P/F=" +:+ pretty pf)%string
  else
    let u_type := Z.land control 0xEF in
    let pf := Z.land (Z.shiftr control 4) 0x01 in
    (default ("U(" +:+ format_02X control +:+ ")") (u_types !! u_type),
     "P/F=" +:+ pretty pf)%string.

(** The keys of the dict that [decode_ax25_frame] returns; the key [pid]
    is present only when it has been set. *)
Record Decoded := {
  dest : option AX25Address;
  source : option AX25Address;
  via : list AX25Address;
  frame_type : string;
  details : string;
  payload : bytes;
  is_axdp : bool;
  pid : option Z
}.

(** The loop [while not is_last and offset + 7 <= len(data)]. *)
Fixpoint via_loop (fuel : nat) (data : bytes) (via : list AX25Address)
    (offset : nat) (is_last : bool) : list AX25Address * nat * bool :=
  match fuel with
  | O => (via, offset, is_last)
  | S fuel' =>
      if negb is_last && (offset + 7 <=? length data)%nat then
        let '(via_addr, is_last', offset') :=
          decode_ax25_address data offset in
        let via :=
          match via_addr with
          | Some a => via ++ [a]
          | None => via
          end in
        via_loop fuel' data via offset' is_last'
      else (via, offset, is_last)
  end.

(** [decode_ax25_frame] of Scripts/visual-test.py. *)
Definition decode_ax25_frame (data : bytes) : Decoded :=
  let result :=
    {| dest := None; source := None; via := []; frame_type := "?";
       details := ""; payload := []; is_axdp := false; pid := None |} in
  if (length data <? 14)%nat then result
  else
    let '(dest_addr, _, offset) := decode_ax25_address data 0 in
    let '(source_addr, is_last, offset) := decode_ax25_address data offset in
    let '(via_path, offset, _) :=
      via_loop (length data) data [] offset is_last in
    let result :=
      {| dest := dest_addr; source := source_addr; via := via_path;
         frame_type := frame_type result; details := details result;
         payload := payload result; is_axdp := is_axdp result;
         pid := pid result |} in
    if (offset <? length data)%nat then
      let control := at_index data offset in
      let '(ft, det) := decode_frame_type control in
      let result :=
        {| dest := dest result; source := source result; via := via result;
           frame_type := ft; details := det;
           payload := payload result; is_axdp := is_axdp result;
           pid := pid result |} in
      let offset := S offset in
      if (String.eqb ft "I" || String.eqb ft "UI")
         && (offset <? length data)%nat then
        let result :=
          {| dest := dest result; source := source result;
             via := via result; frame_type := frame_type result;
             details := details result; payload := payload result;
             is_axdp := is_axdp result;
             pid := Some (at_index data offset) |} in
        let offset := S offset in
        if (offset <? length data)%nat then
          let body := drop offset data in
          if startswith body AXDP_MAGIC then
            {| dest := dest result; source := source result;
               via := via result; frame_type := "AXDP";
               details := details result; payload := body;
               is_axdp := true; pid := pid result |}
          else
            {| dest := dest result; source := source result;
               via := via result; frame_type := frame_type result;
               details := details result; payload := body;
               is_axdp := is_axdp result; pid := pid result |}
        else result
      else result
    else result.

(** The name under which [AX25Frame.__str__] of the simulator shows the
    type of a frame; "?" for a frame without control byte. *)
Definition type_name (f : AX25Frame) : string :=
  match RfSimulator.frame_type f with
  | I_FRAME => "I"
  | S_FRAME =>
      default "S?"%string
              (s_types !! Z.land (Z.shiftr (control f) 2) 0x03)
  | U_FRAME => u_type_str (control f)
  | UNKNOWN => "?"
  end.

(** The frames that carry a PID for the simulator. *)
Definition carries_pid (f : AX25Frame) : bool :=
  FrameType_eqb (RfSimulator.frame_type f) I_FRAME
  || (FrameType_eqb (RfSimulator.frame_type f) U_FRAME
      && (Z.land (control f) 0xEF =? 0x03)).

End VisualTestDecoder.

(** ** Scripts/kiss-monitor.py: the frames the monitor shows *)

Module KissMonitorFrames.
Import KissMonitor.

Definition AXDP_MAGIC : bytes := [0x41; 0x58; 0x54; 0x31].

(** The fields of a [DecodedFrame], but for the time stamp and the
    direction, which [decode] passes on. *)
Record DecodedFrame := {
  source : string;
  destination : string;
  via_path : list string;
  frame_type : FrameType;
  control : Z;
  pid : option Z;
  payload : bytes;
  raw : bytes;
  ns : option Z;
  nr : option Z;
  poll_final : bool;
  is_axdp : bool
}.

(** [AX25Decoder.decode_callsign]: (call sign with its secondary id, the
    secondary id, is_last). *)
Definition decode_callsign (data : bytes) : string * Z * bool :=
  if (length data <? 7)%nat then ("??????"%string, 0, false)
  else
    let chars :=
      fold_left
        (fun (chars : list ascii) (i : nat) =>
           let c := Z.land (Z.shiftr (RfSimulator.at_index data i) 1) 0x7F in
           if negb (c =? 0x20) then chars ++ [chr c] else chars)
        (seq 0 6) [] in
    let callsign := string_of_list_ascii chars in
    let ssid := Z.land (Z.shiftr (RfSimulator.at_index data 6) 1) 0x0F in
    let is_last := negb (Z.land (RfSimulator.at_index data 6) 0x01 =? 0) in
    let callsign :=
      if 0 <? ssid then (callsign +:+ "-" +:+ pretty ssid)%string
      else callsign in
    (callsign, ssid, is_last).

(** The loop [while not is_last and offset + 7 <= len(ax25_data)]. *)
Fixpoint via_loop (fuel : nat) (ax25_data : bytes) (via_path : list string)
    (offset : nat) (is_last : bool) : list string * nat * bool :=
  match fuel with
  | O => (via_path, offset, is_last)
  | S fuel' =>
      if negb is_last && (offset + 7 <=? length ax25_data)%nat then
        let '(via, _, is_last') :=
          decode_callsign (take 7 (drop offset ax25_data)) in
        via_loop fuel' ax25_data (via_path ++ [via]) (offset + 7)%nat
                 is_last'
      else (via_path, offset, is_last)
  end.

(** [frame_type in (FrameType.I, FrameType.UI)] *)
Definition is_I_or_UI (t : FrameType) : bool :=
  match t with
  | I | UI => true
  | _ => false
  end.

(** [AX25Decoder.decode]; no statement of its [try] block raises, so
    [None] is one of its four [return None]. *)
Definition decode (kiss_frame : bytes) : option DecodedFrame :=
  if (length kiss_frame <? 1)%nat then None
  else
    let cmd := RfSimulator.at_index kiss_frame 0 in
    if negb (Z.land cmd 0x0F =? 0) then None
    else
      let ax25_data := drop 1 kiss_frame in
      if (length ax25_data <? 15)%nat then None
      else
        let '(dest, _, _) := decode_callsign (take 7 ax25_data) in
        let '(src, _, is_last) :=
          decode_callsign (take 7 (drop 7 ax25_data)) in
        let '(via_path, offset, _) :=
          via_loop (length ax25_data) ax25_data [] 14%nat is_last in
        if (length ax25_data <=? offset)%nat then None
        else
          let control := RfSimulator.at_index ax25_data offset in
          let '(frame_type, ns, nr, pf) := decode_frame_type control in
          let offset := S offset in
          let '(pid, offset) :=
            if is_I_or_UI frame_type && (offset <? length ax25_data)%nat
            then (Some (RfSimulator.at_index ax25_data offset), S offset)
            else (None, offset) in
          let payload :=
            if (offset <? length ax25_data)%nat then drop offset ax25_data
            else [] in
          let is_axdp := VisualTestDecoder.startswith payload AXDP_MAGIC in
          Some {| source := src; destination := dest; via_path := via_path;
                  frame_type := frame_type; control := control; pid := pid;
                  payload := payload; raw := kiss_frame; ns := ns; nr := nr;
                  poll_final := pf; is_axdp := is_axdp |}.

(** The call sign that the six bytes of an address field spell, before
    any stripping, and the text the monitor appends for a secondary
    id. *)
Definition field_callsign (field : bytes) : string :=
  fold_left callsign_step (take 6 field) EmptyString.

Definition ssid_suffix (ssid : Z) : string :=
  if 0 <? ssid then ("-" +:+ pretty ssid)%string else EmptyString.

End KissMonitorFrames.

(** * Properties *)

(** ** KISS escaping *)

Lemma unescaped_operand_TFEND : unescaped_operand TFEND = FEND.
Proof. reflexivity. Qed.

Lemma unescaped_operand_TFESC : unescaped_operand TFESC = FESC.
Proof. reflexivity. Qed.

Lemma kiss_escape_app (p q : bytes) :
  kiss_escape (p ++ q) = kiss_escape p ++ kiss_escape q.
Proof.
  induction p as [|b p IH]; [reflexivity|].
  cbn [kiss_escape app].
  destruct (b =? FEND); [|destruct (b =? FESC)]; rewrite IH; reflexivity.
Qed.

Lemma kiss_escape_other (b : Z) :
  b <> FEND -> b <> FESC -> kiss_escape [b] = [b].
Proof.
  intros H1 H2. cbn [kiss_escape].
  destruct (Z.eqb_spec b FEND); [contradiction|].
  destruct (Z.eqb_spec b FESC); [contradiction|reflexivity].
Qed.

(** Case analysis on the three branches of the escape loop. *)
Ltac escape_cases b :=
  cbn [kiss_escape app];
  destruct (Z.eqb_spec b FEND) as [->|?];
    [|destruct (Z.eqb_spec b FESC) as [->|?]].

Lemma rf_unescape_escape (p : bytes) :
  RfSimulator.kiss_unescape (kiss_escape p) = p.
Proof.
  induction p as [|b p IH]; [reflexivity|].
  escape_cases b.
  - cbn. now rewrite IH.
  - cbn. now rewrite IH.
  - cbn [RfSimulator.kiss_unescape].
    destruct (Z.eqb_spec b FESC); [contradiction|]. now rewrite IH.
Qed.

(** (C5) Framer round trip: for every byte sequence [p], unescaping the
    escaped form gives [p] back, where escaping turns the delimiter 0xC0 into
    0xDB 0xDC, the escape byte 0xDB into 0xDB 0xDD, leaves any other byte as
    it is, and works byte by byte. *)
Theorem kiss_unescape_escape_roundtrip :
  (forall p : bytes, RfSimulator.kiss_unescape (kiss_escape p) = p)
  /\ kiss_escape [0xC0] = [0xDB; 0xDC]
  /\ kiss_escape [0xDB] = [0xDB; 0xDD]
  /\ (forall b : Z, b <> 0xC0 -> b <> 0xDB -> kiss_escape [b] = [b])
  /\ (forall p q : bytes,
         kiss_escape (p ++ q) = kiss_escape p ++ kiss_escape q).
Proof.
  split; [exact rf_unescape_escape|].
  split; [reflexivity|]. split; [reflexivity|].
  split; [exact kiss_escape_other|exact kiss_escape_app].
Qed.

Lemma kiss_escape_no_FEND (p : bytes) : ~ In FEND (kiss_escape p).
Proof.
  induction p as [|b p IH]; [intros []|].
  escape_cases b; cbn; intros H.
  - destruct H as [H|[H|H]]; [discriminate H|discriminate H|auto].
  - destruct H as [H|[H|H]]; [discriminate H|discriminate H|auto].
  - destruct H as [H|H]; [congruence|auto].
Qed.

(** Positions of the delimiter in [FEND; cmd] ++ body ++ [FEND]. *)
Lemma delimiters_of_frame (cmd : Z) (body : bytes) (i : nat) :
  cmd <> FEND -> ~ In FEND body ->
  ([FEND; cmd] ++ body ++ [FEND]) !! i = Some FEND
  <-> i = 0%nat \/ i = (length ([FEND; cmd] ++ body ++ [FEND]) - 1)%nat.
Proof.
  intros Hcmd Hbody.
  assert (Hlen : (length ([FEND; cmd] ++ body ++ [FEND]) - 1
                  = 2 + length body)%nat).
  { cbn. rewrite length_app. cbn. lia. }
  rewrite Hlen. change ([FEND; cmd] ++ body ++ [FEND])
    with (FEND :: cmd :: (body ++ [FEND])).
  destruct i as [|[|i]].
  - split; auto.
  - change ((FEND :: cmd :: body ++ [FEND]) !! 1%nat) with (Some cmd).
    split; [intros [=]; congruence | intros [|]; lia].
  - change ((FEND :: cmd :: body ++ [FEND]) !! S (S i))
      with ((body ++ [FEND]) !! i).
    destruct (Nat.lt_trichotomy i (length body)) as [Hlt|[->|Hgt]].
    + rewrite lookup_app_l by exact Hlt. split; [|lia].
      intros H. exfalso. apply Hbody.
      apply list_elem_of_In, list_elem_of_lookup. eauto.
    + rewrite lookup_app_r by lia. rewrite Nat.sub_diag.
      split; auto.
    + rewrite lookup_app_r by lia.
      destruct (i - length body)%nat as [|k] eqn:E; [lia|].
      split; [discriminate|lia].
Qed.


(** ** Trailing escapes *)

(** Induction that follows a scan consuming one or two bytes per step. *)
Lemma bytes_pair_ind (P : bytes -> Prop) :
  P [] -> (forall a, P [a]) ->
  (forall a b l, P l -> P (b :: l) -> P (a :: b :: l)) ->
  forall l, P l.
Proof.
  intros Hnil Hone Hstep l.
  enough (H : P l /\ forall a, P (a :: l)) by apply H.
  induction l as [|b l [IH1 IH2]]; split; auto.
Qed.

Lemma rf_unescape_cons2 (a b : Z) (l : bytes) :
  RfSimulator.kiss_unescape (a :: b :: l)
  = if a =? FESC then unescaped_operand b :: RfSimulator.kiss_unescape l
    else a :: RfSimulator.kiss_unescape (b :: l).
Proof. reflexivity. Qed.

Lemma script_unescape_cons2 (a b : Z) (l : bytes) :
  InteractiveTest.kiss_unescape (a :: b :: l)
  = if a =? FESC then unescaped_operand b :: InteractiveTest.kiss_unescape l
    else a :: InteractiveTest.kiss_unescape (b :: l).
Proof. reflexivity. Qed.

Lemma tnc4_unescape_cons2 (a b : Z) (l : bytes) :
  Tnc4Config.kiss_unescape_from false (a :: b :: l)
  = if a =? FESC
    then unescaped_operand b :: Tnc4Config.kiss_unescape_from false l
    else a :: Tnc4Config.kiss_unescape_from false (b :: l).
Proof. cbn. destruct (a =? FESC); reflexivity. Qed.

Lemma escape_open_cons2 (a b : Z) (l : bytes) :
  escape_open (a :: b :: l)
  = if a =? FESC then escape_open l else escape_open (b :: l).
Proof. reflexivity. Qed.

Lemma tnc4_unescape_is_rf (data : bytes) :
  Tnc4Config.kiss_unescape data = RfSimulator.kiss_unescape data.
Proof.
  unfold Tnc4Config.kiss_unescape.
  induction data as [|a|a b l IHl IHbl] using bytes_pair_ind.
  - reflexivity.
  - cbn. destruct (a =? FESC); reflexivity.
  - rewrite tnc4_unescape_cons2, rf_unescape_cons2.
    destruct (a =? FESC); congruence.
Qed.

Lemma rf_unescape_trailing_FESC (p : bytes) :
  escape_open p = false ->
  RfSimulator.kiss_unescape (p ++ [FESC]) = RfSimulator.kiss_unescape p.
Proof.
  induction p as [|a|a b l IHl IHbl] using bytes_pair_ind; intros Hopen.
  - reflexivity.
  - cbn in *. destruct (a =? FESC); [discriminate|reflexivity].
  - change ((a :: b :: l) ++ [FESC]) with (a :: b :: (l ++ [FESC])).
    rewrite escape_open_cons2 in Hopen. rewrite !rf_unescape_cons2.
    destruct (a =? FESC).
    + now rewrite IHl.
    + change (b :: (l ++ [FESC])) with ((b :: l) ++ [FESC]).
      now rewrite IHbl.
Qed.

Lemma script_unescape_trailing_FESC (p : bytes) :
  escape_open p = false ->
  InteractiveTest.kiss_unescape (p ++ [FESC])
  = InteractiveTest.kiss_unescape p ++ [FESC].
Proof.
  induction p as [|a|a b l IHl IHbl] using bytes_pair_ind; intros Hopen.
  - reflexivity.
  - cbn in *. destruct (a =? FESC); [discriminate|reflexivity].
  - change ((a :: b :: l) ++ [FESC]) with (a :: b :: (l ++ [FESC])).
    rewrite escape_open_cons2 in Hopen. rewrite !script_unescape_cons2.
    destruct (a =? FESC).
    + now rewrite IHl.
    + change (b :: (l ++ [FESC])) with ((b :: l) ++ [FESC]).
      now rewrite IHbl.
Qed.

(** (C6, as stated) The unescape of Scripts/interactive-test.py does not
    absorb a trailing escape byte: it appends it. *)
Lemma script_unescape_keeps_trailing_escape :
  InteractiveTest.kiss_unescape [0x41; 0xDB] = [0x41; 0xDB]
  /\ InteractiveTest.kiss_unescape [0x41; 0xDB]
     <> InteractiveTest.kiss_unescape [0x41].
Proof. split; [reflexivity|discriminate]. Qed.

(** (C6, amended) For every byte sequence [p] that does not end inside an
    escape, a further trailing escape byte 0xDB is absorbed by the unescape
    of Docker/rf_simulator.py and of tnc4_config.py (the result is that of
    [p]), and is appended as a literal byte by the unescape of
    Scripts/interactive-test.py. *)
Theorem trailing_escape_by_implementation (p : bytes) :
  escape_open p = false ->
  RfSimulator.kiss_unescape (p ++ [FESC]) = RfSimulator.kiss_unescape p
  /\ Tnc4Config.kiss_unescape (p ++ [FESC]) = Tnc4Config.kiss_unescape p
  /\ InteractiveTest.kiss_unescape (p ++ [FESC])
     = InteractiveTest.kiss_unescape p ++ [FESC].
Proof.
  intros Hopen. split; [|split].
  - now apply rf_unescape_trailing_FESC.
  - rewrite !tnc4_unescape_is_rf. now apply rf_unescape_trailing_FESC.
  - now apply script_unescape_trailing_FESC.
Qed.

Lemma trailing_escape_by_implementation_witness :
  escape_open [0x41; 0xDB; 0xDC] = false
  /\ RfSimulator.kiss_unescape ([0x41; 0xDB; 0xDC] ++ [FESC]) = [0x41; 0xC0]
  /\ InteractiveTest.kiss_unescape ([0x41; 0xDB; 0xDC] ++ [FESC])
     = [0x41; 0xC0; 0xDB].
Proof.
  split; [reflexivity|].
  pose proof (trailing_escape_by_implementation [0x41; 0xDB; 0xDC] eq_refl)
    as (Hrf & _ & Hscript).
  split; [rewrite Hrf|rewrite Hscript]; reflexivity.
Defined.

(** ** Control-byte classification *)

(** A boolean property checked on the 256 byte values holds of every byte. *)
Lemma byte_forall (P : Z -> bool) :
  forallb P (seqZ 0 256) = true -> forall c, is_byte c -> P c = true.
Proof.
  intros H c Hc. rewrite forallb_forall in H. apply H.
  apply list_elem_of_In, elem_of_seqZ. unfold is_byte in Hc. lia.
Qed.

Lemma land_1_mod (c : Z) : Z.land c 1 = c mod 2.
Proof. apply (Z.land_ones c 1). lia. Qed.

Lemma land_3_mod (c : Z) : Z.land c 3 = c mod 4.
Proof. apply (Z.land_ones c 2). lia. Qed.

Lemma land_1_cases (c : Z) : Z.land c 1 = 0 \/ Z.land c 1 = 1.
Proof. rewrite land_1_mod. Z.div_mod_to_equations. lia. Qed.

Lemma land_3_of_land_1 (c : Z) :
  (Z.land c 1 = 0 -> Z.land c 3 = 0 \/ Z.land c 3 = 2)
  /\ (Z.land c 1 = 1 -> Z.land c 3 = 1 \/ Z.land c 3 = 3).
Proof. rewrite land_1_mod, land_3_mod. Z.div_mod_to_equations. lia. Qed.

Lemma decode_ax25_address_is_last (data : bytes) (offset : nat) :
  (offset + 7 <= length data)%nat ->
  (RfSimulator.decode_ax25_address data offset).2
  = negb (Z.land (RfSimulator.at_index data (offset + 6)) 0x01 =? 0).
Proof.
  intros Hlen. unfold RfSimulator.decode_ax25_address.
  destruct (Nat.ltb_spec (length data) (offset + 7)); [lia|reflexivity].
Qed.

Lemma via_loop_last (fuel : nat) (data : bytes)
    (via : list RfSimulator.AX25Address) (offset : nat) :
  RfSimulator.via_loop fuel data via offset true = (via, offset, true).
Proof. destruct fuel; reflexivity. Qed.

(** The loop leaves when its condition fails: with [length data] as fuel it
    has run to completion. *)
Lemma via_loop_complete (fuel : nat) (data : bytes)
    (via : list RfSimulator.AX25Address) (offset : nat) (is_last : bool) :
  (length data < offset + 7 * fuel)%nat ->
  let '(_, offset', is_last') :=
    RfSimulator.via_loop fuel data via offset is_last in
  is_last' = true \/ (length data < offset' + 7)%nat.
Proof.
  revert via offset is_last.
  induction fuel as [|fuel IH]; intros via offset is_last Hfuel.
  - cbn. right. lia.
  - cbn [RfSimulator.via_loop].
    destruct is_last; cbn [negb andb]; [now left|].
    destruct (Nat.leb_spec (offset + 7) (length data)) as [Hle|Hgt].
    + destruct (RfSimulator.decode_ax25_address data offset) as [a l].
      apply IH. lia.
    + right. lia.
Qed.

(** In a frame whose source address carries the last-address flag, the
    control byte is byte 14 and the decoded class and sequence numbers are
    those of [classify_control] on a fresh frame. *)
Lemma decode_ax25_frame_control (data : bytes) :
  (15 <= length data)%nat ->
  Z.land (RfSimulator.at_index data 13) 0x01 <> 0 ->
  let g := RfSimulator.decode_ax25_frame data in
  let k := RfSimulator.classify_control (RfSimulator.AX25Frame_new data)
             (RfSimulator.at_index data 14) in
  RfSimulator.control g = RfSimulator.control k
  /\ RfSimulator.frame_type g = RfSimulator.frame_type k
  /\ RfSimulator.ns g = RfSimulator.ns k
  /\ RfSimulator.nr g = RfSimulator.nr k
  /\ RfSimulator.pf g = RfSimulator.pf k.
Proof.
  intros Hlen Hlast. unfold RfSimulator.decode_ax25_frame.
  destruct (Nat.ltb_spec (length data) 14) as [?|_]; [lia|].
  destruct (RfSimulator.decode_ax25_address data 0) as [d ?].
  pose proof (decode_ax25_address_is_last data 7 ltac:(lia)) as Hs.
  destruct (RfSimulator.decode_ax25_address data 7) as [s is_last].
  cbn in Hs. subst is_last.
  destruct (Z.eqb_spec (Z.land (RfSimulator.at_index data 13) 1) 0)
    as [?|_]; [contradiction|].
  cbn [negb]. rewrite via_loop_last.
  destruct (Nat.ltb_spec 14 (length data)) as [_|?]; [|lia].
  set (c := RfSimulator.at_index data 14).
  unfold RfSimulator.classify_control.
  destruct (Z.land c 1 =? 0); [|destruct (Z.land c 3 =? 1)];
    cbn -[Z.land Z.shiftr Nat.ltb drop];
    repeat match goal with
      | |- context [if ?b then _ else _] => destruct b
      end; cbn; auto.
Qed.

(** What [decode_ax25_frame] makes of a frame of at least 14 bytes: with
    [offset] where the address loop stops, the class and sequence numbers
    are those of [classify_control] on the byte at [offset] if there is
    one, and the defaults if there is none. *)
Lemma decode_ax25_frame_class (data : bytes) :
  (14 <= length data)%nat ->
  let offset :=
    (RfSimulator.via_loop (length data) data [] 14
       (RfSimulator.decode_ax25_address data 7).2).1.2 in
  let g := RfSimulator.decode_ax25_frame data in
  let k := RfSimulator.classify_control (RfSimulator.AX25Frame_new data)
             (RfSimulator.at_index data offset) in
  if (offset <? length data)%nat then
    RfSimulator.control g = RfSimulator.control k
    /\ RfSimulator.frame_type g = RfSimulator.frame_type k
    /\ RfSimulator.ns g = RfSimulator.ns k
    /\ RfSimulator.nr g = RfSimulator.nr k
    /\ RfSimulator.pf g = RfSimulator.pf k
  else
    RfSimulator.frame_type g = RfSimulator.UNKNOWN
    /\ RfSimulator.control g = 0 /\ RfSimulator.ns g = 0
    /\ RfSimulator.nr g = 0.
Proof.
  intros Hlen. cbv zeta. unfold RfSimulator.decode_ax25_frame.
  destruct (Nat.ltb_spec (length data) 14) as [?|_]; [lia|].
  destruct (RfSimulator.decode_ax25_address data 0) as [d ?].
  destruct (RfSimulator.decode_ax25_address data 7) as [s is_last].
  cbn [snd].
  destruct (RfSimulator.via_loop (length data) data [] 14 is_last)
    as [[via offset] last'].
  cbn [fst snd].
  destruct (offset <? length data)%nat.
  - set (c := RfSimulator.at_index data offset).
    unfold RfSimulator.classify_control.
    destruct (Z.land c 1 =? 0); [|destruct (Z.land c 3 =? 1)];
      cbn -[Z.land Z.shiftr Nat.ltb drop];
      repeat match goal with
        | |- context [if ?b then _ else _] => destruct b
        end; cbn; auto.
  - cbn -[Nat.ltb drop].
    repeat match goal with
      | |- context [if ?b then _ else _] => destruct b
      end; cbn; auto.
Qed.



(** ** Unnumbered-frame subtypes *)

Lemma format_02X_inj_bytes :
  forallb (fun c1 =>
    forallb (fun c2 =>
      implb (String.eqb (format_02X c1) (format_02X c2)) (c1 =? c2))
      (seqZ 0 256)) (seqZ 0 256) = true.
Proof. vm_compute. reflexivity. Qed.

(** The two hexadecimal digits determine the byte. *)
Lemma format_02X_inj (c1 c2 : Z) :
  is_byte c1 -> is_byte c2 -> format_02X c1 = format_02X c2 -> c1 = c2.
Proof.
  intros H1 H2 Heq.
  pose proof (byte_forall _ format_02X_inj_bytes c1 H1) as H.
  cbv beta in H. rewrite forallb_forall in H.
  specialize (H c2). rewrite Heq, String.eqb_refl in H. cbn in H.
  apply Z.eqb_eq, H, list_elem_of_In, elem_of_seqZ.
  unfold is_byte in H2. lia.
Qed.

Lemma u_types_unknown (m : Z) :
  ~ In m [0x2F; 0x0F; 0x43; 0x63; 0x03; 0x87] ->
  RfSimulator.u_types !! m = None.
Proof.
  intros Hm. unfold RfSimulator.u_types.
  apply not_elem_of_list_to_map_1. cbn. rewrite list_elem_of_In. exact Hm.
Qed.

(** (C9, as stated) The table of Docker/rf_simulator.py has no entry for
    0xAF or 0xE3, and Scripts/kiss-monitor.py knows one more subtype, 0x6F,
    which it does not map to the unknown subtype. *)
Lemma unnumbered_subtype_tables_differ :
  RfSimulator.u_type_str 0xAF = "U(AF)"%string
  /\ RfSimulator.u_type_str 0xE3 = "U(E3)"%string
  /\ (KissMonitor.decode_frame_type 0x6F).1.1.1 = KissMonitor.SABME.
Proof. repeat split; vm_compute; reflexivity. Qed.

(** (C9, amended) For every Unnumbered-class control byte, both decoders
    look the subtype up under the control byte masked with 0xEF.
    Docker/rf_simulator.py maps 0x2F to SABM, 0x0F to DM, 0x43 to DISC, 0x63
    to UA, 0x03 to UI and 0x87 to FRMR, and any other masked value (0xAF and
    0xE3 among them) to the text U(XX), XX being the raw control byte in
    hexadecimal, from which the byte can be read back.
    Scripts/kiss-monitor.py maps these six and 0x6F to SABME, 0xAF to XID and
    0xE3 to TEST, and any other masked value to UNKNOWN. *)
Theorem unnumbered_subtype_lookup (c : Z) :
  is_byte c -> Z.land c 3 = 3 ->
  let m := Z.land c 0xEF in
  let shown := RfSimulator.u_type_str c in
  let kind := (KissMonitor.decode_frame_type c).1.1.1 in
  ((m = 0x2F -> shown = "SABM"%string) /\ (m = 0x0F -> shown = "DM"%string)
   /\ (m = 0x43 -> shown = "DISC"%string) /\ (m = 0x63 -> shown = "UA"%string)
   /\ (m = 0x03 -> shown = "UI"%string) /\ (m = 0x87 -> shown = "FRMR"%string)
   /\ (~ In m [0x2F; 0x0F; 0x43; 0x63; 0x03; 0x87] ->
       shown = ("U(" +:+ format_02X c +:+ ")")%string
       /\ forall c', is_byte c' ->
            RfSimulator.u_type_str c' = shown -> c' = c))
  /\ ((m = 0x2F -> kind = KissMonitor.SABM)
      /\ (m = 0x0F -> kind = KissMonitor.DM)
      /\ (m = 0x43 -> kind = KissMonitor.DISC)
      /\ (m = 0x63 -> kind = KissMonitor.UA)
      /\ (m = 0x03 -> kind = KissMonitor.UI)
      /\ (m = 0x87 -> kind = KissMonitor.FRMR)
      /\ (m = 0x6F -> kind = KissMonitor.SABME)
      /\ (m = 0xAF -> kind = KissMonitor.XID)
      /\ (m = 0xE3 -> kind = KissMonitor.TEST)
      /\ (~ In m [0x2F; 0x0F; 0x43; 0x63; 0x03; 0x87; 0x6F; 0xAF; 0xE3] ->
          kind = KissMonitor.UNKNOWN)).
Proof.
  intros Hc H3 m shown kind. split.
  - subst shown. unfold RfSimulator.u_type_str. fold m.
    repeat split; try (intros ->; reflexivity).
    + rewrite u_types_unknown by assumption. reflexivity.
    + intros c' Hc' Heq. rewrite (u_types_unknown m) in Heq by assumption.
      destruct (RfSimulator.u_types !! Z.land c' 0xEF) as [name|] eqn:E.
      * exfalso. apply elem_of_list_to_map_2 in E. cbn in E.
        repeat (apply elem_of_cons in E as [E|E];
                [injection E as _ ->; cbn in Heq; discriminate Heq|]).
        inversion E.
      * cbn in Heq. injection Heq as Hhi Hlo.
        apply format_02X_inj; try assumption.
        unfold format_02X. congruence.
  - subst kind. unfold KissMonitor.decode_frame_type. fold m.
    assert (H1 : Z.land c 1 = 1).
    { revert H3. rewrite land_1_mod, land_3_mod.
      Z.div_mod_to_equations. lia. }
    rewrite H1, H3. cbn [Z.eqb Pos.eqb].
    repeat split; try (intros ->; reflexivity).
    intros Hm.
    repeat match goal with
      | |- context [m =? ?k] =>
          destruct (Z.eqb_spec m k) as [Hk|_];
          [exfalso; apply Hm; rewrite Hk; cbn; tauto|]
      end.
    reflexivity.
Qed.

Lemma unnumbered_subtype_lookup_witness :
  is_byte 0x3F /\ Z.land 0x3F 3 = 3
  /\ RfSimulator.u_type_str 0x3F = "SABM"%string
  /\ (KissMonitor.decode_frame_type 0x3F).1.1.1 = KissMonitor.SABM.
Proof.
  assert (Hb : is_byte 0x3F) by (unfold is_byte; lia).
  split; [exact Hb|]. split; [reflexivity|].
  destruct (unnumbered_subtype_lookup 0x3F Hb eq_refl)
    as [[Hrf _] [Hmon _]].
  split; [apply Hrf|apply Hmon]; reflexivity.
Defined.

(** ** Address fields *)

Lemma ssid_byte_roundtrip (s : Z) (last : bool) :
  0 <= s <= 15 ->
  Z.land (Z.shiftr (ssid_byte_of s last) 1) 0x0F = s
  /\ negb (Z.land (ssid_byte_of s last) 0x01 =? 0) = last
  /\ ssid_byte_of s last = Z.lor (Z.lor 0x60 (Z.shiftl s 1)) (Z.b2z last)
  /\ is_byte (ssid_byte_of s last).
Proof.
  intros Hs.
  assert (H : In s (map Z.of_nat (seq 0 16))).
  { apply in_map_iff. exists (Z.to_nat s). split; [lia|].
    apply in_seq. lia. }
  cbn in H. unfold is_byte.
  repeat (destruct H as [<-|H];
          [destruct last; vm_compute; repeat split; congruence|]).
  destruct H.
Qed.

Lemma chr_ord (a : ascii) : chr (ord a) = a.
Proof. unfold chr, ord. rewrite N2Z.id. apply ascii_N_embedding. Qed.

Lemma upper_letter_roundtrip (a : ascii) :
  is_upper_letter a ->
  Z.land (Z.shiftr (Z.shiftl (ord a) 1) 1) 0x7F = ord a
  /\ (ord a =? 0x20) = false
  /\ (Z.shiftl (ord a) 1 <? 256) = true
  /\ upper_char a = a
  /\ isspace a = false.
Proof.
  unfold is_upper_letter. intros Ha.
  rewrite Z.shiftr_shiftl_l by lia. change (1 - 1) with 0.
  rewrite Z.shiftl_0_r.
  change 0x7F with (Z.ones 7). rewrite Z.land_ones by lia.
  rewrite Z.mod_small by (change (2 ^ 7) with 128; lia).
  rewrite Z.shiftl_mul_pow2 by lia. change (2 ^ 1) with 2.
  unfold upper_char, isspace. cbv zeta.
  assert (H97 : (97 <=? ord a) = false) by lia.
  assert (H13 : (ord a <=? 13) = false) by lia.
  assert (H32 : (ord a <=? 32) = false) by lia.
  assert (H85 : (ord a =? 0x85) = false) by lia.
  assert (HA0 : (ord a =? 0xA0) = false) by lia.
  rewrite H97, H13, H32, H85, HA0, !andb_false_r.
  repeat split; try reflexivity; lia.
Qed.

(** *** Strings as character lists *)

Lemma append_nil_l (t : string) : (EmptyString +:+ t)%string = t.
Proof. reflexivity. Qed.

Lemma append_cons (a : ascii) (s t : string) :
  (String a s +:+ t)%string = String a (s +:+ t).
Proof. reflexivity. Qed.

Lemma append_snoc (acc : string) (a : ascii) (t : string) :
  ((acc +:+ String a EmptyString) +:+ t)%string = (acc +:+ String a t)%string.
Proof.
  induction acc as [|b acc IH]; [reflexivity|].
  rewrite !append_cons, IH. reflexivity.
Qed.

Lemma append_nil_r (s : string) : (s +:+ EmptyString)%string = s.
Proof.
  induction s as [|a s IH]; [reflexivity|]. now rewrite append_cons, IH.
Qed.

Lemma chars_append (s t : string) :
  list_ascii_of_string (s +:+ t)
  = list_ascii_of_string s ++ list_ascii_of_string t.
Proof.
  induction s as [|a s IH]; [reflexivity|].
  rewrite append_cons. cbn. now rewrite IH.
Qed.

Lemma chars_length (s : string) :
  length (list_ascii_of_string s) = String.length s.
Proof. induction s as [|a s IH]; [reflexivity|]. cbn. now rewrite IH. Qed.

Lemma upper_of_upper_letters (s : string) :
  Forall is_upper_letter (list_ascii_of_string s) -> upper s = s.
Proof.
  induction s as [|a s IH]; [reflexivity|]. cbn. intros H.
  apply Forall_cons in H as [Ha Hs].
  destruct (upper_letter_roundtrip a Ha) as (_ & _ & _ & -> & _).
  now rewrite IH.
Qed.

Lemma rstrip_of_upper_letters (s : string) :
  Forall is_upper_letter (list_ascii_of_string s) -> rstrip s = s.
Proof.
  induction s as [|a s IH]; [reflexivity|]. cbn. intros H.
  apply Forall_cons in H as [Ha Hs]. rewrite IH by exact Hs.
  destruct (upper_letter_roundtrip a Ha) as (_ & _ & _ & _ & ->).
  destruct s; reflexivity.
Qed.

Lemma strip_of_upper_letters (s : string) :
  Forall is_upper_letter (list_ascii_of_string s) -> strip s = s.
Proof.
  intros H. unfold strip.
  assert (Hl : lstrip s = s).
  { destruct s as [|a s]; [reflexivity|]. cbn in *.
    apply Forall_cons in H as [Ha _].
    now destruct (upper_letter_roundtrip a Ha) as (_ & _ & _ & _ & ->). }
  rewrite Hl. now apply rstrip_of_upper_letters.
Qed.

(** A call sign of at most six characters, upper-cased and padded, is the
    call sign followed by spaces. *)
Lemma padded_call_chars (s : string) :
  (String.length s <= 6)%nat ->
  list_ascii_of_string (str_take 6 (ljust 6 s))
  = list_ascii_of_string s ++ repeat " "%char (6 - String.length s).
Proof.
  intros Hlen. unfold str_take, ljust.
  rewrite list_ascii_of_string_of_list_ascii, chars_append,
    list_ascii_of_string_of_list_ascii.
  apply take_ge. rewrite length_app, chars_length, repeat_length. lia.
Qed.

(** *** Decoding an address field *)

Lemma fold_left_indices {A : Type} (g : A -> Z -> A) (data : bytes)
    (off n : nat) (acc : A) :
  (off + n <= length data)%nat ->
  fold_left (fun a i => g a (RfSimulator.at_index data (off + i))) (seq 0 n) acc
  = fold_left g (take n (drop off data)) acc.
Proof.
  induction n as [|n IH]; intros Hlen; [reflexivity|].
  rewrite seq_S, fold_left_app, IH by lia. cbn [fold_left Nat.add].
  assert (Hl : drop off data !! n
               = Some (RfSimulator.at_index data (off + n))).
  { rewrite lookup_drop. unfold RfSimulator.at_index.
    destruct (nth_lookup_or_length data (off + n) 0) as [H|H]; [exact H|lia]. }
  rewrite (take_S_r _ _ _ Hl), fold_left_app. reflexivity.
Qed.

Lemma decode_ax25_address_fold (data : bytes) (offset : nat) :
  (offset + 7 <= length data)%nat ->
  RfSimulator.decode_ax25_address data offset
  = ({| RfSimulator.callsign :=
          strip (fold_left callsign_step (take 6 (drop offset data))
                   EmptyString);
        RfSimulator.ssid :=
          Z.land (Z.shiftr (RfSimulator.at_index data (offset + 6)) 1) 0x0F |},
     negb (Z.land (RfSimulator.at_index data (offset + 6)) 0x01 =? 0)).
Proof.
  intros Hlen. unfold RfSimulator.decode_ax25_address.
  destruct (Nat.ltb_spec (length data) (offset + 7)); [lia|].
  rewrite <- (fold_left_indices callsign_step data offset 6) by lia.
  reflexivity.
Qed.

Lemma callsign_steps_letters (cs : list ascii) (acc : string) :
  Forall is_upper_letter cs ->
  fold_left callsign_step (map (fun c => Z.shiftl (ord c) 1) cs) acc
  = (acc +:+ string_of_list_ascii cs)%string.
Proof.
  revert acc. induction cs as [|a cs IH]; intros acc H.
  - cbn. now rewrite append_nil_r.
  - apply Forall_cons in H as [Ha Hcs]. cbn [map fold_left].
    rewrite IH by exact Hcs.
    destruct (upper_letter_roundtrip a Ha) as (R & S & _).
    unfold callsign_step. cbv zeta. rewrite R, S. cbn [negb].
    rewrite chr_ord, append_snoc. reflexivity.
Qed.

Lemma callsign_steps_padding (k : nat) (acc : string) :
  fold_left callsign_step
    (map (fun c => Z.shiftl (ord c) 1) (repeat " "%char k)) acc = acc.
Proof.
  induction k as [|k IH]; [reflexivity|].
  cbn [repeat map fold_left]. exact IH.
Qed.

(** (C8) Address round trip: for every call sign of at most six upper-case
    letters, every secondary id in [0, 15] and both values of the is-last
    flag, [encode_ax25_address] of Scripts/visual-test.py yields a field of
    exactly seven bytes whose seventh byte is
    [0b01100000 | (ssid << 1) | is_last], and [decode_ax25_address] of
    Docker/rf_simulator.py returns the same call sign, secondary id and
    flag from it. *)
Theorem address_roundtrip (c : string) (s : Z) (last : bool) :
  (String.length c <= 6)%nat ->
  Forall is_upper_letter (list_ascii_of_string c) ->
  0 <= s <= 15 ->
  exists field : bytes,
    VisualTest.encode_ax25_address c s last = Some field
    /\ length field = 7%nat
    /\ is_bytes field
    /\ RfSimulator.at_index field 6
       = Z.lor (Z.lor 0x60 (Z.shiftl s 1)) (Z.b2z last)
    /\ RfSimulator.decode_ax25_address field 0
       = ({| RfSimulator.callsign := c; RfSimulator.ssid := s |}, last).
Proof.
  intros Hlen Hup Hs.
  destruct (ssid_byte_roundtrip s last Hs) as (Hssid & Hlast & Hform & Hbyte).
  set (shl := fun c : ascii => Z.shiftl (ord c) 1).
  set (pad := repeat " "%char (6 - String.length c)).
  set (cells := map shl (list_ascii_of_string c ++ pad)).
  assert (Hcells : length cells = 6%nat).
  { subst cells pad. rewrite length_map, length_app, chars_length,
      repeat_length. lia. }
  assert (Hrange : Forall is_byte cells).
  { subst cells. rewrite map_app. apply Forall_app. split.
    - apply Forall_map. eapply Forall_impl; [exact Hup|].
      intros a Ha. unfold is_byte, shl. unfold is_upper_letter in Ha. cbn.
      rewrite Z.shiftl_mul_pow2 by lia. change (2 ^ 1) with 2. lia.
    - subst pad. apply Forall_map, Forall_forall.
      intros a Ha. apply list_elem_of_In, repeat_spec in Ha. subst a.
      unfold is_byte, shl. change (Z.shiftl (ord " ") 1) with 64. lia. }
  assert (Henc : VisualTest.encode_ax25_address c s last
                 = Some (cells ++ [ssid_byte_of s last])).
  { unfold VisualTest.encode_ax25_address.
    rewrite (upper_of_upper_letters c Hup), (padded_call_chars c Hlen).
    fold pad shl cells.
    assert (Hok : forallb (fun v => v <? 256) cells = true).
    { apply forallb_forall. intros v Hv.
      rewrite Forall_forall in Hrange.
      apply list_elem_of_In, Hrange in Hv. unfold is_byte in Hv. lia. }
    rewrite Hok. reflexivity. }
  exists (cells ++ [ssid_byte_of s last]).
  assert (H6 : RfSimulator.at_index (cells ++ [ssid_byte_of s last]) 6
               = ssid_byte_of s last).
  { unfold RfSimulator.at_index. rewrite app_nth2 by lia.
    rewrite Hcells. reflexivity. }
  split; [exact Henc|]. split; [rewrite length_app, Hcells; reflexivity|].
  split; [apply Forall_app; split;
          [exact Hrange|apply Forall_cons; split; [exact Hbyte|constructor]]|].
  split; [rewrite H6; exact Hform|].
  rewrite decode_ax25_address_fold by (rewrite length_app, Hcells; cbn; lia).
  change (0 + 6)%nat with 6%nat. rewrite H6, Hssid, Hlast.
  rewrite drop_0, take_app_length' by (symmetry; exact Hcells).
  subst cells. rewrite map_app, fold_left_app.
  fold shl. unfold shl at 2. unfold pad. rewrite callsign_steps_padding.
  unfold shl. rewrite callsign_steps_letters by exact Hup.
  rewrite append_nil_l, string_of_list_ascii_of_string.
  rewrite strip_of_upper_letters by exact Hup. reflexivity.
Qed.

Lemma address_roundtrip_witness :
  (String.length "NOCALL" <= 6)%nat
  /\ Forall is_upper_letter (list_ascii_of_string "NOCALL")
  /\ 0 <= 5 <= 15
  /\ exists field : bytes,
       VisualTest.encode_ax25_address "NOCALL" 5 true = Some field
       /\ RfSimulator.decode_ax25_address field 0
          = ({| RfSimulator.callsign := "NOCALL"; RfSimulator.ssid := 5 |},
             true).
Proof.
  assert (Hlen : (String.length "NOCALL" <= 6)%nat) by (cbn; lia).
  assert (Hup : Forall is_upper_letter (list_ascii_of_string "NOCALL")).
  { cbn. repeat (apply Forall_cons; split;
                  [vm_compute; split; discriminate|]).
    apply Forall_nil_2. }
  assert (Hs : 0 <= 5 <= 15) by lia.
  split; [exact Hlen|]. split; [exact Hup|]. split; [exact Hs|].
  destruct (address_roundtrip "NOCALL" 5 true Hlen Hup Hs)
    as (field & Henc & _ & _ & _ & Hdec).
  exists field. split; [exact Henc|exact Hdec].
Defined.

(** ** The channel model *)

Section ChannelProperties.
Import RfSimulator Channel.

Variable md5_hexdigest_12 : bytes -> string.
Variable random : nat -> Q.

Local Abbreviation transmit := (transmit md5_hexdigest_12 random).
Local Abbreviation relayed := (relayed random).
Local Abbreviation digest := (digest md5_hexdigest_12).
Local Abbreviation run := (run md5_hexdigest_12 random).

Lemma Qltb_lt (a b : Q) : Qltb a b = true <-> (a < b)%Q.
Proof.
  unfold Qltb. rewrite negb_true_iff, <- not_true_iff_false, Qle_bool_iff.
  split; [apply Qnot_le_lt|apply Qlt_not_le].
Qed.

Lemma Qltb_ge (a b : Q) : Qltb a b = false <-> (b <= a)%Q.
Proof.
  unfold Qltb. rewrite negb_false_iff. apply Qle_bool_iff.
Qed.

(** *** The delivery loop *)

Lemma deliver_chan (k : bytes) (rs : list Z) (w : World) :
  chan (deliver k rs w) = chan w.
Proof.
  revert w. induction rs as [|r rs IH]; intros w; [reflexivity|].
  cbn [deliver]. destruct (write_drain _ k); rewrite IH; reflexivity.
Qed.

Lemma deliver_draws (k : bytes) (rs : list Z) (w : World) :
  draws (deliver k rs w) = draws w.
Proof.
  revert w. induction rs as [|r rs IH]; intros w; [reflexivity|].
  cbn [deliver]. destruct (write_drain _ k); rewrite IH; reflexivity.
Qed.

(** A station outside the recipient list is not touched. *)
Lemma deliver_other (k : bytes) (rs : list Z) (w : World) (r : Z) :
  ~ In r rs -> objects (deliver k rs w) !! r = objects w !! r.
Proof.
  revert w. induction rs as [|r' rs IH]; intros w Hr; [reflexivity|].
  cbn [deliver]. cbn in Hr.
  destruct (write_drain _ k); rewrite IH by tauto; cbn; [|reflexivity].
  apply lookup_insert_ne. intros ->. tauto.
Qed.

(** A recipient whose connection is lost is skipped, whatever happens to
    the others. *)
Lemma deliver_lost (k : bytes) (rs : list Z) (w : World) (r : Z) :
  ~ reachable r w -> objects (deliver k rs w) !!! r = objects w !!! r.
Proof.
  unfold reachable.
  revert w. induction rs as [|r' rs IH]; intros w Hr; [reflexivity|].
  cbn [deliver]. unfold write_drain.
  destruct (connection_lost (writer (objects w !!! r'))) eqn:E.
  - rewrite IH by exact Hr. reflexivity.
  - assert (r' <> r) by (intros ->; congruence).
    rewrite IH; cbn; rewrite lookup_total_insert_ne by assumption;
      [reflexivity|exact Hr].
Qed.

(** A recipient whose connection is up receives the frame once for each
    of its occurrences in the list, and its [rx_count] follows, whether
    or not writes to other recipients fail. *)
Lemma deliver_reachable (k : bytes) (rs : list Z) (w : World) (r : Z) :
  reachable r w ->
  outbox r (deliver k rs w)
  = outbox r w ++ repeat k (count_occ Z.eq_dec rs r)
  /\ rx_of r (deliver k rs w)
     = rx_of r w + Z.of_nat (count_occ Z.eq_dec rs r)
  /\ reachable r (deliver k rs w).
Proof.
  unfold reachable, outbox, rx_of.
  revert w. induction rs as [|r' rs IH]; intros w Hr.
  - cbn. rewrite app_nil_r. split; [reflexivity|]. split; [lia|exact Hr].
  - cbn [deliver count_occ]. unfold write_drain.
    destruct (connection_lost (writer (objects w !!! r'))) eqn:E.
    + assert (r' <> r) by (intros ->; congruence).
      destruct (Z.eq_dec r' r) as [?|_]; [contradiction|].
      apply (IH (logged (LogDeliveryFailed r') w)). exact Hr.
    + destruct (Z.eq_dec r' r) as [->|Hne].
      * match goal with |- context [deliver k rs ?w1] =>
          destruct (IH w1) as (Ho & Hx & Hc) end.
        { cbn. rewrite lookup_total_insert_eq. reflexivity. }
        rewrite Ho, Hx. cbn. rewrite lookup_total_insert_eq. cbn.
        rewrite <- app_assoc. split; [reflexivity|]. split; [lia|exact Hc].
      * match goal with |- context [deliver k rs ?w1] =>
          destruct (IH w1) as (Ho & Hx & Hc) end.
        { cbn. rewrite lookup_total_insert_ne by exact Hne. exact Hr. }
        rewrite Ho, Hx. cbn. rewrite lookup_total_insert_ne by exact Hne.
        split; [reflexivity|]. split; [reflexivity|exact Hc].
Qed.

(** The log grows by one failure record per recipient whose connection is
    lost, in the order of the recipients, and by nothing else. *)
Lemma deliver_log (k : bytes) (rs : list Z) (w : World) :
  log (deliver k rs w)
  = log w
    ++ map LogDeliveryFailed
         (List.filter
            (fun r => connection_lost (writer (objects w !!! r))) rs).
Proof.
  revert w. induction rs as [|r' rs IH]; intros w.
  - cbn. now rewrite app_nil_r.
  - cbn [deliver List.filter]. unfold write_drain.
    destruct (connection_lost (writer (objects w !!! r'))) eqn:E.
    + rewrite IH. cbn. rewrite <- app_assoc. reflexivity.
    + rewrite IH. cbn [log with_objects objects]. f_equal. f_equal.
      apply filter_ext. intros r.
      destruct (Z.eq_dec r' r) as [->|Hne].
      * rewrite lookup_total_insert_eq. cbn. now rewrite E.
      * now rewrite lookup_total_insert_ne.
Qed.

(** *** One accepted transmission, up to the delivery loop *)

Lemma dupe_flags_app (l1 l2 : list LogRecord) :
  dupe_flags (l1 ++ l2) = dupe_flags l1 ++ dupe_flags l2.
Proof.
  induction l1 as [|[] l1 IH]; cbn; rewrite ?IH; reflexivity.
Qed.

Lemma delivery_failures_app (l1 l2 : list LogRecord) :
  delivery_failures (l1 ++ l2)
  = delivery_failures l1 ++ delivery_failures l2.
Proof.
  induction l1 as [|[] l1 IH]; cbn; rewrite ?IH; reflexivity.
Qed.

(** The frame duration of line 326, in seconds. *)
Lemma frame_duration_seconds (len : nat) :
  ((inject_Z (Z.of_nat len * 8) / 1200 * 1000 + TX_DELAY_MS) / 1000
   == inject_Z (Z.of_nat len * 8) / 1200 + 1 / 10)%Q.
Proof. unfold TX_DELAY_MS. field. Qed.

Lemma transmit_dropped (f : bytes) (from : Z) (now : Q) (w : World) :
  ~ accepted f ->
  chan (transmit f from now w) = chan w
  /\ objects (transmit f from now w) = objects w
  /\ draws (transmit f from now w) = draws w
  /\ (log (transmit f from now w) = log w
      \/ log (transmit f from now w)
         = log w ++ [LogFrameTooShort from
                       (length (kiss_unescape (drop 1 f)))]).
Proof.
  intros Hno. unfold RfSimulator.transmit, transmit_until_sleep.
  destruct (Nat.ltb_spec (length f) 3); [auto|].
  destruct (Nat.ltb_spec (length (kiss_unescape (drop 1 f))) 14).
  - cbn. auto.
  - exfalso. apply Hno. split; assumption.
Qed.

Lemma transmit_accepted (f : bytes) (from : Z) (now : Q) (w : World) :
  accepted f ->
  exists wp : World,
    transmit f from now w
    = deliver (relayed f w) (recipients_of from w) wp
    /\ stations (chan wp) = stations (chan w)
    /\ ber (chan wp) = ber (chan w)
    /\ frame_counter (chan wp) = frame_counter (chan w) + 1
    /\ channel_busy (chan wp) = true
    /\ channel_busy_until (chan wp)
       = (now + (inject_Z (Z.of_nat (length (kiss_unescape (drop 1 f))) * 8)
                 / 1200 * 1000 + TX_DELAY_MS) / 1000)%Q
    /\ collision_count (chan wp)
       = (if channel_busy (chan w)
             && Qltb now (channel_busy_until (chan w))
          then collision_count (chan w) + 1 else collision_count (chan w))
    /\ recent_frames (chan wp)
       = filter (fun ht : string * Q => Qltb 5 (now - ht.2) = false)
                (<[digest f := now]> (recent_frames (chan w)))
    /\ (forall r, r <> from -> objects wp !! r = objects w !! r)
    /\ writer (objects wp !!! from) = writer (objects w !!! from)
    /\ tx_count (objects wp !!! from) = tx_count (objects w !!! from) + 1
    /\ rx_count (objects wp !!! from) = rx_count (objects w !!! from)
    /\ dupe_flags (log wp)
       = dupe_flags (log w)
         ++ [match recent_frames (chan w) !! digest f with
             | Some t => Qltb (now - t) 1
             | None => false
             end]
    /\ delivery_failures (log wp) = delivery_failures (log w).
Proof.
  intros [H3 H14]. unfold RfSimulator.transmit, transmit_until_sleep.
  destruct (Nat.ltb_spec (length f) 3); [lia|].
  destruct (Nat.ltb_spec (length (kiss_unescape (drop 1 f))) 14); [lia|].
  set (ax25 := kiss_unescape (drop 1 f)).
  unfold mark_busy, check_duplicate, transmit_after_sleep. cbv zeta.
  cbn [chan with_chan with_objects recent_frames objects flight_data
       flight_cmd flight_from].
  unfold Channel.relayed. fold ax25.
  assert (Hair : forall w1 : World,
             ber (chan w1) = ber (chan w) -> draws w1 = draws w ->
             on_air random ax25 w1 = on_air random ax25 w).
  { intros w1 Hb Hd. unfold on_air. now rewrite Hb, Hd. }
  match goal with
  | |- context [on_air random ax25 ?w1] =>
      rewrite (Hair w1) by (destruct (channel_busy (chan w)
                                       && Qltb now _); reflexivity)
  end.
  destruct (on_air random ax25 w) as [ax25_out k].
  eexists. split; [reflexivity|].
  cbn -[filter insert lookup lookup_total Qltb Qdiv Qmult Qplus Qminus].
  destruct (channel_busy (chan w) && Qltb now (channel_busy_until (chan w)));
    cbn -[filter insert lookup lookup_total Qltb Qdiv Qmult Qplus Qminus];
    rewrite ?lookup_total_insert_eq, ?dupe_flags_app,
      ?delivery_failures_app; cbn;
    rewrite ?app_nil_r;
    repeat split; try reflexivity;
    intros r Hr; apply lookup_insert_ne; congruence.
Qed.

(** An accepted frame is in flight once [transmit] goes to sleep, with
    the command byte, the unescaped bytes and the sender it came with. *)
Lemma until_sleep_accepted (f : bytes) (from : Z) (now : Q) (w : World) :
  accepted f ->
  exists (w1 : World) (frame_id : Z),
    transmit_until_sleep md5_hexdigest_12 f from now w
    = (w1, Some {| flight_id := frame_id; flight_cmd := at_index f 0;
                   flight_data := kiss_unescape (drop 1 f);
                   flight_from := from |}).
Proof.
  intros [H3 H14]. unfold transmit_until_sleep.
  destruct (Nat.ltb_spec (length f) 3); [lia|].
  destruct (Nat.ltb_spec (length (kiss_unescape (drop 1 f))) 14); [lia|].
  cbv zeta. destruct (mark_busy _ _ _ _) as [w1 frame_id].
  destruct (check_duplicate _ _ _) as [w2 is_dupe]. eauto.
Qed.

Lemma until_sleep_dropped (f : bytes) (from : Z) (now : Q) (w : World) :
  ~ accepted f ->
  (transmit_until_sleep md5_hexdigest_12 f from now w).2 = None.
Proof.
  intros Hno. unfold transmit_until_sleep.
  destruct (Nat.ltb_spec (length f) 3); [reflexivity|].
  destruct (Nat.ltb_spec (length (kiss_unescape (drop 1 f))) 14);
    [reflexivity|].
  exfalso. apply Hno. split; assumption.
Qed.

(** *** Recipients *)

Lemma recipients_spec (from r : Z) (w : World) :
  In r (recipients_of from w) <-> registered r w /\ r <> from.
Proof.
  unfold recipients_of, registered. rewrite in_flat_map. split.
  - intros ([port set] & Hin & Hr). cbn in Hr.
    apply filter_In in Hr as [Hr Hne].
    split; [exists port, set; auto|].
    apply negb_true_iff, Z.eqb_neq in Hne. exact Hne.
  - intros [(port & set & Hin & Hr) Hne].
    exists (port, set). split; [exact Hin|]. cbn.
    apply filter_In. split; [exact Hr|].
    apply negb_true_iff, Z.eqb_neq. exact Hne.
Qed.

Lemma lookup_total_of_lookup (m1 m2 : gmap Z Station) (r : Z) :
  m1 !! r = m2 !! r -> m1 !!! r = m2 !!! r.
Proof. intros H. rewrite !lookup_total_alt, H. reflexivity. Qed.

(** The broadcast after the sleep, in whatever world the call wakes up
    in: the frame reaches every station registered by then, other than
    the sender, whose connection is up. *)
Lemma after_sleep_delivery (p : InFlight) (w : World) :
  let out := kiss_out_of (flight_cmd p) (on_air random (flight_data p) w).1 in
  let w' := transmit_after_sleep random p w in
  delivered_to_others out (flight_from p) w w'
  /\ outbox (flight_from p) w' = outbox (flight_from p) w
  /\ (forall r, ~ registered r w -> outbox r w' = outbox r w)
  /\ (forall r, ~ reachable r w -> objects w' !!! r = objects w !!! r)
  /\ delivery_failures (log w')
     = delivery_failures (log w)
       ++ List.filter (fun r => connection_lost (writer (objects w !!! r)))
            (recipients_of (flight_from p) w)
  /\ chan w' = chan w.
Proof.
  intros out w'. subst out w'. unfold transmit_after_sleep.
  destruct (on_air random (flight_data p) w) as [ax25_out k]. cbn [fst].
  set (out := kiss_out_of (flight_cmd p) ax25_out).
  set (from := flight_from p).
  change (recipients_of from (with_draws k w)) with (recipients_of from w).
  assert (Hfrom : ~ In from (recipients_of from w)).
  { rewrite recipients_spec. tauto. }
  split; [|split; [|split; [|split; [|split]]]].
  - intros r Hreg Hne Hreach. unfold copies.
    assert (Hin : In r (recipients_of from w))
      by (apply recipients_spec; auto).
    destruct (deliver_reachable out (recipients_of from w) (with_draws k w)
                r Hreach) as (Ho & Hx & _).
    split; [apply (count_occ_In Z.eq_dec) in Hin; lia|].
    unfold outbox, rx_of in *. cbn [objects with_draws] in Ho, Hx.
    split; [exact Ho|exact Hx].
  - unfold outbox.
    now rewrite (lookup_total_of_lookup _ _ _
                   (deliver_other out _ (with_draws k w) from Hfrom)).
  - intros r Hreg. unfold outbox.
    assert (Hnin : ~ In r (recipients_of from w)).
    { rewrite recipients_spec. tauto. }
    now rewrite (lookup_total_of_lookup _ _ _
                   (deliver_other out _ (with_draws k w) r Hnin)).
  - intros r Hlost. now rewrite deliver_lost by exact Hlost.
  - rewrite deliver_log, delivery_failures_app. cbn [log objects with_draws].
    f_equal.
    induction (List.filter _ _) as [|x l IHl]; cbn; [reflexivity|].
    now rewrite IHl.
  - rewrite deliver_chan. reflexivity.
Qed.

(** An accepted frame reaches every other registered station whose
    connection is up, and never its sender. *)
Lemma transmit_delivery (f : bytes) (from : Z) (now : Q) (w : World) :
  accepted f ->
  delivered_to_others (relayed f w) from w (transmit f from now w)
  /\ outbox from (transmit f from now w) = outbox from w
  /\ (forall r, ~ registered r w ->
        outbox r (transmit f from now w) = outbox r w)
  /\ (forall r, ~ reachable r w -> r <> from ->
        objects (transmit f from now w) !!! r = objects w !!! r)
  /\ delivery_failures (log (transmit f from now w))
     = delivery_failures (log w)
       ++ List.filter
            (fun r => connection_lost (writer (objects w !!! r)))
            (recipients_of from w).
Proof.
  intros Hacc.
  destruct (transmit_accepted f from now w Hacc)
    as (wp & -> & _ & _ & _ & _ & _ & _ & _ & Hobj & Hwr & _ & _ & _
        & Hfail).
  assert (Hsame : forall r, r <> from -> objects wp !!! r = objects w !!! r).
  { intros r Hr. apply lookup_total_of_lookup, Hobj, Hr. }
  assert (Hfrom : ~ In from (recipients_of from w)).
  { rewrite recipients_spec. tauto. }
  split; [|split; [|split; [|split]]].
  - intros r Hreg Hne Hreach. unfold copies.
    assert (Hin : In r (recipients_of from w))
      by (apply recipients_spec; auto).
    assert (Hreach' : reachable r wp).
    { unfold reachable. rewrite Hsame by exact Hne. exact Hreach. }
    destruct (deliver_reachable (relayed f w) (recipients_of from w) wp r
                Hreach') as (Ho & Hx & _).
    split; [apply (count_occ_In Z.eq_dec) in Hin; lia|].
    unfold outbox, rx_of in *. rewrite Ho, Hx, Hsame by exact Hne. auto.
  - unfold outbox.
    rewrite (lookup_total_of_lookup _ _ _
               (deliver_other (relayed f w) _ wp from Hfrom)).
    now rewrite Hwr.
  - intros r Hreg. unfold outbox.
    assert (Hnin : ~ In r (recipients_of from w)).
    { rewrite recipients_spec. tauto. }
    rewrite (lookup_total_of_lookup _ _ _
               (deliver_other (relayed f w) _ wp r Hnin)).
    destruct (Z.eq_dec r from) as [->|Hne];
      [now rewrite Hwr|now rewrite Hsame].
  - intros r Hlost Hne. rewrite deliver_lost.
    + apply Hsame, Hne.
    + unfold reachable. rewrite Hsame by exact Hne. exact Hlost.
  - rewrite deliver_log, delivery_failures_app, Hfail. f_equal.
    assert (Hmap : forall l, delivery_failures (map LogDeliveryFailed l) = l).
    { induction l as [|x l IHl]; cbn; [reflexivity|now rewrite IHl]. }
    rewrite Hmap.
    assert (Hext : forall l, ~ In from l ->
               List.filter
                 (fun r => connection_lost (writer (objects wp !!! r))) l
               = List.filter
                   (fun r => connection_lost (writer (objects w !!! r))) l).
    { induction l as [|x l IHl]; intros Hl; [reflexivity|]. cbn in *.
      rewrite IHl by tauto. rewrite (Hsame x) by (intros ->; tauto).
      reflexivity. }
    apply Hext, Hfrom.
Qed.

Lemma recipients_NoDup (from : Z) (d : list (Z * list Z)) :
  NoDup (flat_map snd d) ->
  NoDup (flat_map
           (fun entry : Z * list Z =>
              List.filter (fun station => negb (station =? from)) entry.2)
           d).
Proof.
  induction d as [|[port set] rest IH]; cbn; intros Hnd; [constructor|].
  apply NoDup_app in Hnd as (Hset & Hdisj & Hrest).
  apply NoDup_app. split; [|split].
  - apply NoDup_ListNoDup, List.NoDup_filter, NoDup_ListNoDup, Hset.
  - intros x Hx Hx'. apply list_elem_of_In, filter_In in Hx as [Hx _].
    apply (Hdisj x); [apply list_elem_of_In, Hx|].
    apply list_elem_of_In, in_flat_map in Hx' as (e & He & Hxe).
    apply filter_In in Hxe as [Hxe _].
    apply list_elem_of_In, in_flat_map. exists e. auto.
  - apply IH, Hrest.
Qed.

(** In a registry without duplicates each recipient is written once. *)
Lemma copies_at_most_one (from r : Z) (w : World) :
  registry_ok w -> (copies from r w <= 1)%nat.
Proof.
  unfold registry_ok, copies, recipients_of. intros Hnd.
  apply List.NoDup_count_occ, NoDup_ListNoDup, recipients_NoDup, Hnd.
Qed.

(** *** The registry *)

Lemma registered_flat (r : Z) (w : World) :
  registered r w <-> In r (flat_map snd (stations (chan w))).
Proof.
  unfold registered. rewrite in_flat_map. split.
  - intros (port & set & Hin & Hr). exists (port, set). auto.
  - intros ([port set] & Hin & Hr). exists port, set. auto.
Qed.

Lemma stations_split (port : Z) (d : list (Z * list Z)) (set : list Z) :
  stations_get port d = Some set ->
  exists d1 d2,
    d = d1 ++ (port, set) :: d2
    /\ forall set', stations_set port set' d = d1 ++ (port, set') :: d2.
Proof.
  induction d as [|[p old] d IH]; cbn; [discriminate|].
  destruct (Z.eqb_spec p port) as [->|Hne].
  - intros [= ->]. exists [], d. auto.
  - intros Hget. destruct (IH Hget) as (d1 & d2 & -> & Hset).
    exists ((p, old) :: d1), d2. split; [reflexivity|].
    intros set'. cbn. now rewrite Hset.
Qed.

Lemma flat_snd_middle (d1 d2 : list (Z * list Z)) (port : Z) (set : list Z) :
  flat_map snd (d1 ++ (port, set) :: d2)
  = flat_map snd d1 ++ set ++ flat_map snd d2.
Proof. rewrite flat_map_app. reflexivity. Qed.

Lemma World_init_inv (ber : Q) : registry_inv (World_init ber).
Proof.
  split.
  - unfold registry_ok. cbn. constructor.
  - intros r Hr. apply registered_flat in Hr. destruct Hr.
Qed.

(** A new station gets an id that no registered station has. *)
Lemma add_station_inv (wr : StreamWriter) (port : Z) (addr : string)
    (w : World) :
  registry_inv w -> registry_inv (add_station wr port addr w).1.
Proof.
  intros [Hok Hbound]. unfold add_station. cbv zeta.
  cbn [stations station_counter].
  destruct (stations_get port (stations (chan w))) as [set|] eqn:Hget.
  - destruct (stations_split _ _ _ Hget) as (d1 & d2 & Hd & Hset).
    assert (Hfresh : ~ In (station_counter (chan w) + 1)
                       (flat_map snd (stations (chan w)))).
    { intros Hin. apply registered_flat, Hbound in Hin. lia. }
    unfold registry_ok in Hok. rewrite Hd, flat_snd_middle in Hok, Hfresh.
    assert (Hadd : set_add (station_counter (chan w) + 1) set
                   = set ++ [station_counter (chan w) + 1]).
    { unfold set_add.
      destruct (existsb _ set) eqn:E; [|reflexivity].
      exfalso. apply existsb_exists in E as (x & Hx & Heq).
      apply Z.eqb_eq in Heq. subst x. apply Hfresh.
      rewrite !in_app_iff. auto. }
    assert (Hflat : flat_map snd
                      (stations_set port
                         (set_add (station_counter (chan w) + 1) set)
                         (stations (chan w)))
                    ≡ₚ (station_counter (chan w) + 1)
                       :: flat_map snd d1 ++ set ++ flat_map snd d2).
    { rewrite Hset, flat_snd_middle, Hadd, <- app_assoc. cbn.
      rewrite (app_assoc (flat_map snd d1) set).
      rewrite <- Permutation_middle. now rewrite <- app_assoc. }
    split.
    + unfold registry_ok. cbn. rewrite Hflat. apply NoDup_cons.
      split; [rewrite list_elem_of_In; exact Hfresh|exact Hok].
    + intros r Hr. apply registered_flat in Hr. cbn in Hr.
      apply list_elem_of_In in Hr. rewrite Hflat in Hr.
      apply elem_of_cons in Hr as [->|Hr]; [cbn; lia|].
      cbn. apply list_elem_of_In in Hr.
      assert (r <= station_counter (chan w)); [|lia].
      apply Hbound, registered_flat. now rewrite Hd, flat_snd_middle.
  - split; [exact Hok|]. intros r Hr. cbn.
    specialize (Hbound r Hr). lia.
Qed.

Lemma remove_station_inv (station : Z) (w w' : World) :
  registry_inv w -> remove_station station w = Some w' -> registry_inv w'.
Proof.
  intros [Hok Hbound]. unfold remove_station. cbv zeta.
  destruct (stations_get _ (stations (chan w))) as [set|] eqn:Hget;
    [|discriminate].
  intros [= <-].
  destruct (stations_split _ _ _ Hget) as (d1 & d2 & Hd & Hset).
  unfold registry_ok in Hok. rewrite Hd, flat_snd_middle in Hok.
  assert (Hsub : forall r,
             In r (flat_map snd d1 ++ set_discard station set
                   ++ flat_map snd d2) ->
             In r (flat_map snd d1 ++ set ++ flat_map snd d2)).
  { intros r. rewrite !in_app_iff. unfold set_discard.
    rewrite filter_In. tauto. }
  split.
  - unfold registry_ok. cbn. rewrite Hset, flat_snd_middle.
    apply NoDup_app in Hok as (H1 & Hdisj & H2).
    apply NoDup_app in H2 as (Hs & Hdisj2 & H3).
    apply NoDup_app. split; [exact H1|]. split.
    + intros x Hx Hx'. apply (Hdisj x Hx).
      apply list_elem_of_In. apply list_elem_of_In in Hx'.
      rewrite in_app_iff in *. unfold set_discard in Hx'.
      rewrite filter_In in Hx'. tauto.
    + apply NoDup_app. split; [|split; [|exact H3]].
      * apply NoDup_ListNoDup, List.NoDup_filter, NoDup_ListNoDup, Hs.
      * intros x Hx. apply Hdisj2. apply list_elem_of_In.
        apply list_elem_of_In, filter_In in Hx. tauto.
  - intros r Hr. apply registered_flat in Hr. cbn in Hr.
    rewrite Hset, flat_snd_middle in Hr.
    cbn. apply Hbound, registered_flat. rewrite Hd, flat_snd_middle.
    apply Hsub, Hr.
Qed.

(** Transmissions leave the registry alone. *)
Lemma transmit_registry (f : bytes) (from : Z) (now : Q) (w : World) :
  stations (chan (transmit f from now w)) = stations (chan w)
  /\ station_counter (chan (transmit f from now w))
     = station_counter (chan w).
Proof.
  unfold RfSimulator.transmit, transmit_until_sleep.
  destruct (length f <? 3)%nat; [auto|].
  destruct (length (kiss_unescape (drop 1 f)) <? 14)%nat; [auto|].
  unfold mark_busy, check_duplicate, transmit_after_sleep. cbv zeta.
  destruct (on_air _ _ _) as [out k]. rewrite deliver_chan.
  destruct (channel_busy (chan w) && Qltb now _); auto.
Qed.

Lemma transmit_inv (f : bytes) (from : Z) (now : Q) (w : World) :
  registry_inv w -> registry_inv (transmit f from now w).
Proof.
  destruct (transmit_registry f from now w) as [Hst Hctr].
  unfold registry_inv, registry_ok, registered. now rewrite Hst, Hctr.
Qed.

(** (C2) For every transmission of a frame accepted for relay, the
    recipients are the stations registered on any port when the broadcast
    takes place, after the propagation delay, other than the sender: each
    of them whose connection is up is written the re-encoded frame (once,
    in a registry without duplicates) and has its [rx_count] incremented,
    whatever the state of the other recipients' connections; each of them
    whose connection is lost gets one failure record and nothing else; the
    sender is written nothing. [w2] is the world in which the call wakes
    up; the last part is the case where nothing happened during the
    sleep. *)
Theorem broadcast_to_all_other_stations (f : bytes) (from : Z) (now : Q)
    (w : World) :
  accepted f ->
  exists (w1 : World) (p : InFlight),
    transmit_until_sleep md5_hexdigest_12 f from now w = (w1, Some p)
    /\ flight_from p = from
    /\ (forall w2 : World,
          let w3 := transmit_after_sleep random p w2 in
          (forall r, In r (recipients_of from w2)
                     <-> registered r w2 /\ r <> from)
          /\ delivered_to_others (relayed f w2) from w2 w3
          /\ (registry_ok w2 -> forall r, (copies from r w2 <= 1)%nat)
          /\ outbox from w3 = outbox from w2
          /\ (forall r, ~ registered r w2 -> outbox r w3 = outbox r w2)
          /\ (forall r, ~ reachable r w2 ->
                objects w3 !!! r = objects w2 !!! r)
          /\ delivery_failures (log w3)
             = delivery_failures (log w2)
               ++ List.filter
                    (fun r => connection_lost (writer (objects w2 !!! r)))
                    (recipients_of from w2))
    /\ transmit f from now w = transmit_after_sleep random p w1
    /\ delivered_to_others (relayed f w) from w (transmit f from now w)
    /\ outbox from (transmit f from now w) = outbox from w.
Proof.
  intros Hacc.
  destruct (until_sleep_accepted f from now w Hacc) as (w1 & fid & Hsleep).
  set (p := {| flight_id := fid; flight_cmd := at_index f 0;
               flight_data := kiss_unescape (drop 1 f);
               flight_from := from |}) in *.
  exists w1, p. split; [exact Hsleep|]. split; [reflexivity|].
  split; [|split; [|split]].
  - intros w2 w3.
    destruct (after_sleep_delivery p w2)
      as (Hdel & Hfrom & Hunreg & Hlost & Hfail & _).
    split; [intros r; apply recipients_spec|].
    split; [exact Hdel|].
    split; [intros Hok r; now apply copies_at_most_one|].
    split; [exact Hfrom|]. split; [exact Hunreg|].
    split; [exact Hlost|exact Hfail].
  - unfold RfSimulator.transmit. now rewrite Hsleep.
  - exact (proj1 (transmit_delivery f from now w Hacc)).
  - exact (proj1 (proj2 (transmit_delivery f from now w Hacc))).
Qed.

(** *** Frames below the minimum header length *)

Lemma kiss_unescape_length (data : bytes) :
  (length (kiss_unescape data) <= length data)%nat.
Proof.
  induction data as [|a|a b l IHl IHbl] using bytes_pair_ind.
  - cbn. lia.
  - cbn. destruct (a =? FESC); cbn; lia.
  - rewrite rf_unescape_cons2. destruct (a =? FESC); cbn in *; lia.
Qed.

(** The second guard alone decides: a frame passes both guards exactly
    when its unescaped content has at least 14 bytes. *)
Lemma accepted_iff (f : bytes) :
  accepted f <-> (14 <= length (kiss_unescape (drop 1 f)))%nat.
Proof.
  unfold accepted. split; [tauto|]. intros H. split; [|exact H].
  pose proof (kiss_unescape_length (drop 1 f)) as Hle.
  rewrite length_drop in Hle. lia.
Qed.

Lemma decode_ax25_frame_14 (data : bytes) :
  length data = 14%nat -> frame_type (decode_ax25_frame data) = UNKNOWN.
Proof.
  intros Hlen. unfold decode_ax25_frame. rewrite Hlen. cbn [Nat.ltb Nat.leb].
  destruct (decode_ax25_address data 0) as [d ?].
  destruct (decode_ax25_address data 7) as [s is_last].
  cbn [via_loop]. rewrite Hlen.
  replace (negb is_last && (14 + 7 <=? 14)%nat) with false
    by (now rewrite andb_false_r).
  reflexivity.
Qed.

Lemma relayed_without_bit_errors (f : bytes) (w : World) :
  (ber (chan w) <= 0)%Q ->
  relayed f w
  = [FEND; at_index f 0] ++ kiss_escape (kiss_unescape (drop 1 f)) ++ [FEND].
Proof.
  intros Hber. unfold Channel.relayed, on_air.
  apply Qltb_ge in Hber. rewrite Hber. reflexivity.
Qed.

(** (C4) A frame whose unescaped content is shorter than the minimum
    header length of 14 bytes is dropped: [transmit] returns normally,
    nothing is left in flight, the channel and every station are as before
    (no delivery, no counter moves), and at most a frame-too-short warning
    is logged. A frame whose unescaped content has exactly the 14 bytes of
    the two addresses decodes to a frame of type UNKNOWN; and every frame
    of at least 14 bytes, whatever its decoding yields, is relayed to the
    other stations; with no bit-error rate configured the relayed frame is
    the escaped form of the very bytes received. *)
Theorem short_frames_dropped_unclassified_relayed (f : bytes) (from : Z)
    (now : Q) (w : World) :
  let ax25 := kiss_unescape (drop 1 f) in
  let w' := transmit f from now w in
  ((length ax25 < 14)%nat ->
     (transmit_until_sleep md5_hexdigest_12 f from now w).2 = None
     /\ chan w' = chan w /\ objects w' = objects w /\ draws w' = draws w
     /\ (log w' = log w
         \/ log w' = log w ++ [LogFrameTooShort from (length ax25)]))
  /\ ((length ax25 = 14)%nat ->
       frame_type (decode_ax25_frame ax25) = UNKNOWN)
  /\ ((14 <= length ax25)%nat ->
       delivered_to_others (relayed f w) from w w'
       /\ ((ber (chan w) <= 0)%Q ->
           relayed f w = [FEND; at_index f 0] ++ kiss_escape ax25 ++ [FEND]
           /\ kiss_unescape (kiss_escape ax25) = ax25)).
Proof.
  intros ax25 w'. split; [|split].
  - intros Hshort.
    assert (Hno : ~ accepted f) by (rewrite accepted_iff; fold ax25; lia).
    split; [now apply until_sleep_dropped|now apply transmit_dropped].
  - apply decode_ax25_frame_14.
  - intros H14.
    assert (Hacc : accepted f) by (apply accepted_iff; fold ax25; lia).
    split; [exact (proj1 (transmit_delivery f from now w Hacc))|].
    intros Hber. split; [now apply relayed_without_bit_errors|].
    apply rf_unescape_escape.
Qed.

(** *** The busy window *)

Lemma transmit_chan_accepted (f : bytes) (from : Z) (now : Q) (w : World) :
  accepted f ->
  let c' := chan (transmit f from now w) in
  stations c' = stations (chan w)
  /\ channel_busy c' = true
  /\ channel_busy_until c'
     = (now + (inject_Z (Z.of_nat (length (kiss_unescape (drop 1 f))) * 8)
               / 1200 * 1000 + TX_DELAY_MS) / 1000)%Q
  /\ collision_count c'
     = (if channel_busy (chan w) && Qltb now (channel_busy_until (chan w))
        then collision_count (chan w) + 1 else collision_count (chan w))
  /\ recent_frames c'
     = filter (fun ht : string * Q => Qltb 5 (now - ht.2) = false)
              (<[digest f := now]> (recent_frames (chan w)))
  /\ dupe_flags (log (transmit f from now w))
     = dupe_flags (log w)
       ++ [match recent_frames (chan w) !! digest f with
           | Some t => Qltb (now - t) 1
           | None => false
           end].
Proof.
  intros Hacc.
  destruct (transmit_accepted f from now w Hacc)
    as (wp & -> & Hst & _ & _ & Hbusy & Huntil & Hcc & Hrecent & _ & _ & _
        & _ & Hflags & _).
  cbv zeta. rewrite deliver_chan, deliver_log, dupe_flags_app.
  assert (Hnone : forall l, dupe_flags (map LogDeliveryFailed l) = []).
  { induction l as [|x l IHl]; [reflexivity|exact IHl]. }
  rewrite Hnone, app_nil_r. repeat split; assumption.
Qed.

(** Nothing ever clears [channel_busy]. *)
Lemma transmit_keeps_busy (f : bytes) (from : Z) (now : Q) (w : World) :
  channel_busy (chan w) = true ->
  channel_busy (chan (transmit f from now w)) = true.
Proof.
  intros Hbusy.
  destruct (Nat.le_gt_cases 14 (length (kiss_unescape (drop 1 f))))
    as [Hacc|Hshort].
  - apply accepted_iff in Hacc.
    apply (transmit_chan_accepted f from now w Hacc).
  - destruct (transmit_dropped f from now w) as (-> & _).
    + rewrite accepted_iff. lia.
    + exact Hbusy.
Qed.

Lemma run_keeps_busy (calls : list Call) (w : World) :
  channel_busy (chan w) = true -> channel_busy (chan (run calls w)) = true.
Proof.
  revert w. induction calls as [|c calls IH]; intros w Hbusy; [exact Hbusy|].
  apply IH, transmit_keeps_busy, Hbusy.
Qed.


(** *** The table of recent digests *)

Lemma recent_after_accepted (f : bytes) (from : Z) (now : Q) (w : World)
    (h : string) (t : Q) :
  accepted f ->
  recent_frames (chan (transmit f from now w)) !! h = Some t
  <-> <[digest f := now]> (recent_frames (chan w)) !! h = Some t
      /\ ~ (5 < now - t)%Q.
Proof.
  intros Hacc.
  destruct (transmit_chan_accepted f from now w Hacc)
    as (_ & _ & _ & _ & -> & _).
  rewrite map_lookup_filter_Some. cbn [snd].
  rewrite <- Qltb_lt, not_true_iff_false. reflexivity.
Qed.

Lemma recent_after_dropped (f : bytes) (from : Z) (now : Q) (w : World) :
  ~ accepted f ->
  recent_frames (chan (transmit f from now w)) = recent_frames (chan w).
Proof.
  intros Hno. now destruct (transmit_dropped f from now w Hno) as (-> & _).
Qed.

(** While every call is made between [t1] and [t2], less than a second
    apart, a digest recorded at or after [t1] stays recorded at or after
    [t1]. *)
Lemma run_keeps_recent_digest (h : string) (t1 t2 : Q) (calls : list Call)
    (w : World) :
  (t2 - t1 < 1)%Q ->
  Forall (fun c => (t1 <= call_time c <= t2)%Q) calls ->
  (exists t, recent_frames (chan w) !! h = Some t /\ (t1 <= t)%Q) ->
  exists t, recent_frames (chan (run calls w)) !! h = Some t /\ (t1 <= t)%Q.
Proof.
  intros Hwin Htimes. revert w.
  induction Htimes as [|c calls [Hlo Hhi] _ IH]; intros w Hentry;
    [exact Hentry|].
  apply IH. destruct Hentry as (t & Ht & Hle).
  destruct (Nat.le_gt_cases 14
              (length (kiss_unescape (drop 1 (call_frame c)))))
    as [Hacc|Hshort].
  - apply accepted_iff in Hacc.
    destruct (decide (digest (call_frame c) = h)) as [Heq|Hne].
    + exists (call_time c). split; [|exact Hlo].
      apply recent_after_accepted; [exact Hacc|].
      rewrite Heq, lookup_insert_eq. split; [reflexivity|]. lra.
    + exists t. split; [|exact Hle].
      apply recent_after_accepted; [exact Hacc|].
      rewrite lookup_insert_ne by exact Hne. split; [exact Ht|]. lra.
  - exists t. split; [|exact Hle].
    rewrite recent_after_dropped; [exact Ht|].
    rewrite accepted_iff. lia.
Qed.

(** Calls that carry other digests leave the entry of [h] as it is, or
    purge it. *)
Lemma run_other_digests (h : string) (P : Q -> Prop) (calls : list Call)
    (w : World) :
  Forall (fun c => accepted (call_frame c) -> digest (call_frame c) <> h)
         calls ->
  (forall t, recent_frames (chan w) !! h = Some t -> P t) ->
  forall t, recent_frames (chan (run calls w)) !! h = Some t -> P t.
Proof.
  intros Hother. revert w.
  induction Hother as [|c calls Hc _ IH]; intros w Hentry; [exact Hentry|].
  apply IH. intros t Ht. apply Hentry.
  destruct (Nat.le_gt_cases 14
              (length (kiss_unescape (drop 1 (call_frame c)))))
    as [Hacc|Hshort].
  - apply accepted_iff in Hacc.
    apply recent_after_accepted in Ht as [Ht _]; [|exact Hacc].
    rewrite lookup_insert_ne in Ht by (apply Hc, Hacc). exact Ht.
  - rewrite recent_after_dropped in Ht; [exact Ht|].
    rewrite accepted_iff. lia.
Qed.


End ChannelProperties.

(** ** The model on sample data *)

Example sample_registry :
  RfSimulator.stations (RfSimulator.chan Sample.three_stations)
  = [(8001, [1; 3]); (8002, [2]); (8003, []); (8004, [])].
Proof. reflexivity. Qed.

Example sample_decode :
  let f := RfSimulator.decode_ax25_frame Sample.ui_hello in
  RfSimulator.dest f
  = Some {| RfSimulator.callsign := "TEST"; RfSimulator.ssid := 2 |}
  /\ RfSimulator.source f
     = Some {| RfSimulator.callsign := "TEST"; RfSimulator.ssid := 1 |}
  /\ RfSimulator.via f = []
  /\ RfSimulator.frame_type f = RfSimulator.U_FRAME
  /\ RfSimulator.control f = 0x03
  /\ RfSimulator.pid f = 0xF0
  /\ RfSimulator.info f = [0x48; 0x45; 0x4C; 0x4C; 0x4F]
  /\ RfSimulator.AX25Frame_str f = "TEST-1->TEST-2 UI"%string.
Proof. vm_compute. repeat split. Qed.

Example sample_feed :
  RfSimulator.feed ([0x55; 0xC0; 0xC0] ++ Sample.kiss_hello
                    ++ [0xC0; 0xC0; 0x00; 0x41; 0xC0; 0x07])
    RfSimulator.Framer_init
  = ([Sample.kiss_hello; Sample.kiss_tiny],
     {| RfSimulator.buffer := [0x07]; RfSimulator.in_frame := true |}).
Proof. reflexivity. Qed.

Example sample_transmit :
  let w := RfSimulator.transmit Sample.digest_of Sample.coin
             Sample.kiss_hello 1 0 Sample.three_stations in
  Channel.outbox 2 w = [[0xC0] ++ Sample.kiss_hello ++ [0xC0]]
  /\ Channel.outbox 1 w = []
  /\ Channel.outbox 3 w = []
  /\ Channel.rx_of 2 w = 1
  /\ RfSimulator.tx_count (RfSimulator.objects w !!! 1) = 1
  /\ Channel.delivery_failures (RfSimulator.log w) = [3]
  /\ Channel.dupe_flags (RfSimulator.log w) = [false].
Proof. vm_compute. repeat split. Qed.

(** ** The channel theorems on sample data *)

Lemma kiss_hello_accepted : Channel.accepted Sample.kiss_hello.
Proof. split; vm_compute; lia. Defined.



Lemma broadcast_to_all_other_stations_witness :
  let w := Sample.three_stations in
  let w' := RfSimulator.transmit Sample.digest_of Sample.coin
              Sample.kiss_hello 1 0 w in
  Channel.accepted Sample.kiss_hello
  /\ Channel.delivered_to_others
       (Channel.relayed Sample.coin Sample.kiss_hello w) 1 w w'
  /\ Channel.outbox 1 w' = Channel.outbox 1 w.
Proof.
  intros w w'.
  destruct (broadcast_to_all_other_stations Sample.digest_of Sample.coin
              Sample.kiss_hello 1 0 w kiss_hello_accepted)
    as (w1 & p & _ & _ & _ & _ & Hdel & Hfrom).
  split; [exact kiss_hello_accepted|]. split; [exact Hdel|exact Hfrom].
Defined.



Lemma short_frames_dropped_unclassified_relayed_witness :
  let f := 0x00 :: firstn 14 Sample.ui_hello in
  let w := Sample.three_stations in
  let w' := RfSimulator.transmit Sample.digest_of Sample.coin f 1 0 w in
  (length (RfSimulator.kiss_unescape (drop 1 f)) = 14)%nat
  /\ RfSimulator.frame_type
       (RfSimulator.decode_ax25_frame (RfSimulator.kiss_unescape (drop 1 f)))
     = RfSimulator.UNKNOWN
  /\ Channel.delivered_to_others (Channel.relayed Sample.coin f w) 1 w w'.
Proof.
  intros f w w'.
  assert (H14 : (length (RfSimulator.kiss_unescape (drop 1 f)) = 14)%nat)
    by (vm_compute; reflexivity).
  assert (Hle : (14 <= length (RfSimulator.kiss_unescape (drop 1 f)))%nat)
    by (rewrite H14; lia).
  split; [exact H14|].
  destruct (short_frames_dropped_unclassified_relayed
              Sample.digest_of Sample.coin f 1 0 w)
    as (_ & Hunknown & Hrelay).
  split; [exact (Hunknown H14)|exact (proj1 (Hrelay Hle))].
Defined.

(** * Further properties of the modelled code *)

(** ** The three unescape functions compared *)

Lemma escape_open_escape (p : bytes) : escape_open (kiss_escape p) = false.
Proof.
  induction p as [|b p IH]; [reflexivity|].
  escape_cases b.
  - exact IH.
  - exact IH.
  - destruct (kiss_escape p) as [|c q] eqn:E.
    + cbn. destruct (Z.eqb_spec b FESC); [contradiction|reflexivity].
    + rewrite escape_open_cons2.
      destruct (Z.eqb_spec b FESC); [contradiction|exact IH].
Qed.

Lemma script_unescape_is_rf (p : bytes) :
  InteractiveTest.kiss_unescape p
  = RfSimulator.kiss_unescape p ++ (if escape_open p then [FESC] else []).
Proof.
  induction p as [|a|a b l IHl IHbl] using bytes_pair_ind.
  - reflexivity.
  - cbn. destruct (Z.eqb_spec a FESC) as [->|_]; reflexivity.
  - rewrite script_unescape_cons2, rf_unescape_cons2, escape_open_cons2.
    destruct (a =? FESC); [rewrite IHl|rewrite IHbl]; reflexivity.
Qed.

(** (X1) The unescape of tnc4_config.py computes the same function as the one
    of Docker/rf_simulator.py. The one of Scripts/interactive-test.py and
    Scripts/visual-test.py returns the same bytes, followed by one 0xDB
    exactly when the input ends inside an escape. All three undo
    [kiss_escape]. *)
Theorem unescape_implementations_agree (p : bytes) :
  Tnc4Config.kiss_unescape p = RfSimulator.kiss_unescape p
  /\ InteractiveTest.kiss_unescape p
     = RfSimulator.kiss_unescape p
       ++ (if escape_open p then [FESC] else [])
  /\ Tnc4Config.kiss_unescape (kiss_escape p) = p
  /\ InteractiveTest.kiss_unescape (kiss_escape p) = p.
Proof.
  split; [apply tnc4_unescape_is_rf|].
  split; [apply script_unescape_is_rf|]. split.
  - rewrite tnc4_unescape_is_rf. apply rf_unescape_escape.
  - rewrite script_unescape_is_rf, escape_open_escape, app_nil_r.
    apply rf_unescape_escape.
Qed.

(** ** The framing loop of [handle_station] *)

Lemma feed_app (a b : bytes) (st : RfSimulator.Framer) :
  RfSimulator.feed (a ++ b) st
  = let '(frames_a, st_a) := RfSimulator.feed a st in
    let '(frames_b, st_b) := RfSimulator.feed b st_a in
    (frames_a ++ frames_b, st_b).
Proof.
  revert st. induction a as [|byte a IH]; intros st.
  - cbn. now destruct (RfSimulator.feed b st).
  - cbn [app RfSimulator.feed]. destruct (byte =? FEND).
    + rewrite IH.
      destruct (RfSimulator.feed a _) as [fa sa].
      destruct (RfSimulator.feed b sa) as [fb sb].
      now rewrite app_assoc.
    + destruct (RfSimulator.in_frame st); apply IH.
Qed.

(** (X2) However the byte stream is cut into chunks by [reader.read], the same
    frames are handed to [transmit] in the same order, and the same state is
    left: feeding two chunks one after the other is feeding their
    concatenation. *)
Theorem feed_chunking (chunks : list bytes) (st : RfSimulator.Framer) :
  RfSimulator.feed (concat chunks) st
  = fold_left
      (fun (acc : list bytes * RfSimulator.Framer) (chunk : bytes) =>
         let '(frames, st') := RfSimulator.feed chunk acc.2 in
         (acc.1 ++ frames, st'))
      chunks ([], st).
Proof.
  assert (H : forall done st,
             fold_left
               (fun (acc : list bytes * RfSimulator.Framer) (chunk : bytes) =>
                  let '(frames, st') := RfSimulator.feed chunk acc.2 in
                  (acc.1 ++ frames, st'))
               chunks (done, st)
             = (done ++ (RfSimulator.feed (concat chunks) st).1,
                (RfSimulator.feed (concat chunks) st).2)).
  { induction chunks as [|c chunks IH]; intros done st0.
    - cbn. now rewrite app_nil_r.
    - cbn [fold_left concat snd fst]. rewrite feed_app.
      destruct (RfSimulator.feed c st0) as [fc sc]. rewrite IH.
      destruct (RfSimulator.feed (concat chunks) sc) as [fr sr]. cbn.
      now rewrite app_assoc. }
  rewrite H. cbn. now destruct (RfSimulator.feed (concat chunks) st).
Qed.

(** (X3) No frame handed to [transmit] is empty or contains the delimiter, and
    neither does the buffer carried over. *)
Theorem feed_frames_wellformed (data : bytes) (st : RfSimulator.Framer) :
  ~ In FEND (RfSimulator.buffer st) ->
  (forall frame, In frame (RfSimulator.feed data st).1 ->
     frame <> [] /\ ~ In FEND frame)
  /\ ~ In FEND (RfSimulator.buffer (RfSimulator.feed data st).2).
Proof.
  revert st. induction data as [|byte data IH]; intros st Hbuf.
  - cbn. split; [intros frame []|exact Hbuf].
  - cbn [RfSimulator.feed]. destruct (Z.eqb_spec byte FEND) as [->|Hne].
    + specialize (IH {| RfSimulator.buffer := [];
                        RfSimulator.in_frame := true |} (fun H => H)).
      destruct (RfSimulator.feed data _) as [frames st'].
      cbn [fst snd] in *. destruct IH as [IHf IHb]. split; [|exact IHb].
      intros frame Hin. apply in_app_or in Hin as [Hin|Hin]; [|auto].
      destruct (RfSimulator.in_frame st); cbn in Hin; [|destruct Hin].
      destruct (RfSimulator.buffer st) as [|x buf] eqn:E; cbn in Hin;
        [destruct Hin|].
      destruct Hin as [<-|[]]. split; [discriminate|exact Hbuf].
    + destruct (RfSimulator.in_frame st); [|now apply IH].
      apply IH. cbn. rewrite in_app_iff. cbn. intros [H|[H|[]]]; auto.
Qed.

Lemma feed_frames_wellformed_witness :
  ~ In FEND (RfSimulator.buffer RfSimulator.Framer_init)
  /\ ~ In FEND
       (RfSimulator.buffer
          (RfSimulator.feed [0xC0; 0x00; 0x41; 0xC0; 0xC0; 0x42]
             RfSimulator.Framer_init).2).
Proof.
  split; [intros []|].
  exact (proj2 (feed_frames_wellformed [0xC0; 0x00; 0x41; 0xC0; 0xC0; 0x42]
                  RfSimulator.Framer_init (fun H : False => H))).
Defined.

Lemma feed_body (body acc : bytes) :
  ~ In FEND body ->
  RfSimulator.feed body
    {| RfSimulator.buffer := acc; RfSimulator.in_frame := true |}
  = ([], {| RfSimulator.buffer := acc ++ body;
            RfSimulator.in_frame := true |}).
Proof.
  revert acc. induction body as [|b body IH]; intros acc Hno.
  - cbn. now rewrite app_nil_r.
  - cbn [RfSimulator.feed RfSimulator.in_frame RfSimulator.buffer].
    destruct (Z.eqb_spec b FEND) as [->|_]; [exfalso; apply Hno; now left|].
    rewrite IH by (intros H; apply Hno; now right).
    now rewrite <- app_assoc.
Qed.



(** ** Bit errors *)

Section BitErrors.
Variable random : nat -> Q.

Local Abbreviation flip_step := (Further.flip_step random).

Lemma testbit_one_shifted (bit j : nat) :
  Z.testbit (Z.shiftl 1 (Z.of_nat bit)) (Z.of_nat j) = Nat.eqb j bit.
Proof.
  rewrite Z.shiftl_spec by lia.
  destruct (Nat.eqb_spec j bit) as [->|Hne].
  - now rewrite Z.sub_diag.
  - destruct (Z.of_nat j - Z.of_nat bit) as [|p|p] eqn:E; [lia| |reflexivity].
    now destruct p.
Qed.

Lemma testbit_one_shifted_high (bit : nat) (j : Z) :
  Z.of_nat bit < j -> Z.testbit (Z.shiftl 1 (Z.of_nat bit)) j = false.
Proof.
  intros H. rewrite Z.shiftl_spec by lia.
  destruct (j - Z.of_nat bit) as [|p|p] eqn:E; [lia| |reflexivity].
  now destruct p.
Qed.

Lemma flip_fold_bit (ber : Q) (k : nat) (bits : list nat) (b : Z) (j : nat) :
  List.NoDup bits ->
  Z.testbit (fold_left (flip_step ber k) bits b) (Z.of_nat j)
  = xorb (Z.testbit b (Z.of_nat j))
         (existsb (Nat.eqb j) bits
          && RfSimulator.Qltb (random (k + j)) ber).
Proof.
  revert b. induction bits as [|x bits IH]; intros b Hnd.
  - cbn. now rewrite xorb_false_r.
  - inversion Hnd as [|? ? Hx Hnd']; subst. cbn [fold_left existsb].
    rewrite IH by exact Hnd'. unfold Further.flip_step.
    destruct (Nat.eqb_spec j x) as [->|Hne].
    + assert (Hnot : existsb (Nat.eqb x) bits = false).
      { apply not_true_iff_false. intros H.
        apply existsb_exists in H as (y & Hy & Heq).
        apply Nat.eqb_eq in Heq. now subst y. }
      rewrite Hnot. cbn [orb andb]. rewrite xorb_false_r.
      destruct (RfSimulator.Qltb (random (k + x)) ber).
      * rewrite Z.lxor_spec, testbit_one_shifted, Nat.eqb_refl. reflexivity.
      * now rewrite xorb_false_r.
    + cbn [orb]. destruct (RfSimulator.Qltb (random (k + x)) ber);
        [|reflexivity].
      rewrite Z.lxor_spec, testbit_one_shifted.
      destruct (Nat.eqb_spec j x); [contradiction|].
      now rewrite xorb_false_r.
Qed.

Lemma flip_fold_high (ber : Q) (k : nat) (bits : list nat) (b : Z) (j : Z) :
  (forall x, In x bits -> Z.of_nat x < j) ->
  Z.testbit (fold_left (flip_step ber k) bits b) j = Z.testbit b j.
Proof.
  revert b. induction bits as [|x bits IH]; intros b Hlt; [reflexivity|].
  cbn [fold_left]. rewrite IH by (intros y Hy; apply Hlt; now right).
  unfold Further.flip_step. destruct (RfSimulator.Qltb _ ber); [|reflexivity].
  rewrite Z.lxor_spec, testbit_one_shifted_high by (apply Hlt; now left).
  now rewrite xorb_false_r.
Qed.

Lemma flip_step_byte :
  forallb (fun b =>
    forallb (fun bit =>
      let v := Z.lxor b (Z.shiftl 1 (Z.of_nat bit)) in
      (0 <=? v) && (v <? 256)) (seq 0 8)) (seqZ 0 256) = true.
Proof. vm_compute. reflexivity. Qed.

Lemma flip_fold_byte (ber : Q) (k : nat) (bits : list nat) (b : Z) :
  (forall x, In x bits -> (x < 8)%nat) -> is_byte b ->
  is_byte (fold_left (flip_step ber k) bits b).
Proof.
  revert b. induction bits as [|x bits IH]; intros b Hlt Hb; [exact Hb|].
  cbn [fold_left]. apply IH; [intros y Hy; apply Hlt; now right|].
  unfold Further.flip_step. destruct (RfSimulator.Qltb _ ber); [|exact Hb].
  pose proof (byte_forall _ flip_step_byte b Hb) as H. cbv beta in H.
  rewrite forallb_forall in H.
  specialize (H x (proj2 (in_seq 8 0 x) (conj (Nat.le_0_l x)
                                              (Hlt x (or_introl eq_refl))))).
  cbv zeta in H. unfold is_byte. lia.
Qed.

Lemma flip_bytes_length (ber : Q) (k : nat) (data : bytes) :
  length (RfSimulator.flip_bytes random ber k data) = length data.
Proof.
  revert k. induction data as [|b data IH]; intros k; [reflexivity|].
  cbn. now rewrite IH.
Qed.

Lemma flip_bytes_nth (ber : Q) (k : nat) (data : bytes) (i : nat) :
  (i < length data)%nat ->
  nth i (RfSimulator.flip_bytes random ber k data) 0
  = RfSimulator.flip_bits random ber (k + 8 * i) (nth i data 0).
Proof.
  revert k i. induction data as [|b data IH]; intros k i Hi;
    [cbn in Hi; lia|].
  destruct i as [|i]; cbn [RfSimulator.flip_bytes nth].
  - now rewrite Nat.mul_0_r, Nat.add_0_r.
  - rewrite IH by (cbn in Hi; lia). f_equal. lia.
Qed.

(** (X5) [apply_bit_errors] never changes the length and never leaves the byte
    range. With a rate of 0 or less it returns its input and draws nothing.
    With a positive rate it draws eight values per byte, in order, and bit
    [j] of byte [i] is flipped exactly when the draw numbered [8 * i + j]
    is below the rate; nothing above bit 7 is touched. *)
Theorem bit_errors_flip_the_drawn_bits (data : bytes) (ber : Q) (k : nat) :
  let out := RfSimulator.apply_bit_errors random data ber k in
  length out.1 = length data
  /\ (is_bytes data -> is_bytes out.1)
  /\ ((ber <= 0)%Q -> out = (data, k))
  /\ ((0 < ber)%Q ->
      out.2 = (k + 8 * length data)%nat
      /\ forall i j : nat, (i < length data)%nat ->
           Z.testbit (nth i out.1 0) (Z.of_nat j)
           = xorb (Z.testbit (nth i data 0) (Z.of_nat j))
                  ((j <? 8)%nat
                   && RfSimulator.Qltb (random (k + 8 * i + j)) ber)).
Proof.
  cbv zeta. unfold RfSimulator.apply_bit_errors.
  destruct (Qle_bool ber 0) eqn:Hoff.
  - cbn [fst snd]. split; [reflexivity|]. split; [auto|].
    split; [reflexivity|]. intros Hpos. exfalso.
    apply Qle_bool_iff in Hoff. now apply (Qlt_not_le 0 ber).
  - cbn [fst snd]. split; [apply flip_bytes_length|]. split; [|split].
    + clear Hoff. revert k. induction data as [|b data IH]; intros k Hd;
        [constructor|].
      apply Forall_cons in Hd as [Hb Hd]. cbn [RfSimulator.flip_bytes].
      apply Forall_cons. split; [|now apply IH].
      apply (flip_fold_byte ber k (seq 0 8) b); [|exact Hb].
      intros x Hx. apply in_seq in Hx. lia.
    + intros Hle. apply Qle_bool_iff in Hle. congruence.
    + intros _. split; [reflexivity|]. intros i j Hi.
      rewrite flip_bytes_nth by exact Hi. unfold RfSimulator.flip_bits.
      change (fold_left _ (seq 0 8) (nth i data 0))
        with (fold_left (flip_step ber (k + 8 * i)) (seq 0 8) (nth i data 0)).
      destruct (Nat.ltb_spec j 8) as [Hj|Hj].
      * rewrite flip_fold_bit by apply seq_NoDup. f_equal. f_equal.
        apply existsb_exists. exists j. split; [apply in_seq; lia|].
        apply Nat.eqb_refl.
      * rewrite flip_fold_high; [now rewrite xorb_false_r|].
        intros x Hx. apply in_seq in Hx. lia.
Qed.

End BitErrors.

(** ** Worlds the simulator can reach *)

Section Reachability.
Import RfSimulator Channel Further.

Variable md5_hexdigest_12 : bytes -> string.
Variable random : nat -> Q.

Local Abbreviation Reachable := (Reachable md5_hexdigest_12 random).

Lemma stations_set_keys (port : Z) (set : list Z) (d : list (Z * list Z)) :
  map fst (stations_set port set d) = map fst d.
Proof.
  induction d as [|[p old] d IH]; [reflexivity|]. cbn.
  destruct (p =? port); cbn; [reflexivity|now rewrite IH].
Qed.

Lemma stations_get_keys (port : Z) (d : list (Z * list Z)) :
  is_Some (stations_get port d) <-> In port (map fst d).
Proof.
  induction d as [|[p old] d IH]; cbn.
  - split; [intros [? [=]]|intros []].
  - destruct (Z.eqb_spec p port) as [->|Hne].
    + split; [now left|eauto].
    + rewrite IH. split; [now right|intros [?|?]; [contradiction|auto]].
Qed.

(** What each part of the simulator does to the registry and to the
    objects of the stations. *)
Lemma until_sleep_frame (f : bytes) (from : Z) (now : Q) (w : World) :
  let w1 := (transmit_until_sleep md5_hexdigest_12 f from now w).1 in
  stations (chan w1) = stations (chan w)
  /\ station_counter (chan w1) = station_counter (chan w)
  /\ (forall r s, objects w !! r = Some s ->
        exists s', objects w1 !! r = Some s' /\ port s' = port s).
Proof.
  cbv zeta. unfold transmit_until_sleep.
  destruct (length f <? 3)%nat; [cbn; eauto|].
  destruct (length (kiss_unescape (drop 1 f)) <? 14)%nat; [cbn; eauto|].
  unfold mark_busy, check_duplicate. cbv zeta.
  destruct (channel_busy (chan w) && Qltb now _); cbn;
    (split; [reflexivity|]; split; [reflexivity|]; intros r s Hr;
     destruct (Z.eq_dec from r) as [->|Hne];
     [rewrite lookup_insert_eq, (lookup_total_correct _ _ _ Hr); eauto
     |rewrite lookup_insert_ne by exact Hne; eauto]).
Qed.

Lemma deliver_frame (k : bytes) (rs : list Z) (w : World) :
  forall r s, objects w !! r = Some s ->
    exists s', objects (deliver k rs w) !! r = Some s' /\ port s' = port s.
Proof.
  revert w. induction rs as [|r' rs IH]; intros w r s Hr; [eauto|].
  cbn [deliver]. destruct (write_drain _ k) as [wr|].
  - destruct (Z.eq_dec r' r) as [->|Hne].
    + rewrite (lookup_total_correct _ _ _ Hr).
      edestruct (IH (with_objects
                       (<[r := {| writer := wr; port := port s;
                                  addr := addr s; tx_count := tx_count s;
                                  rx_count := rx_count s + 1;
                                  last_tx := last_tx s |}]> (objects w)) w)
                    r) as (s' & Hs' & Hp);
        [cbn [objects with_objects]; apply lookup_insert_eq|].
      exists s'. split; [exact Hs'|]. rewrite Hp. reflexivity.
    + apply IH. cbn [objects with_objects].
      now rewrite lookup_insert_ne.
  - now apply IH.
Qed.

Lemma after_sleep_frame (p : InFlight) (w : World) :
  let w1 := transmit_after_sleep random p w in
  chan w1 = chan w
  /\ (forall r s, objects w !! r = Some s ->
        exists s', objects w1 !! r = Some s' /\ port s' = port s).
Proof.
  cbv zeta. unfold transmit_after_sleep.
  destruct (on_air random (flight_data p) w) as [out k].
  split; [now rewrite deliver_chan|]. intros r s Hr.
  now apply deliver_frame.
Qed.

Lemma registered_stations (r : Z) (w w' : World) :
  stations (chan w') = stations (chan w) -> registered r w' <-> registered r w.
Proof. unfold registered. now intros ->. Qed.

(** Whatever the stations and the channel have been through, no station is
    registered twice, no registered id is above the counter, the ports of
    the registry are the four of [STATION_PORTS], and every registered
    station has its object, carrying its port, in the store. *)
Lemma reachable_inv (ber : Q) (w : World) :
  Reachable ber w ->
  registry_inv w
  /\ map fst (stations (chan w)) = STATION_PORTS
  /\ registry_backed w.
Proof.
  induction 1 as [|wr port addr w _ (Hinv & Hkeys & Hback)
                  |station w w' _ (Hinv & Hkeys & Hback) Hrem
                  |f from now w _ (Hinv & Hkeys & Hback)
                  |p w _ (Hinv & Hkeys & Hback)
                  |station w _ (Hinv & Hkeys & Hback)].
  - split; [apply World_init_inv|]. split; [reflexivity|].
    intros port set r Hin Hr. cbn in Hin.
    repeat (destruct Hin as [[= <- <-]|Hin]; [destruct Hr|]). destruct Hin.
  - split; [now apply add_station_inv|].
    unfold add_station. cbv zeta. cbn [stations station_counter].
    destruct (stations_get port (stations (chan w))) as [set|] eqn:Hget.
    + cbn. rewrite stations_set_keys. split; [exact Hkeys|].
      destruct (stations_split _ _ _ Hget) as (d1 & d2 & Hd & Hset).
      intros port' set' r Hin Hr. cbn in Hin. rewrite Hset in Hin.
      assert (Hold : In (port', set') (stations (chan w))
                     \/ (port' = port
                         /\ set' = set_add (station_counter (chan w) + 1)
                                     set)).
      { rewrite Hd. rewrite !in_app_iff in *. cbn in *.
        destruct Hin as [?|[[= <- <-]|?]]; auto. }
      cbn. destruct (Z.eq_dec (station_counter (chan w) + 1) r) as [<-|Hne].
      * rewrite lookup_insert_eq. eexists. split; [reflexivity|]. cbn.
        destruct Hold as [Hold|[-> _]]; [|reflexivity]. exfalso.
        destruct Hinv as [_ Hbound].
        assert (station_counter (chan w) + 1 <= station_counter (chan w));
          [|lia].
        apply Hbound. exists port', set'. auto.
      * rewrite lookup_insert_ne by exact Hne.
        destruct Hold as [Hold|[-> ->]]; [now apply (Hback port' set')|].
        apply (Hback port set); [rewrite Hd, in_app_iff; cbn; auto|].
        unfold set_add in Hr. destruct (existsb _ set); [exact Hr|].
        apply in_app_or in Hr as [Hr|[Hr|[]]]; [exact Hr|congruence].
    + cbn. split; [exact Hkeys|exact Hback].
  - split; [now apply (remove_station_inv md5_hexdigest_12 station w w')|].
    unfold remove_station in Hrem. cbv zeta in Hrem.
    destruct (stations_get _ (stations (chan w))) as [set|] eqn:Hget;
      [|discriminate].
    injection Hrem as <-. cbn. rewrite stations_set_keys.
    split; [exact Hkeys|].
    destruct (stations_split _ _ _ Hget) as (d1 & d2 & Hd & Hset).
    intros port' set' r Hin Hr. cbn in Hin. rewrite Hset in Hin. cbn.
    rewrite in_app_iff in Hin. cbn in Hin.
    destruct Hin as [Hin|[[= <- <-]|Hin]].
    + apply (Hback port' set'); [rewrite Hd, in_app_iff; auto|exact Hr].
    + apply (Hback (port (objects w !!! station)) set);
        [rewrite Hd, in_app_iff; cbn; auto|].
      unfold set_discard in Hr. now apply filter_In in Hr.
    + apply (Hback port' set'); [rewrite Hd, in_app_iff; cbn; auto|exact Hr].
  - destruct (until_sleep_frame f from now w) as (Hst & Hctr & Hobj).
    split; [|split].
    + unfold registry_inv, registry_ok, registered. rewrite Hst, Hctr.
      exact Hinv.
    + now rewrite Hst.
    + intros port set r Hin Hr. rewrite Hst in Hin.
      destruct (Hback port set r Hin Hr) as (s & Hs & Hp).
      destruct (Hobj r s Hs) as (s' & Hs' & Hp'). exists s'.
      split; [exact Hs'|congruence].
  - destruct (after_sleep_frame p w) as (Hchan & Hobj).
    split; [|split].
    + unfold registry_inv, registry_ok, registered. rewrite Hchan.
      exact Hinv.
    + now rewrite Hchan.
    + intros port set r Hin Hr. rewrite Hchan in Hin.
      destruct (Hback port set r Hin Hr) as (s & Hs & Hp).
      destruct (Hobj r s Hs) as (s' & Hs' & Hp'). exists s'.
      split; [exact Hs'|congruence].
  - unfold lose_connection.
    destruct (objects w !! station) as [s0|] eqn:E; [|auto].
    split; [exact Hinv|]. split; [exact Hkeys|].
    intros port set r Hin Hr. cbn in Hin.
    destruct (Hback port set r Hin Hr) as (s & Hs & Hp). cbn.
    destruct (Z.eq_dec station r) as [->|Hne].
    + rewrite lookup_insert_eq. eexists. split; [reflexivity|]. cbn.
      congruence.
    + rewrite lookup_insert_ne by exact Hne. eauto.
Qed.

Lemma reachable_ids (ber : Q) (w : World) :
  Reachable ber w ->
  0 <= station_counter (chan w) /\ forall r, registered r w -> 1 <= r.
Proof.
  induction 1 as [|wr port addr w _ (Hctr & Hpos)
                  |station w w' _ (Hctr & Hpos) Hrem
                  |f from now w _ (Hctr & Hpos)
                  |p w _ (Hctr & Hpos)
                  |station w _ (Hctr & Hpos)].
  - split; [cbn; lia|]. intros r Hr. apply registered_flat in Hr.
    destruct Hr.
  - unfold add_station. cbv zeta. cbn [stations station_counter].
    destruct (stations_get port (stations (chan w))) as [set|] eqn:Hget.
    + cbn. split; [lia|]. intros r (port' & set' & Hin & Hr).
      destruct (stations_split _ _ _ Hget) as (d1 & d2 & Hd & Hset).
      cbn in Hin. rewrite Hset in Hin.
      assert (Hcase : (exists set0, In (port', set0) (stations (chan w))
                                    /\ In r set0)
                      \/ r = station_counter (chan w) + 1); [|
        destruct Hcase as [(set0 & H0 & Hr0)| ->];
          [apply Hpos; exists port', set0; auto|lia]].
      rewrite Hd. rewrite in_app_iff in Hin. cbn in Hin.
      destruct Hin as [Hin|[[= <- <-]|Hin]].
      * left. exists set'. rewrite in_app_iff. auto.
      * unfold set_add in Hr. destruct (existsb _ set).
        -- left. exists set. rewrite in_app_iff. cbn. auto.
        -- apply in_app_or in Hr as [Hr|[Hr|[]]]; [|auto].
           left. exists set. rewrite in_app_iff. cbn. auto.
      * left. exists set'. rewrite in_app_iff. cbn. auto.
    + cbn. split; [lia|exact Hpos].
  - unfold remove_station in Hrem. cbv zeta in Hrem.
    destruct (stations_get _ (stations (chan w))) as [set|] eqn:Hget;
      [|discriminate].
    injection Hrem as <-. cbn. split; [exact Hctr|].
    destruct (stations_split _ _ _ Hget) as (d1 & d2 & Hd & Hset).
    intros r (port' & set' & Hin & Hr). cbn in Hin. rewrite Hset in Hin.
    apply Hpos. rewrite in_app_iff in Hin. cbn in Hin.
    destruct Hin as [Hin|[[= <- <-]|Hin]].
    + exists port', set'. rewrite Hd, in_app_iff. auto.
    + exists (port (objects w !!! station)), set.
      rewrite Hd, in_app_iff. cbn. split; [auto|].
      unfold set_discard in Hr. now apply filter_In in Hr.
    + exists port', set'. rewrite Hd, in_app_iff. cbn. auto.
  - destruct (until_sleep_frame f from now w) as (Hst & Hc & _).
    unfold registered. rewrite Hst, Hc. auto.
  - destruct (after_sleep_frame p w) as (Hchan & _).
    unfold registered. rewrite Hchan. auto.
  - unfold lose_connection. destruct (objects w !! station); auto.
Qed.

Lemma keys_functional (d : list (Z * list Z)) (k : Z) (a b : list Z) :
  List.NoDup (map fst d) -> In (k, a) d -> In (k, b) d -> a = b.
Proof.
  induction d as [|[k' c] d IH]; cbn; [tauto|].
  intros Hnd Ha Hb. apply List.NoDup_cons_iff in Hnd as [Hnot Hnd].
  destruct Ha as [Ea|Ha], Hb as [Eb|Hb].
  - congruence.
  - injection Ea as -> _. exfalso. apply Hnot.
    exact (in_map fst _ _ Hb).
  - injection Eb as -> _. exfalso. apply Hnot.
    exact (in_map fst _ _ Ha).
  - auto.
Qed.

Lemma STATION_PORTS_NoDup : List.NoDup STATION_PORTS.
Proof.
  unfold STATION_PORTS.
  repeat (apply List.NoDup_cons; [cbn; intuition discriminate|]).
  apply List.NoDup_nil.
Qed.

(** (X6) A station that is registered, in any world the simulator can reach,
    has an id between 1 and the counter, and its object is in the store;
    the object's port is one of [STATION_PORTS], and the station is in the
    set of that port and of no other. *)
Theorem registered_station_wellformed (ber : Q) (r : Z) (w : World) :
  Reachable ber w -> registered r w ->
  1 <= r <= station_counter (chan w)
  /\ exists s, objects w !! r = Some s
       /\ In (port s) STATION_PORTS
       /\ forall port set, In (port, set) (stations (chan w)) ->
            (In r set <-> port = RfSimulator.port s).
Proof.
  intros Hreach Hreg.
  destruct (reachable_inv ber w Hreach) as ([_ Hbound] & Hkeys & Hback).
  destruct (reachable_ids ber w Hreach) as [_ Hpos].
  split; [split; auto|].
  destruct Hreg as (port0 & set0 & Hin0 & Hr0).
  destruct (Hback port0 set0 r Hin0 Hr0) as (s & Hs & Hp).
  exists s. split; [exact Hs|]. split.
  - rewrite Hp, <- Hkeys. now apply (in_map fst _ (port0, set0)).
  - intros port set Hin. split.
    + intros Hr. destruct (Hback port set r Hin Hr) as (s' & Hs' & Hp').
      congruence.
    + intros ->. rewrite Hp in Hin.
      rewrite (keys_functional (stations (chan w)) port0 set set0); auto.
      rewrite Hkeys. apply STATION_PORTS_NoDup.
Qed.

Lemma set_add_In (n r : Z) (set : list Z) :
  In r (set_add n set) <-> In r set \/ r = n.
Proof.
  unfold set_add. destruct (existsb _ set) eqn:E.
  - apply existsb_exists in E as (x & Hx & Heq). apply Z.eqb_eq in Heq.
    subst x. split; [auto|intros [?| ->]; auto].
  - rewrite in_app_iff. cbn. intuition congruence.
Qed.

Lemma set_discard_In (n r : Z) (set : list Z) :
  In r (set_discard n set) <-> In r set /\ r <> n.
Proof.
  unfold set_discard. rewrite filter_In.
  destruct (Z.eqb_spec r n); cbn; intuition congruence.
Qed.

(** (X7) [add_station] on a port that is served registers the new station
    under
    the next id, one that no station has had, with a new object whose
    counters are 0, and leaves the other stations as they are; on a port
    that is not in [STATION_PORTS] it raises [KeyError] after the counter
    has been incremented, and nothing else has changed. *)
Theorem add_station_outcome (ber : Q) (wr : StreamWriter) (port : Z)
    (addr : string) (w : World) :
  Reachable ber w ->
  let n := station_counter (chan w) + 1 in
  let w1 := (add_station wr port addr w).1 in
  station_counter (chan w1) = n
  /\ (In port STATION_PORTS ->
      (add_station wr port addr w).2 = Some n
      /\ ~ registered n w
      /\ (forall r, registered r w1 <-> registered r w \/ r = n)
      /\ (exists set, In (port, set) (stations (chan w1)) /\ In n set)
      /\ objects w1 !! n
         = Some {| writer := wr; port := port; addr := addr;
                   tx_count := 0; rx_count := 0; last_tx := 0%Q |}
      /\ forall r, r <> n -> objects w1 !! r = objects w !! r)
  /\ (~ In port STATION_PORTS ->
      (add_station wr port addr w).2 = None
      /\ stations (chan w1) = stations (chan w)
      /\ objects w1 = objects w
      /\ log w1 = log w).
Proof.
  intros Hreach.
  destruct (reachable_inv ber w Hreach) as ([_ Hbound] & Hkeys & _).
  assert (Hfresh : ~ registered (station_counter (chan w) + 1) w).
  { intros Hr. apply Hbound in Hr. lia. }
  pose proof (stations_get_keys port (stations (chan w))) as Hport.
  rewrite Hkeys in Hport.
  cbv zeta. unfold add_station. cbv zeta. cbn [stations station_counter].
  destruct (stations_get port (stations (chan w))) as [set|] eqn:Hget.
  - cbn. split; [reflexivity|]. split.
    + intros _. split; [reflexivity|]. split; [exact Hfresh|].
      destruct (stations_split _ _ _ Hget) as (d1 & d2 & Hd & Hset).
      split; [|split; [|split]].
      * intros r.
        rewrite !registered_flat. cbn. rewrite Hset, Hd, !flat_snd_middle.
        rewrite !in_app_iff, set_add_In. tauto.
      * exists (set_add (station_counter (chan w) + 1) set).
        rewrite Hset, in_app_iff, set_add_In. cbn. auto.
      * apply lookup_insert_eq.
      * intros r Hne. apply lookup_insert_ne. congruence.
    + intros Hnot. exfalso. apply Hnot, Hport. eauto.
  - cbn. split; [reflexivity|]. split.
    + intros Hin. apply Hport in Hin as [x [=]].
    + auto.
Qed.

(** (X8) [remove_station] of a registered station does not raise: the station
    leaves the registry, the other stations stay registered, and the
    objects (the object of the removed station among them), the counters
    and the busy window are as before. *)
Theorem remove_station_outcome (ber : Q) (r : Z) (w : World) :
  Reachable ber w -> registered r w ->
  exists w', remove_station r w = Some w'
    /\ (forall r', registered r' w' <-> registered r' w /\ r' <> r)
    /\ objects w' = objects w
    /\ station_counter (chan w') = station_counter (chan w)
    /\ frame_counter (chan w') = frame_counter (chan w)
    /\ channel_busy_until (chan w') = channel_busy_until (chan w).
Proof.
  intros Hreach Hreg.
  destruct (reachable_inv ber w Hreach) as ([Hok _] & Hkeys & Hback).
  destruct Hreg as (port0 & set0 & Hin0 & Hr0).
  destruct (Hback port0 set0 r Hin0 Hr0) as (s & Hs & Hp).
  unfold remove_station. cbv zeta.
  rewrite (lookup_total_correct _ _ _ Hs), Hp.
  destruct (stations_get port0 (stations (chan w))) as [set|] eqn:Hget.
  - eexists. split; [reflexivity|]. cbn.
    split; [|auto].
    destruct (stations_split _ _ _ Hget) as (d1 & d2 & Hd & Hset).
    assert (set = set0) as ->.
    { apply (keys_functional (stations (chan w)) port0);
        [rewrite Hkeys; apply STATION_PORTS_NoDup| |exact Hin0].
      rewrite Hd, in_app_iff. cbn. auto. }
    unfold registry_ok in Hok. rewrite Hd, flat_snd_middle in Hok.
    apply NoDup_app in Hok as (_ & Hdisj & H2).
    apply NoDup_app in H2 as (_ & Hdisj2 & _).
    assert (H1 : ~ In r (flat_map snd d1)).
    { intros H. apply list_elem_of_In in H. apply (Hdisj r H).
      apply list_elem_of_In. rewrite in_app_iff. auto. }
    assert (H3 : ~ In r (flat_map snd d2)).
    { intros H. apply list_elem_of_In in Hr0. apply (Hdisj2 r Hr0).
      now apply list_elem_of_In. }
    intros r'. rewrite !registered_flat. cbn.
    rewrite Hset, Hd, !flat_snd_middle, !in_app_iff, set_discard_In.
    destruct (Z.eq_dec r' r) as [->|Hne]; tauto.
  - exfalso.
    assert (Hnone : ~ is_Some (stations_get port0 (stations (chan w))))
      by (rewrite Hget; intros [? [=]]).
    apply Hnone, stations_get_keys. exact (in_map fst _ _ Hin0).
Qed.

(** (X9) A station that connects and disconnects right away leaves the
    registry
    as it found it: [remove_station] undoes [add_station], the id apart,
    which is not handed out again. *)
Theorem add_then_remove_station (ber : Q) (wr : StreamWriter) (port : Z)
    (addr : string) (w : World) :
  Reachable ber w -> In port STATION_PORTS ->
  let n := station_counter (chan w) + 1 in
  exists w2,
    remove_station n (add_station wr port addr w).1 = Some w2
    /\ stations (chan w2) = stations (chan w)
    /\ station_counter (chan w2) = n
    /\ log w2
       = log (add_station wr port addr w).1
         ++ [LogDisconnected n 0 0;
             LogActiveStations
               (flat_map
                  (fun p =>
                     match stations_get p (stations (chan w)) with
                     | Some (r :: set) => [(p, length (r :: set))]
                     | _ => []
                     end) ACTIVE_PORTS)].
Proof.
  intros Hreach Hport.
  destruct (reachable_inv ber w Hreach) as ([_ Hbound] & Hkeys & _).
  assert (Hget : is_Some (stations_get port (stations (chan w)))).
  { apply stations_get_keys. now rewrite Hkeys. }
  destruct Hget as [set Hget].
  destruct (stations_split _ _ _ Hget) as (d1 & d2 & Hd & Hset).
  assert (Hfresh : ~ In (station_counter (chan w) + 1) set).
  { intros Hin.
    assert (station_counter (chan w) + 1 <= station_counter (chan w));
      [|lia].
    apply Hbound. exists port, set. split; [|exact Hin].
    rewrite Hd, in_app_iff. cbn. auto. }
  assert (Hback : set_discard (station_counter (chan w) + 1)
                    (set_add (station_counter (chan w) + 1) set) = set).
  { unfold set_add. destruct (existsb _ set) eqn:E.
    - apply existsb_exists in E as (x & Hx & Heq). apply Z.eqb_eq in Heq.
      subst x. contradiction.
    - unfold set_discard. rewrite List.filter_app. cbn.
      rewrite Z.eqb_refl. cbn. rewrite app_nil_r.
      apply forallb_filter_id, forallb_forall. intros x Hx.
      destruct (Z.eqb_spec x (station_counter (chan w) + 1));
        [subst; contradiction|reflexivity]. }
  assert (Hget1 : forall set', stations_get port
                     (stations_set port set' (stations (chan w)))
                   = Some set').
  { intros set'. clear -Hget. revert Hget.
    induction (stations (chan w)) as [|[p old] d IH]; cbn; [discriminate|].
    destruct (Z.eqb_spec p port) as [->|Hne]; cbn.
    - now rewrite Z.eqb_refl.
    - intros H. apply Z.eqb_neq in Hne. rewrite Hne. auto. }
  assert (Hset1 : forall set' set'', stations_set port set''
                     (stations_set port set' (stations (chan w)))
                   = stations_set port set'' (stations (chan w))).
  { intros set' set''. clear -Hget. revert Hget.
    induction (stations (chan w)) as [|[p old] d IH]; cbn; [discriminate|].
    destruct (Z.eqb_spec p port) as [->|Hne]; cbn.
    - now rewrite Z.eqb_refl.
    - intros H. apply Z.eqb_neq in Hne. rewrite Hne. now rewrite IH. }
  assert (Hobj : objects (add_station wr port addr w).1
                  !!! (station_counter (chan w) + 1)
                 = {| writer := wr; port := port; addr := addr;
                      tx_count := 0; rx_count := 0; last_tx := 0%Q |}).
  { unfold add_station. cbv zeta. cbn [stations station_counter].
    rewrite Hget. cbn. apply lookup_total_insert_eq. }
  assert (Hst : stations (chan (add_station wr port addr w).1)
                = stations_set port
                    (set_add (station_counter (chan w) + 1) set)
                    (stations (chan w))).
  { unfold add_station. cbv zeta. cbn [stations station_counter].
    rewrite Hget. reflexivity. }
  assert (Hctr : station_counter (chan (add_station wr port addr w).1)
                 = station_counter (chan w) + 1).
  { unfold add_station. cbv zeta. cbn [stations station_counter].
    rewrite Hget. reflexivity. }
  cbv zeta. remember (add_station wr port addr w).1 as w1 eqn:Hw1.
  clear Hw1. unfold remove_station. cbv zeta. rewrite Hobj.
  cbn [RfSimulator.port tx_count rx_count]. rewrite Hst, Hget1.
  eexists. split; [reflexivity|]. cbn. rewrite Hset1, Hback.
  assert (Hsame : stations_set port set (stations (chan w))
                  = stations (chan w)) by (rewrite Hset; auto).
  rewrite Hsame. split; [reflexivity|]. split; [exact Hctr|].
  rewrite <- app_assoc. reflexivity.
Qed.

Lemma tx_ids_app (l1 l2 : list LogRecord) :
  tx_ids (l1 ++ l2) = tx_ids l1 ++ tx_ids l2.
Proof.
  induction l1 as [|[] l1 IH]; cbn; rewrite ?IH; reflexivity.
Qed.

Lemma collisions_app (l1 l2 : list LogRecord) :
  collisions (l1 ++ l2) = collisions l1 ++ collisions l2.
Proof.
  induction l1 as [|[] l1 IH]; cbn; rewrite ?IH; reflexivity.
Qed.

Lemma tx_ids_failures (rs : list Z) : tx_ids (map LogDeliveryFailed rs) = [].
Proof. induction rs; cbn; auto. Qed.

Lemma collisions_failures (rs : list Z) :
  collisions (map LogDeliveryFailed rs) = [].
Proof. induction rs; cbn; auto. Qed.

(** What a call of [transmit] has done to the counters and to the log by
    the time it sleeps: [acc] tells whether the frame passed the length
    guards, [coll] whether the collision branch was taken. *)
Lemma until_sleep_counters (f : bytes) (from : Z) (now : Q) (w : World) :
  let w1 := (transmit_until_sleep md5_hexdigest_12 f from now w).1 in
  exists acc coll : bool,
    (coll = true -> acc = true /\ channel_busy (chan w) = true)
    /\ frame_counter (chan w1)
       = frame_counter (chan w) + (if acc then 1 else 0)
    /\ tx_ids (log w1)
       = tx_ids (log w) ++ (if acc then [frame_counter (chan w) + 1] else [])
    /\ collision_count (chan w1)
       = collision_count (chan w) + (if coll then 1 else 0)
    /\ collisions (log w1)
       = collisions (log w) ++ (if coll then [from] else [])
    /\ channel_busy (chan w1) = acc || channel_busy (chan w)
    /\ RfSimulator.ber (chan w1) = RfSimulator.ber (chan w).
Proof.
  cbv zeta. unfold transmit_until_sleep.
  destruct (length f <? 3)%nat.
  { exists false, false. cbn. rewrite !app_nil_r, !Z.add_0_r.
    repeat split; auto; discriminate. }
  destruct (length (kiss_unescape (drop 1 f)) <? 14)%nat.
  { exists false, false. cbn. rewrite tx_ids_app, collisions_app. cbn.
    rewrite !app_nil_r, !Z.add_0_r. repeat split; auto; discriminate. }
  unfold mark_busy, check_duplicate. cbv zeta.
  destruct (channel_busy (chan w)) eqn:Hbusy; cbn [andb].
  - destruct (Qltb now (channel_busy_until (chan w))).
    + exists true, true. cbn. rewrite !tx_ids_app, !collisions_app. cbn.
      rewrite !app_nil_r. repeat split; auto.
    + exists true, false. cbn. rewrite !tx_ids_app, !collisions_app. cbn.
      rewrite !app_nil_r, !Z.add_0_r. repeat split; auto; discriminate.
  - exists true, false. cbn. rewrite !tx_ids_app, !collisions_app. cbn.
    rewrite !app_nil_r, !Z.add_0_r. repeat split; auto; discriminate.
Qed.

(** (X10) In every world the simulator can reach, the frame ids logged by
    [transmit] are 1, 2, ... up to [frame_counter], in this order; the
    collisions logged are as many as [collision_count]; [channel_busy] is
    set from the first accepted transmission on and is never cleared; the
    first accepted transmission is never a collision; and the bit error
    rate is the one the channel was created with. *)
Theorem reachable_counters (ber : Q) (w : World) :
  Reachable ber w ->
  tx_ids (log w) = seqZ 1 (frame_counter (chan w))
  /\ Z.of_nat (length (collisions (log w))) = collision_count (chan w)
  /\ 0 <= frame_counter (chan w)
  /\ (channel_busy (chan w) = true <-> 0 < frame_counter (chan w))
  /\ 0 <= collision_count (chan w)
     <= Z.max 0 (frame_counter (chan w) - 1)
  /\ RfSimulator.ber (chan w) = ber.
Proof.
  induction 1 as [|wr port addr w _ IH
                  |station w w' _ IH Hrem
                  |f from now w _ (Hids & Hcoll & H0 & Hbusy & Hcc & Hber)
                  |p w _ IH
                  |station w _ IH].
  - cbn. repeat split; try lia; discriminate.
  - unfold add_station. cbv zeta. cbn [stations station_counter].
    destruct (stations_get port (stations (chan w))); cbn;
      rewrite ?tx_ids_app, ?collisions_app; cbn;
      rewrite ?app_nil_r; exact IH.
  - unfold remove_station in Hrem. cbv zeta in Hrem.
    destruct (stations_get _ (stations (chan w))); [|discriminate].
    injection Hrem as <-. cbn.
    rewrite ?tx_ids_app, ?collisions_app; cbn. rewrite ?app_nil_r.
    exact IH.
  - destruct (until_sleep_counters f from now w)
      as (acc & coll & Himp & Hfc & Hlog & Hc & Hclog & Hb & Hber').
    rewrite Hfc, Hlog, Hc, Hclog, Hb, Hber'.
    rewrite length_app, Nat2Z.inj_add, Hcoll, Hids.
    split; [|split; [|split; [|split; [|split; [|exact Hber]]]]].
    + destruct acc; [|now rewrite Z.add_0_r, app_nil_r].
      rewrite seqZ_app by lia. now rewrite (Z.add_comm 1).
    + destruct coll; cbn; lia.
    + destruct acc; lia.
    + destruct acc; cbn; [split; [lia|reflexivity]|].
      now rewrite Z.add_0_r.
    + destruct coll.
      * destruct (Himp eq_refl) as [-> Hb']. apply Hbusy in Hb'. lia.
      * destruct acc; lia.
  - destruct (after_sleep_frame p w) as (Hchan & _). rewrite Hchan.
    unfold transmit_after_sleep.
    destruct (on_air random (flight_data p) w) as [out k].
    rewrite deliver_log. cbn [log with_draws].
    rewrite tx_ids_app, collisions_app, tx_ids_failures,
      collisions_failures, !app_nil_r. exact IH.
  - unfold lose_connection. destruct (objects w !! station); exact IH.
Qed.

(** A whole call of [transmit] leads from a reachable world to a reachable
    world. *)
Lemma transmit_reachable (ber : Q) (f : bytes) (from : Z) (now : Q)
    (w : World) :
  Reachable ber w ->
  Reachable ber (RfSimulator.transmit md5_hexdigest_12 random f from now w).
Proof.
  intros Hreach. unfold RfSimulator.transmit.
  pose proof (Reach_transmit md5_hexdigest_12 random ber f from now w Hreach)
    as H1.
  destruct (transmit_until_sleep md5_hexdigest_12 f from now w) as [w1 [p|]];
    [apply Reach_broadcast|]; exact H1.
Qed.

End Reachability.

Lemma three_stations_reachable :
  Further.Reachable Sample.digest_of Sample.coin 0 Sample.three_stations.
Proof.
  unfold Sample.three_stations. cbv zeta.
  repeat apply Further.Reach_add. apply Further.Reach_init.
Qed.

Lemma after_two_calls_reachable :
  Further.Reachable Sample.digest_of Sample.coin 0 Further.after_two_calls.
Proof.
  unfold Further.after_two_calls.
  repeat apply transmit_reachable. exact three_stations_reachable.
Qed.

Lemma station_2_registered :
  Channel.registered 2 Sample.three_stations.
Proof. exists 8002, [2]. vm_compute. auto. Qed.

Lemma registered_station_wellformed_witness :
  Further.Reachable Sample.digest_of Sample.coin 0 Sample.three_stations
  /\ Channel.registered 2 Sample.three_stations
  /\ 1 <= 2
     <= RfSimulator.station_counter (RfSimulator.chan Sample.three_stations).
Proof.
  split; [exact three_stations_reachable|].
  split; [exact station_2_registered|].
  exact (proj1 (registered_station_wellformed Sample.digest_of Sample.coin
                  0 2 Sample.three_stations three_stations_reachable
                  station_2_registered)).
Defined.

Lemma add_station_outcome_witness :
  Further.Reachable Sample.digest_of Sample.coin 0 Sample.three_stations
  /\ In 8003 RfSimulator.STATION_PORTS
  /\ (RfSimulator.add_station Sample.connected 8003 "10.0.0.4:5004"
        Sample.three_stations).2
     = Some (RfSimulator.station_counter
               (RfSimulator.chan Sample.three_stations) + 1).
Proof.
  assert (Hin : In 8003 RfSimulator.STATION_PORTS) by (cbn; auto).
  split; [exact three_stations_reachable|]. split; [exact Hin|].
  exact (proj1 (proj1 (proj2 (add_station_outcome Sample.digest_of
                                Sample.coin 0 Sample.connected 8003
                                "10.0.0.4:5004" Sample.three_stations
                                three_stations_reachable)) Hin)).
Defined.

Lemma remove_station_outcome_witness :
  Further.Reachable Sample.digest_of Sample.coin 0 Sample.three_stations
  /\ Channel.registered 2 Sample.three_stations
  /\ exists w',
       RfSimulator.remove_station 2 Sample.three_stations = Some w'
       /\ ~ Channel.registered 2 w' /\ Channel.registered 1 w'.
Proof.
  split; [exact three_stations_reachable|].
  split; [exact station_2_registered|].
  destruct (remove_station_outcome Sample.digest_of Sample.coin 0 2
              Sample.three_stations three_stations_reachable
              station_2_registered) as (w' & Hrem & Hreg & _).
  exists w'. split; [exact Hrem|]. split.
  - intros H. apply Hreg in H. destruct H as [_ H]. now apply H.
  - apply Hreg. split; [|discriminate].
    exists 8001, [1; 3]. vm_compute. auto.
Defined.

Lemma add_then_remove_station_witness :
  Further.Reachable Sample.digest_of Sample.coin 0 Sample.three_stations
  /\ In 8004 RfSimulator.STATION_PORTS
  /\ exists w2,
       RfSimulator.remove_station
         (RfSimulator.station_counter
            (RfSimulator.chan Sample.three_stations) + 1)
         (RfSimulator.add_station Sample.connected 8004 "10.0.0.4:5004"
            Sample.three_stations).1 = Some w2
       /\ RfSimulator.stations (RfSimulator.chan w2)
          = RfSimulator.stations (RfSimulator.chan Sample.three_stations).
Proof.
  assert (Hin : In 8004 RfSimulator.STATION_PORTS) by (cbn; auto).
  split; [exact three_stations_reachable|]. split; [exact Hin|].
  destruct (add_then_remove_station Sample.digest_of Sample.coin 0
              Sample.connected 8004 "10.0.0.4:5004" Sample.three_stations
              three_stations_reachable Hin) as (w2 & Hrem & Hst & _).
  exists w2. split; [exact Hrem|exact Hst].
Defined.

Lemma reachable_counters_witness :
  Further.Reachable Sample.digest_of Sample.coin 0 Further.after_two_calls
  /\ Further.tx_ids (RfSimulator.log Further.after_two_calls)
     = seqZ 1 (RfSimulator.frame_counter
                 (RfSimulator.chan Further.after_two_calls)).
Proof.
  split; [exact after_two_calls_reachable|].
  exact (proj1 (reachable_counters Sample.digest_of Sample.coin 0
                  Further.after_two_calls after_two_calls_reachable)).
Defined.

(** ** Frames read back from a byte stream *)

Lemma skip_fends_head (t : Z) (rest : bytes) :
  t <> FEND -> Tnc4Frames.skip_fends (t :: rest) = t :: rest.
Proof.
  intros Ht. cbn. destruct (Z.eqb_spec t FEND); [contradiction|reflexivity].
Qed.

Lemma collect_until_fend (l rest : bytes) :
  ~ In FEND l ->
  Tnc4Frames.collect (l ++ FEND :: rest) = (l, FEND :: rest).
Proof.
  induction l as [|b l IH]; intros Hno.
  - reflexivity.
  - cbn in *. destruct (Z.eqb_spec b FEND) as [->|_]; [tauto|].
    rewrite IH by tauto. reflexivity.
Qed.

Lemma collect_to_the_end (l : bytes) :
  ~ In FEND l -> Tnc4Frames.collect l = (l, []).
Proof.
  induction l as [|b l IH]; intros Hno.
  - reflexivity.
  - cbn in *. destruct (Z.eqb_spec b FEND) as [->|_]; [tauto|].
    rewrite IH by tauto. reflexivity.
Qed.

Lemma tnc4_unescape_typed (t : Z) (p : bytes) :
  t <> FESC -> Tnc4Config.kiss_unescape (t :: kiss_escape p) = t :: p.
Proof.
  intros Ht. unfold Tnc4Config.kiss_unescape. cbn.
  destruct (Z.eqb_spec t FESC); [contradiction|].
  change (Tnc4Config.kiss_unescape_from false (kiss_escape p))
    with (Tnc4Config.kiss_unescape (kiss_escape p)).
  now rewrite tnc4_unescape_is_rf, rf_unescape_escape.
Qed.

(** The loop skips what comes before the first FEND. *)
Lemma extract_loop_junk (junk raw : bytes) (fuel : nat) :
  ~ In FEND junk ->
  Tnc4Frames.extract_loop (length junk + fuel) (junk ++ raw)
  = Tnc4Frames.extract_loop fuel raw.
Proof.
  induction junk as [|b junk IH]; intros Hno; [reflexivity|].
  cbn in *. destruct (Z.eqb_spec b FEND) as [->|_]; [tauto|].
  apply IH. tauto.
Qed.

(** One iteration on a frame that is closed by a FEND: the closing FEND
    is left for the next iteration. *)
Lemma extract_loop_frame (fuel : nat) (fends : bytes) (t : Z)
    (p rest : bytes) :
  Forall (fun b => b = FEND) fends -> t <> FEND -> t <> FESC ->
  Tnc4Frames.extract_loop (S fuel)
    (FEND :: fends ++ t :: kiss_escape p ++ FEND :: rest)
  = (t, p) :: Tnc4Frames.extract_loop fuel (FEND :: rest).
Proof.
  intros Hf Ht Hesc. cbn [Tnc4Frames.extract_loop]. rewrite Z.eqb_refl.
  cbv zeta.
  assert (Hskip : Tnc4Frames.skip_fends
                    (fends ++ t :: kiss_escape p ++ FEND :: rest)
                  = t :: kiss_escape p ++ FEND :: rest).
  { induction Hf as [|b fends -> _ IH]; [now apply skip_fends_head|].
    cbn. exact IH. }
  rewrite Hskip.
  change (t :: kiss_escape p ++ FEND :: rest)
    with ((t :: kiss_escape p) ++ FEND :: rest).
  rewrite collect_until_fend.
  - cbv beta iota zeta. rewrite tnc4_unescape_typed by exact Hesc.
    reflexivity.
  - cbn. intros [H|H]; [congruence|]. now apply kiss_escape_no_FEND in H.
Qed.

Lemma skip_fends_length (raw : bytes) :
  (length (Tnc4Frames.skip_fends raw) <= length raw)%nat.
Proof.
  induction raw as [|b raw IH]; [reflexivity|].
  cbn [Tnc4Frames.skip_fends]. destruct (b =? FEND); cbn [length]; lia.
Qed.

Lemma collect_length (raw : bytes) :
  (length (Tnc4Frames.collect raw).2 <= length raw)%nat.
Proof.
  induction raw as [|b raw IH]; [reflexivity|].
  cbn [Tnc4Frames.collect]. destruct (b =? FEND); [reflexivity|].
  destruct (Tnc4Frames.collect raw) as [frame_bytes rest].
  cbn [snd length] in *. lia.
Qed.

(** Every iteration of the outer loop moves forward in the data, so the
    length of the data is fuel enough: more fuel gives the same frames. *)
Lemma extract_loop_enough (raw : bytes) (fuel : nat) :
  (length raw <= fuel)%nat ->
  Tnc4Frames.extract_loop fuel raw = Tnc4Frames.extract_kiss_frames raw.
Proof.
  unfold Tnc4Frames.extract_kiss_frames.
  assert (Hgen : forall n raw fuel1 fuel2,
            (length raw <= n)%nat -> (length raw <= fuel1)%nat ->
            (length raw <= fuel2)%nat ->
            Tnc4Frames.extract_loop fuel1 raw
            = Tnc4Frames.extract_loop fuel2 raw).
  { clear. induction n as [|n IH]; intros raw fuel1 fuel2 Hn H1 H2.
    - destruct raw; [|cbn in Hn; lia]. now destruct fuel1, fuel2.
    - destruct raw as [|b rest]; [now destruct fuel1, fuel2|].
      cbn [length] in *.
      destruct fuel1 as [|fuel1]; [lia|]. destruct fuel2 as [|fuel2]; [lia|].
      cbn [Tnc4Frames.extract_loop]. destruct (b =? FEND).
      + cbv zeta. pose proof (skip_fends_length rest) as Hs.
        destruct (Tnc4Frames.skip_fends rest) as [|c rest1] eqn:E;
          [reflexivity|].
        pose proof (collect_length (c :: rest1)) as Hc.
        destruct (Tnc4Frames.collect (c :: rest1)) as [frame_bytes rest2].
        cbn [snd] in Hc. f_equal. apply IH; lia.
      + apply IH; lia. }
  intros Hfuel. apply (Hgen (length raw)); lia.
Qed.

(** The bytes of several frames written one after the other by
    [kiss_frame]. *)
Lemma framed_length (frames : list (Z * bytes)) :
  (length frames
   <= length (concat (map (fun f => Tnc4Config.kiss_frame f.1 f.2) frames)))%nat.
Proof.
  induction frames as [|[t p] frames IH]; [reflexivity|].
  cbn [map concat]. rewrite length_app. unfold Tnc4Config.kiss_frame at 1.
  cbn [app length fst snd]. lia.
Qed.

Lemma skip_fends_run (fends : bytes) (t : Z) (rest : bytes) :
  Forall (fun b => b = FEND) fends -> t <> FEND ->
  Tnc4Frames.skip_fends (fends ++ t :: rest) = t :: rest.
Proof.
  intros Hf Ht. induction Hf as [|b fends -> _ IH].
  - now apply skip_fends_head.
  - cbn [app Tnc4Frames.skip_fends]. now rewrite Z.eqb_refl.
Qed.

Lemma framed_cons (t : Z) (p : bytes) (frames : list (Z * bytes)) :
  concat (map (fun f => Tnc4Config.kiss_frame f.1 f.2) ((t, p) :: frames))
  = FEND :: t :: kiss_escape p
    ++ FEND :: concat (map (fun f => Tnc4Config.kiss_frame f.1 f.2) frames).
Proof.
  cbn [map concat fst snd]. unfold Tnc4Config.kiss_frame at 1.
  cbn [app]. now rewrite <- app_assoc.
Qed.

Lemma fends_swap (fends rest : bytes) :
  Forall (fun b => b = FEND) fends ->
  fends ++ FEND :: rest = FEND :: fends ++ rest.
Proof.
  induction 1 as [|b fends -> _ IH]; [reflexivity|].
  cbn. now rewrite IH.
Qed.

Lemma extract_loop_frames (frames : list (Z * bytes)) (fends : bytes)
    (fuel : nat) :
  Forall (fun f : Z * bytes => f.1 <> FEND /\ f.1 <> FESC) frames ->
  Forall (fun b => b = FEND) fends ->
  (length frames <= fuel)%nat ->
  Tnc4Frames.extract_loop fuel
    (fends ++ concat (map (fun f => Tnc4Config.kiss_frame f.1 f.2) frames))
  = frames.
Proof.
  revert fends fuel.
  induction frames as [|[t p] frames IH]; intros fends fuel Hok Hf Hfuel.
  - cbn [map concat]. rewrite app_nil_r. clear Hfuel.
    revert fends Hf. induction fuel as [|fuel IHf]; intros fends Hf;
      [reflexivity|].
    destruct Hf as [|b fends -> Hf]; [reflexivity|].
    cbn [Tnc4Frames.extract_loop]. rewrite Z.eqb_refl. cbv zeta.
    assert (Hskip : Tnc4Frames.skip_fends fends = []).
    { clear IHf. induction Hf as [|b fends -> _ IH']; [reflexivity|].
      cbn. exact IH'. }
    now rewrite Hskip.
  - apply Forall_cons in Hok as [[Ht Hesc] Hok]. cbn [fst] in Ht, Hesc.
    destruct fuel as [|fuel]; [cbn in Hfuel; lia|].
    rewrite framed_cons, fends_swap by exact Hf.
    rewrite extract_loop_frame by assumption. f_equal.
    apply (IH [FEND]); [exact Hok|repeat constructor|cbn in Hfuel; lia].
Qed.



(** ** From a test station through the simulator to a test station *)

Lemma script_unescape_escape (p : bytes) :
  InteractiveTest.kiss_unescape (kiss_escape p) = p.
Proof.
  rewrite script_unescape_is_rf, escape_open_escape, rf_unescape_escape.
  apply app_nil_r.
Qed.

(** The escape loop adds one byte for every FEND and every FESC. *)
Lemma kiss_escape_length (p : bytes) :
  length (kiss_escape p)
  = (length p
     + length (List.filter (fun b : Z => (b =? FEND)%Z || (b =? FESC)%Z) p))%nat.
Proof.
  induction p as [|b p IH]; [reflexivity|].
  cbn [kiss_escape List.filter length].
  destruct (Z.eqb_spec b FEND) as [->|?]; cbn [orb app length].
  - rewrite IH. lia.
  - destruct (Z.eqb_spec b FESC) as [->|?]; cbn [app length]; rewrite IH; lia.
Qed.

Lemma kiss_escape_nil (p : bytes) : kiss_escape p = [] -> p = [].
Proof.
  destruct p as [|b p]; [reflexivity|]. escape_cases b; discriminate.
Qed.

Lemma process_body (body acc : bytes) :
  ~ In FEND body ->
  TestStation.process_received body
    {| TestStation.parser_buffer := acc; TestStation.in_frame := true |}
  = ([], {| TestStation.parser_buffer := acc ++ body;
            TestStation.in_frame := true |}).
Proof.
  revert acc. induction body as [|b body IH]; intros acc Hno.
  - cbn. now rewrite app_nil_r.
  - cbn [TestStation.process_received TestStation.in_frame
         TestStation.parser_buffer].
    destruct (Z.eqb_spec b FEND) as [->|_]; [exfalso; apply Hno; now left|].
    rewrite IH by (intros H; apply Hno; now right).
    now rewrite <- app_assoc.
Qed.

Lemma process_app (a b : bytes) (self : TestStation.Parser) :
  TestStation.process_received (a ++ b) self
  = let '(frames_a, self_a) := TestStation.process_received a self in
    let '(frames_b, self_b) := TestStation.process_received b self_a in
    (frames_a ++ frames_b, self_b).
Proof.
  revert self. induction a as [|byte a IH]; intros self.
  - cbn. now destruct (TestStation.process_received b self).
  - cbn [app TestStation.process_received]. destruct (byte =? FEND).
    + rewrite IH.
      destruct (TestStation.process_received a _) as [fa sa].
      destruct (TestStation.process_received b sa) as [fb sb].
      now rewrite app_assoc.
    + destruct (TestStation.in_frame self); apply IH.
Qed.

(** One relayed frame, read by a parser whose buffer is empty. *)
Lemma process_kiss_out (cmd : Z) (a : bytes) (self : TestStation.Parser) :
  TestStation.parser_buffer self = [] -> cmd <> FEND -> a <> [] ->
  TestStation.process_received (RfSimulator.kiss_out_of cmd a) self
  = ([a], {| TestStation.parser_buffer := [];
             TestStation.in_frame := true |}).
Proof.
  intros Hbuf Hcmd Ha. unfold RfSimulator.kiss_out_of.
  cbn [app TestStation.process_received]. rewrite Z.eqb_refl, Hbuf.
  destruct (Z.eqb_spec cmd FEND); [contradiction|].
  cbn [TestStation.in_frame TestStation.parser_buffer app].
  rewrite process_app, process_body by apply kiss_escape_no_FEND.
  cbn [TestStation.process_received TestStation.in_frame
       TestStation.parser_buffer app].
  rewrite Z.eqb_refl.
  destruct (kiss_escape a) as [|e es] eqn:E;
    [apply kiss_escape_nil in E; contradiction|].
  cbn [length Nat.ltb Nat.leb andb]. cbn [drop].
  change (drop 1 (cmd :: e :: es)) with (e :: es).
  rewrite <- E, script_unescape_escape.
  destruct (TestStation.in_frame self); reflexivity.
Qed.

(** (X12) A test station that reads what the simulator has written to it,
    frame
    after frame in chunks of any size, hands to [_handle_frame] exactly the
    frames that were on the air, in order: the KISS framing of [transmit]
    and the parser of the station undo each other for every command byte
    but FEND and every frame that is not empty. *)
Theorem station_reads_relayed_frames (frames : list (Z * bytes)) :
  Forall (fun f : Z * bytes => f.1 <> FEND /\ f.2 <> []) frames ->
  (TestStation.process_received
     (concat (map (fun f => RfSimulator.kiss_out_of f.1 f.2) frames))
     TestStation.Parser_init).1
  = map snd frames.
Proof.
  intros Hok.
  assert (Hgen : forall self, TestStation.parser_buffer self = [] ->
            (TestStation.process_received
               (concat (map (fun f => RfSimulator.kiss_out_of f.1 f.2)
                          frames)) self).1
            = map snd frames); [|now apply Hgen].
  induction frames as [|[cmd a] frames IH]; intros self Hbuf; [reflexivity|].
  apply Forall_cons in Hok as [[Hcmd Ha] Hok]. cbn [fst snd] in Hcmd, Ha.
  cbn [map concat fst snd]. rewrite process_app.
  rewrite process_kiss_out by assumption.
  specialize (IH Hok {| TestStation.parser_buffer := [];
                        TestStation.in_frame := true |} eq_refl).
  destruct (TestStation.process_received _ _) as [fr s]. cbn in *.
  now rewrite IH.
Qed.

Lemma station_reads_relayed_frames_witness :
  Forall (fun f : Z * bytes => f.1 <> FEND /\ f.2 <> [])
    [(0x00, Sample.ui_hello); (0x10, [0xC0; 0xDB])]
  /\ (TestStation.process_received
        (concat (map (fun f => RfSimulator.kiss_out_of f.1 f.2)
                   [(0x00, Sample.ui_hello); (0x10, [0xC0; 0xDB])]))
        TestStation.Parser_init).1
     = map snd [(0x00, Sample.ui_hello); (0x10, [0xC0; 0xDB])].
Proof.
  assert (Hok : Forall (fun f : Z * bytes => f.1 <> FEND /\ f.2 <> [])
                  [(0x00, Sample.ui_hello); (0x10, [0xC0; 0xDB])])
    by (repeat constructor; discriminate).
  split; [exact Hok|].
  exact (station_reads_relayed_frames
           [(0x00, Sample.ui_hello); (0x10, [0xC0; 0xDB])] Hok).
Defined.

Section EndToEnd.
Variable random : nat -> Q.

Lemma on_air_length (data : bytes) (w : RfSimulator.World) :
  length (RfSimulator.on_air random data w).1 = length data.
Proof.
  unfold RfSimulator.on_air, RfSimulator.apply_bit_errors.
  destruct (RfSimulator.Qltb _ _); [|reflexivity].
  destruct (Qle_bool _ _); [reflexivity|]. apply flip_bytes_length.
Qed.


End EndToEnd.


(** ** The frame decoder of the monitor *)

Lemma last_in (l : bytes) (d : Z) : l <> [] -> In (List.last l d) l.
Proof.
  induction l as [|a l IH]; [congruence|]. intros _.
  destruct l as [|b l]; [now left|].
  right. apply IH. discriminate.
Qed.

(** The monitor sees an escaped payload with its FESC bytes taken out. *)
Lemma escape_without_FESC (p : bytes) :
  List.filter (fun b => negb (b =? FESC)) (kiss_escape p)
  = map (fun b => if b =? FEND then TFEND
                  else if b =? FESC then TFESC else b) p.
Proof.
  induction p as [|b p IH]; [reflexivity|].
  cbn [kiss_escape map].
  destruct (Z.eqb_spec b FEND) as [->|?].
  - cbn. now rewrite IH.
  - destruct (Z.eqb_spec b FESC) as [->|Hne].
    + cbn. now rewrite IH.
    + cbn [List.filter]. apply Z.eqb_neq in Hne. rewrite Hne. cbn [negb].
      now rewrite IH.
Qed.

Lemma map_fixes (g : Z -> Z) (p : bytes) :
  map g p = p <-> forall b, In b p -> g b = b.
Proof.
  induction p as [|a p IH]; cbn.
  - split; [intros _ b []|reflexivity].
  - split.
    + intros [= Ha Hp] b [<-|Hb]; [exact Ha|]. now apply IH.
    + intros H. rewrite H by now left. f_equal. apply IH.
      intros b Hb. apply H. now right.
Qed.



(** ** The layout of a frame as the simulator decodes it *)

Section Layout.
Import RfSimulator Further.

Lemma decode_address_at (pre field post : bytes) :
  length field = 7%nat ->
  decode_ax25_address (pre ++ field ++ post) (length pre)
  = (field_address field, field_is_last field).
Proof.
  intros Hlen. unfold field_address, field_is_last.
  rewrite !decode_ax25_address_fold
    by (rewrite ?length_app; lia).
  cbn [fst]. rewrite drop_app_length, drop_0.
  rewrite take_app_le by lia.
  assert (Hat : at_index (pre ++ field ++ post) (length pre + 6)
                = at_index field (0 + 6)).
  { unfold at_index. rewrite app_nth2 by lia.
    replace (length pre + 6 - length pre)%nat with 6%nat by lia.
    rewrite app_nth1 by lia. reflexivity. }
  rewrite Hat. reflexivity.
Qed.

Lemma at_index_drop (data : bytes) (n : nat) :
  at_index data n = hd 0 (drop n data).
Proof.
  unfold at_index. revert n.
  induction data as [|a data IH]; intros [|n]; cbn; auto.
Qed.

Lemma last_default (l : list bytes) (d d' : bytes) :
  l <> [] -> List.last l d = List.last l d'.
Proof.
  induction l as [|a l IH]; [congruence|]. intros _.
  destruct l as [|b l]; [reflexivity|].
  apply IH. discriminate.
Qed.

(** The loop over the via path reads every field of the chain. *)
Lemma via_loop_chain (vias : list bytes) (prev pre tail : bytes)
    (acc : list AX25Address) (fuel : nat) :
  Forall (fun v => length v = 7%nat) vias ->
  chained (prev :: vias) tail ->
  (length vias <= fuel)%nat ->
  via_loop fuel (pre ++ concat vias ++ tail) acc (length pre)
    (field_is_last prev)
  = (acc ++ map field_address vias,
     (length pre + 7 * length vias)%nat,
     field_is_last (List.last vias prev)).
Proof.
  revert prev pre acc fuel.
  induction vias as [|v vias IH]; intros prev pre acc fuel Hlen Hch Hfuel.
  - cbn [concat map app length List.last]. rewrite app_nil_r, Nat.mul_0_r,
      Nat.add_0_r.
    destruct fuel as [|fuel]; [reflexivity|]. cbn [via_loop].
    cbn in Hch. destruct Hch as [->|Hshort]; [reflexivity|].
    replace (length pre + 7 <=? length (pre ++ tail))%nat with false;
      [now rewrite andb_false_r|].
    symmetry. apply Nat.leb_gt. rewrite length_app. lia.
  - apply Forall_cons in Hlen as [Hv Hlen].
    destruct Hch as [Hprev Hch]. rewrite Hprev.
    destruct fuel as [|fuel]; [cbn in Hfuel; lia|].
    cbn [via_loop negb andb concat].
    replace (length pre + 7 <=? length (pre ++ (v ++ concat vias) ++ tail))%nat
      with true
      by (symmetry; apply Nat.leb_le; rewrite !length_app; lia).
    rewrite <- (List.app_assoc v (concat vias) tail).
    rewrite decode_address_at by exact Hv.
    specialize (IH v (pre ++ v) (acc ++ [field_address v]) fuel Hlen Hch).
    rewrite length_app, Hv, <- !app_assoc in IH.
    rewrite IH by (cbn in Hfuel; lia).
    cbn [map length].
    replace (length pre + 7 + 7 * length vias)%nat
      with (length pre + 7 * S (length vias))%nat by lia.
    do 2 f_equal. destruct vias as [|l vias]; [reflexivity|].
    apply (last_default (l :: vias)). discriminate.
Qed.

Lemma has_pid_odd (c : Z) :
  Z.land c 0xEF = 0x03 -> Z.land c 0x01 = 1 /\ Z.land c 0x03 = 3.
Proof.
  intros H. split.
  - change 0x01 with (Z.land 0xEF 0x01). rewrite Z.land_assoc, H.
    reflexivity.
  - change 0x03 with (Z.land 0xEF 0x03) at 1. rewrite Z.land_assoc, H.
    reflexivity.
Qed.

(** What [decode_ax25_frame] returns for a frame given by its fields. *)
Lemma decode_frame_fields (dest_field src_field : bytes)
    (vias : list bytes) (tail : bytes) :
  length dest_field = 7%nat -> length src_field = 7%nat ->
  Forall (fun v => length v = 7%nat) vias ->
  chained (src_field :: vias) tail ->
  let data := dest_field ++ src_field ++ concat vias ++ tail in
  let addressed :=
    {| raw := data; dest := Some (field_address dest_field);
       source := Some (field_address src_field);
       via := map field_address vias; control := 0;
       frame_type := UNKNOWN; ns := 0; nr := 0; pf := false; pid := 0;
       info := [] |} in
  decode_ax25_frame data
  = match tail with
    | [] => addressed
    | c :: rest =>
        let k := classify_control addressed c in
        {| raw := data; dest := dest k; source := source k; via := via k;
           control := c; frame_type := frame_type k; ns := ns k;
           nr := nr k; pf := pf k;
           pid := if has_pid c then hd 0 rest else 0;
           info := if has_pid c then tl rest else rest |}
    end.
Proof.
  intros Hd Hs Hv Hch. cbv zeta. unfold decode_ax25_frame.
  assert (Hvl : length (concat vias) = (7 * length vias)%nat).
  { clear -Hv. induction Hv as [|v vias Hv _ IH]; [reflexivity|].
    cbn. rewrite length_app, IH, Hv. lia. }
  set (data := dest_field ++ src_field ++ concat vias ++ tail).
  assert (Hlen : length data
                 = (14 + 7 * length vias + length tail)%nat).
  { subst data. rewrite !length_app, Hd, Hs, Hvl. lia. }
  destruct (Nat.ltb_spec (length data) 14) as [?|_]; [lia|].
  assert (Hdest : decode_ax25_address data 0
                  = (field_address dest_field, field_is_last dest_field)).
  { apply (decode_address_at [] dest_field). exact Hd. }
  assert (Hsrc : decode_ax25_address data 7
                 = (field_address src_field, field_is_last src_field)).
  { rewrite <- Hd. apply (decode_address_at dest_field src_field).
    exact Hs. }
  rewrite Hdest, Hsrc.
  assert (Hloop : via_loop (length data) data [] 14
                    (field_is_last src_field)
                  = (map field_address vias, (14 + 7 * length vias)%nat,
                     field_is_last (List.last vias src_field))).
  { pose proof (via_loop_chain vias src_field (dest_field ++ src_field)
                  tail [] (length data) Hv Hch) as H.
    rewrite length_app, Hd, Hs, <- app_assoc in H. cbn [Nat.add app] in H.
    apply H. lia. }
  rewrite Hloop. clear Hloop Hdest Hsrc.
  assert (Hdrop : drop (14 + 7 * length vias) data = tail).
  { subst data. rewrite !app_assoc.
    rewrite drop_app_length'; [reflexivity|].
    rewrite !length_app, Hd, Hs, Hvl. lia. }
  cbn [raw dest source via control frame_type ns nr pf pid info
       AX25Frame_new].
  destruct tail as [|c rest].
  - replace (14 + 7 * length vias <? length data)%nat with false
      by (symmetry; apply Nat.ltb_ge; cbn in Hlen; lia).
    cbn [frame_type FrameType_eqb orb andb].
    replace (14 + 7 * length vias <? length data)%nat with false
      by (symmetry; apply Nat.ltb_ge; cbn in Hlen; lia).
    reflexivity.
  - cbn [length] in Hlen.
    replace (14 + 7 * length vias <? length data)%nat with true
      by (symmetry; apply Nat.ltb_lt; lia).
    assert (Hc : at_index data (14 + 7 * length vias) = c).
    { now rewrite at_index_drop, Hdrop. }
    rewrite Hc.
    assert (Hrest : drop (S (14 + 7 * length vias)) data = rest).
    { change (S (14 + 7 * length vias)) with (1 + (14 + 7 * length vias))%nat.
      rewrite Nat.add_comm, <- drop_drop, Hdrop. reflexivity. }
    set (k := classify_control _ c).
    assert (Hpid : FrameType_eqb (frame_type k) I_FRAME
                   || FrameType_eqb (frame_type k) U_FRAME
                      && (Z.land (control k) 0xEF =? 0x03)
                   = has_pid c).
    { subst k. unfold classify_control, has_pid.
      destruct (Z.eqb_spec (Z.land c 0x01) 0) as [H1|H1]; [reflexivity|].
      destruct (Z.eqb_spec (Z.land c 0x03) 0x01) as [H3|H3];
        cbn [frame_type control FrameType_eqb orb andb].
      - destruct (Z.eqb_spec (Z.land c 0xEF) 3) as [HU|_]; [|reflexivity].
        apply has_pid_odd in HU as [_ HU]. congruence.
      - reflexivity. }
    rewrite Hpid.
    destruct (has_pid c).
    + destruct rest as [|p payload].
      * replace (S (14 + 7 * length vias) <? length data)%nat with false
          by (symmetry; apply Nat.ltb_ge; cbn in Hlen; lia).
        replace (S (14 + 7 * length vias) <? length data)%nat with false
          by (symmetry; apply Nat.ltb_ge; cbn in Hlen; lia).
        subst k. unfold classify_control.
        destruct (Z.land c 1 =? 0); [reflexivity|].
        destruct (Z.land c 3 =? 1); reflexivity.
      * cbn [length] in Hlen.
        replace (S (14 + 7 * length vias) <? length data)%nat with true
          by (symmetry; apply Nat.ltb_lt; lia).
        assert (Hp : at_index data (S (14 + 7 * length vias)) = p).
        { now rewrite at_index_drop, Hrest. }
        assert (Hpay : drop (S (S (14 + 7 * length vias))) data = payload).
        { change (S (S (14 + 7 * length vias)))
            with (1 + S (14 + 7 * length vias))%nat.
          rewrite Nat.add_comm, <- drop_drop, Hrest. reflexivity. }
        cbn [hd tl]. rewrite Hp.
        destruct payload as [|q payload].
        -- replace (S (S (14 + 7 * length vias)) <? length data)%nat
             with false
             by (symmetry; apply Nat.ltb_ge; cbn in Hlen; lia).
           subst k. unfold classify_control.
           destruct (Z.land c 1 =? 0); [reflexivity|].
           destruct (Z.land c 3 =? 1); reflexivity.
        -- replace (S (S (14 + 7 * length vias)) <? length data)%nat
             with true
             by (symmetry; apply Nat.ltb_lt; cbn in Hlen; lia).
           rewrite Hpay.
           subst k. unfold classify_control.
           destruct (Z.land c 1 =? 0); [reflexivity|].
           destruct (Z.land c 3 =? 1); reflexivity.
    + destruct rest as [|p payload].
      * replace (S (14 + 7 * length vias) <? length data)%nat with false
          by (symmetry; apply Nat.ltb_ge; cbn in Hlen; lia).
        subst k. unfold classify_control.
        destruct (Z.land c 1 =? 0); [reflexivity|].
        destruct (Z.land c 3 =? 1); reflexivity.
      * replace (S (14 + 7 * length vias) <? length data)%nat with true
          by (symmetry; apply Nat.ltb_lt; cbn in Hlen; lia).
        rewrite Hrest.
        subst k. unfold classify_control.
        destruct (Z.land c 1 =? 0); [reflexivity|].
        destruct (Z.land c 3 =? 1); reflexivity.
Qed.


(** (X15) [decode_ax25_frame] on a frame that is laid out as AX.25 has it: a
    destination field, a source field and the fields of the via path,
    seven bytes each and chained by their is-last bits, followed by the
    control byte and the rest. The decoder returns the address of every
    field, in order, the control byte classified, and, after the control
    byte of an information or UI frame, the next byte as PID; what follows
    is the info field. With nothing after the addresses the frame type
    stays UNKNOWN. *)
Theorem decode_ax25_frame_layout (dest_field src_field : bytes)
    (vias : list bytes) (tail : bytes) :
  length dest_field = 7%nat -> length src_field = 7%nat ->
  Forall (fun v => length v = 7%nat) vias ->
  chained (src_field :: vias) tail ->
  let data := dest_field ++ src_field ++ concat vias ++ tail in
  let addressed :=
    {| raw := data; dest := Some (field_address dest_field);
       source := Some (field_address src_field);
       via := map field_address vias; control := 0;
       frame_type := UNKNOWN; ns := 0; nr := 0; pf := false; pid := 0;
       info := [] |} in
  decode_ax25_frame data
  = match tail with
    | [] => addressed
    | c :: rest =>
        let k := classify_control addressed c in
        {| raw := data; dest := dest k; source := source k; via := via k;
           control := c; frame_type := frame_type k; ns := ns k;
           nr := nr k; pf := pf k;
           pid := if has_pid c then hd 0 rest else 0;
           info := if has_pid c then tl rest else rest |}
    end.
Proof. exact (decode_frame_fields dest_field src_field vias tail). Qed.

End Layout.

Lemma decode_ax25_frame_layout_witness :
  length [0xA8; 0x8A; 0xA6; 0xA8; 0x40; 0x40; 0x64] = 7%nat
  /\ length [0xA8; 0x8A; 0xA6; 0xA8; 0x40; 0x40; 0x62] = 7%nat
  /\ Forall (fun v : bytes => length v = 7%nat)
       [[0xAE; 0x92; 0x88; 0x8A; 0x40; 0x40; 0x63]]
  /\ Further.chained
       [[0xA8; 0x8A; 0xA6; 0xA8; 0x40; 0x40; 0x62];
        [0xAE; 0x92; 0x88; 0x8A; 0x40; 0x40; 0x63]]
       [0x03; 0xF0; 0x48; 0x49]
  /\ RfSimulator.info
       (RfSimulator.decode_ax25_frame
          ([0xA8; 0x8A; 0xA6; 0xA8; 0x40; 0x40; 0x64]
           ++ [0xA8; 0x8A; 0xA6; 0xA8; 0x40; 0x40; 0x62]
           ++ concat [[0xAE; 0x92; 0x88; 0x8A; 0x40; 0x40; 0x63]]
           ++ [0x03; 0xF0; 0x48; 0x49]))
     = [0x48; 0x49].
Proof.
  assert (H1 : length [0xA8; 0x8A; 0xA6; 0xA8; 0x40; 0x40; 0x64] = 7%nat)
    by reflexivity.
  assert (H2 : length [0xA8; 0x8A; 0xA6; 0xA8; 0x40; 0x40; 0x62] = 7%nat)
    by reflexivity.
  assert (H3 : Forall (fun v : bytes => length v = 7%nat)
                 [[0xAE; 0x92; 0x88; 0x8A; 0x40; 0x40; 0x63]])
    by (repeat constructor).
  assert (H4 : Further.chained
                 [[0xA8; 0x8A; 0xA6; 0xA8; 0x40; 0x40; 0x62];
                  [0xAE; 0x92; 0x88; 0x8A; 0x40; 0x40; 0x63]]
                 [0x03; 0xF0; 0x48; 0x49])
    by (split; [reflexivity|left; reflexivity]).
  repeat (split; [assumption|]).
  rewrite (decode_ax25_frame_layout _ _ _ _ H1 H2 H3 H4). reflexivity.
Defined.

Lemma bit_errors_flip_the_drawn_bits_witness :
  (0 < 1 # 4)%Q
  /\ (RfSimulator.apply_bit_errors Sample.coin [0x41; 0x42] (1 # 4) 0).2
     = (0 + 8 * length [0x41; 0x42])%nat.
Proof.
  assert (Hber : (0 < 1 # 4)%Q) by reflexivity.
  split; [exact Hber|].
  exact (proj1 (proj2 (proj2 (proj2
           (bit_errors_flip_the_drawn_bits Sample.coin [0x41; 0x42]
              (1 # 4) 0))) Hber)).
Defined.

(** ** Frames built by the test stations, as the simulator decodes them *)

Section BuiltFrames.
Import RfSimulator Further TestFrames.

Variable int : string -> option Z.

Lemma ssid_low_bits (n : Z) : 0 <= Z.land n 0x0F <= 15.
Proof.
  change (Z.land n 0x0F) with (Z.land n (Z.ones 4)).
  rewrite Z.land_ones by lia. change (2 ^ 4) with 16.
  pose proof (Z.mod_pos_bound n 16 ltac:(lia)). lia.
Qed.

Lemma ssid_byte_low_bits (n : Z) (last : bool) :
  ssid_byte_of n last = ssid_byte_of (Z.land n 0x0F) last.
Proof.
  unfold ssid_byte_of. rewrite <- Z.land_assoc. reflexivity.
Qed.

Lemma ord_chr (n : Z) : 0 <= n < 256 -> ord (chr n) = n.
Proof.
  intros Hn. unfold ord, chr. rewrite N_ascii_embedding by lia. lia.
Qed.

(** [str.upper] on a character of a call sign. *)
Lemma upper_call_char (a : ascii) :
  is_call_char a ->
  is_call_char (upper_char a)
  /\ upper_char (upper_char a) = upper_char a
  /\ ~ (97 <= ord (upper_char a) <= 122).
Proof.
  unfold is_call_char, upper_char. intros Ha. cbv zeta.
  destruct ((97 <=? ord a) && (ord a <=? 122)) eqn:E.
  - apply andb_prop in E as [E1 E2].
    rewrite ord_chr by lia.
    replace ((97 <=? ord a - 32) && (ord a - 32 <=? 122)) with false
      by (symmetry; apply andb_false_iff; left; lia).
    repeat split; lia.
  - rewrite ?E. apply andb_false_iff in E. repeat split; lia.
Qed.

(** What the codec does with a character of a call sign that [str.upper]
    leaves as it is. *)
Lemma call_char_roundtrip (a : ascii) :
  is_call_char a ->
  Z.land (Z.shiftr (Z.shiftl (ord a) 1) 1) 0x7F = ord a
  /\ (ord a =? 0x20) = false
  /\ (Z.shiftl (ord a) 1 <? 256) = true
  /\ 0 <= Z.shiftl (ord a) 1
  /\ isspace a = false.
Proof.
  unfold is_call_char. intros Ha.
  rewrite Z.shiftr_shiftl_l by lia. change (1 - 1) with 0.
  rewrite Z.shiftl_0_r.
  change 0x7F with (Z.ones 7). rewrite Z.land_ones by lia.
  rewrite Z.mod_small by (change (2 ^ 7) with 128; lia).
  rewrite Z.shiftl_mul_pow2 by lia. change (2 ^ 1) with 2.
  unfold isspace. cbv zeta.
  assert (H13 : (ord a <=? 13) = false) by lia.
  assert (H32 : (ord a <=? 32) = false) by lia.
  assert (H85 : (ord a =? 0x85) = false) by lia.
  assert (HA0 : (ord a =? 0xA0) = false) by lia.
  rewrite H13, H32, H85, HA0, !andb_false_r.
  repeat split; try reflexivity; lia.
Qed.

Lemma upper_chars (s : string) :
  list_ascii_of_string (upper s) = map upper_char (list_ascii_of_string s).
Proof. induction s as [|a s IH]; [reflexivity|]. cbn. now rewrite IH. Qed.

Lemma upper_length (s : string) : String.length (upper s) = String.length s.
Proof. induction s as [|a s IH]; [reflexivity|]. cbn. now rewrite IH. Qed.

Lemma upper_call_chars (s : string) :
  Forall is_call_char (list_ascii_of_string s) ->
  Forall is_call_char (list_ascii_of_string (upper s))
  /\ upper (upper s) = upper s.
Proof.
  induction s as [|a s IH]; [cbn; auto|]. cbn. intros H.
  apply Forall_cons in H as [Ha Hs]. destruct (IH Hs) as [IH1 IH2].
  destruct (upper_call_char a Ha) as (H1 & H2 & _).
  split; [now constructor|]. now rewrite H2, IH2.
Qed.

Lemma rstrip_of_call_chars (s : string) :
  Forall is_call_char (list_ascii_of_string s) -> rstrip s = s.
Proof.
  induction s as [|a s IH]; [reflexivity|]. cbn. intros H.
  apply Forall_cons in H as [Ha Hs]. rewrite IH by exact Hs.
  destruct (call_char_roundtrip a Ha) as (_ & _ & _ & _ & ->).
  destruct s; reflexivity.
Qed.

Lemma strip_of_call_chars (s : string) :
  Forall is_call_char (list_ascii_of_string s) -> strip s = s.
Proof.
  intros H. unfold strip.
  assert (Hl : lstrip s = s).
  { destruct s as [|a s]; [reflexivity|]. cbn in *.
    apply Forall_cons in H as [Ha _].
    now destruct (call_char_roundtrip a Ha) as (_ & _ & _ & _ & ->). }
  rewrite Hl. now apply rstrip_of_call_chars.
Qed.

Lemma callsign_steps_call_chars (cs : list ascii) (acc : string) :
  Forall is_call_char cs ->
  fold_left callsign_step (map (fun c => Z.shiftl (ord c) 1) cs) acc
  = (acc +:+ string_of_list_ascii cs)%string.
Proof.
  revert acc. induction cs as [|a cs IH]; intros acc H.
  - cbn. now rewrite append_nil_r.
  - apply Forall_cons in H as [Ha Hcs]. cbn [map fold_left].
    rewrite IH by exact Hcs.
    destruct (call_char_roundtrip a Ha) as (R & S & _).
    unfold callsign_step. cbv zeta. rewrite R, S. cbn [negb].
    rewrite chr_ord, append_snoc. reflexivity.
Qed.

(** One address field as [encode_ax25_address] writes it for a call sign
    of at most six printable characters and any number as secondary id. *)
Lemma encode_field (c : string) (n : Z) (last : bool) :
  (String.length c <= 6)%nat ->
  Forall is_call_char (list_ascii_of_string c) ->
  exists field : bytes,
    VisualTest.encode_ax25_address c n last = Some field
    /\ length field = 7%nat
    /\ is_bytes field
    /\ field_address field
       = {| callsign := upper c; ssid := Z.land n 0x0F |}
    /\ field_is_last field = last.
Proof.
  intros Hlen Hc.
  destruct (upper_call_chars c Hc) as [Hup _].
  assert (Hlen' : (String.length (upper c) <= 6)%nat)
    by now rewrite upper_length.
  destruct (ssid_byte_roundtrip (Z.land n 0x0F) last (ssid_low_bits n))
    as (Hssid & Hlast & _ & Hbyte).
  rewrite <- ssid_byte_low_bits in Hssid, Hlast, Hbyte.
  set (shl := fun c : ascii => Z.shiftl (ord c) 1).
  set (pad := repeat " "%char (6 - String.length (upper c))).
  set (cells := map shl (list_ascii_of_string (upper c) ++ pad)).
  assert (Hcells : length cells = 6%nat).
  { subst cells pad. rewrite length_map, length_app, chars_length,
      repeat_length. lia. }
  assert (Hrange : Forall is_byte cells).
  { subst cells. apply Forall_map, Forall_app. split.
    - eapply Forall_impl; [exact Hup|]. intros a Ha.
      destruct (call_char_roundtrip a Ha) as (_ & _ & H & H0 & _).
      unfold is_byte, shl. cbn. lia.
    - subst pad. apply Forall_forall.
      intros a Ha. apply list_elem_of_In, repeat_spec in Ha. subst a.
      unfold is_byte, shl. change (Z.shiftl (ord " ") 1) with 64. lia. }
  assert (Hok : forallb (fun v => v <? 256) cells = true).
  { apply forallb_forall. intros v Hv. rewrite Forall_forall in Hrange.
    apply list_elem_of_In, Hrange in Hv. unfold is_byte in Hv. lia. }
  exists (cells ++ [ssid_byte_of n last]).
  assert (H6 : at_index (cells ++ [ssid_byte_of n last]) 6
               = ssid_byte_of n last).
  { unfold at_index. rewrite app_nth2 by lia. rewrite Hcells. reflexivity. }
  split; [|split; [|split; [|split]]].
  - unfold VisualTest.encode_ax25_address.
    rewrite (padded_call_chars (upper c) Hlen').
    fold pad shl cells. rewrite Hok. reflexivity.
  - rewrite length_app, Hcells. reflexivity.
  - apply Forall_app. split; [exact Hrange|].
    apply Forall_cons. split; [exact Hbyte|constructor].
  - unfold field_address.
    rewrite decode_ax25_address_fold by (rewrite length_app, Hcells; cbn; lia).
    cbn [fst]. change (0 + 6)%nat with 6%nat. rewrite H6, Hssid.
    rewrite drop_0, take_app_length' by (symmetry; exact Hcells).
    subst cells. rewrite map_app, fold_left_app.
    fold shl. unfold shl at 2. unfold pad. rewrite callsign_steps_padding.
    unfold shl. rewrite callsign_steps_call_chars by exact Hup.
    rewrite append_nil_l, string_of_list_ascii_of_string.
    rewrite strip_of_call_chars by exact Hup. reflexivity.
  - unfold field_is_last. rewrite H6. exact Hlast.
Qed.

(** (X16) Address round trip for call signs as they are written: for every
    call
    sign of at most six printable characters, letters in either case and
    digits among them, every number as secondary id and both values of
    the is-last flag, [encode_ax25_address] yields seven bytes, and
    [decode_ax25_address] of the simulator reads from them the call sign
    in upper case, the secondary id modulo 16 and the flag. *)
Theorem address_roundtrip_printable (c : string) (n : Z) (last : bool) :
  (String.length c <= 6)%nat ->
  Forall is_call_char (list_ascii_of_string c) ->
  exists field : bytes,
    VisualTest.encode_ax25_address c n last = Some field
    /\ length field = 7%nat
    /\ is_bytes field
    /\ decode_ax25_address field 0
       = ({| callsign := upper c; ssid := Z.land n 0x0F |}, last).
Proof.
  intros Hlen Hc.
  destruct (encode_field c n last Hlen Hc)
    as (field & Henc & H7 & Hbytes & Haddr & Hlast).
  exists field. repeat (split; [assumption|]).
  pose proof (decode_address_at [] field [] H7) as H.
  rewrite app_nil_r in H. cbn [app length] in H.
  now rewrite H, Haddr, Hlast.
Qed.

(** The pieces of an upper-cased text are in upper case. *)
Lemma split_dash_upper (s : string) :
  Forall (fun part => upper part = part) (split_dash (upper s)).
Proof.
  induction s as [|a s IH]; [repeat constructor|].
  cbn [upper split_dash].
  destruct (Ascii.eqb (upper_char a) "-"); [now constructor|].
  destruct (split_dash (upper s)) as [|part parts].
  - repeat constructor. cbn.
    assert (H : upper_char (upper_char a) = upper_char a); [|now rewrite H].
    clear. destruct a as [[] [] [] [] [] [] [] []]; reflexivity.
  - apply Forall_cons in IH as [Hp Hps]. constructor; [|exact Hps].
    cbn. rewrite Hp.
    assert (H : upper_char (upper_char a) = upper_char a); [|now rewrite H].
    clear. destruct a as [[] [] [] [] [] [] [] []]; reflexivity.
Qed.

Lemma named_upper (text call : string) (ssid : Z) :
  names int text call ssid -> upper call = call.
Proof.
  intros (Hc & _). subst call. pose proof (split_dash_upper text) as H.
  unfold call_of. destruct (split_dash (upper text)) as [|part parts];
    [reflexivity|].
  now apply Forall_cons in H as [H _].
Qed.

(** The fields that the loop over the via path appends. *)
Lemma via_fields_chain (via : list string) (vias : list (string * Z))
    (i : nat) (prev tail : bytes) :
  Forall2 (fun v a => names int v a.1 a.2) via vias ->
  field_is_last prev = (length via =? 0)%nat ->
  exists fields : list bytes,
    via_fields int via i (i + length via) = Some (concat fields)
    /\ Forall (fun f => length f = 7%nat) fields
    /\ length fields = length via
    /\ map field_address fields
       = map (fun a => {| callsign := a.1; ssid := Z.land a.2 0x0F |}) vias
    /\ chained (prev :: fields) tail.
Proof.
  intros Hvia. revert i prev.
  induction Hvia as [|v [c n] via vias (Hc & Hn & Hlen & Hup) _ IH];
    intros i prev Hprev.
  - exists []. cbn in *. repeat split; auto.
  - cbn [fst snd] in *. cbn [via_fields]. rewrite Hc, Hn.
    assert (Hflag : (Z.of_nat i =? Z.of_nat (i + length (v :: via)) - 1)
                    = (length via =? 0)%nat).
    { cbn [length]. destruct (Nat.eqb_spec (length via) 0) as [E|E].
      - apply Z.eqb_eq. lia.
      - apply Z.eqb_neq. lia. }
    rewrite Hflag.
    destruct (encode_field c n (length via =? 0)%nat Hlen Hup)
      as (field & Henc & Hf7 & _ & Haddr & Hlast).
    assert (Hupper : upper c = c)
      by (apply (named_upper v c n); repeat split; assumption).
    rewrite Hupper in Haddr.
    rewrite Henc.
    destruct (IH (S i) field Hlast)
      as (fields & Hfs & H7 & Hcount & Hmap & Hch).
    replace (i + length (v :: via))%nat with (S i + length via)%nat
      by (cbn [length]; lia).
    rewrite Hfs. exists (field :: fields).
    split; [reflexivity|]. split; [now constructor|].
    split; [cbn; now rewrite Hcount|].
    split; [cbn [map fst snd]; now rewrite Haddr, Hmap|].
    cbn [chained]. split; [exact Hprev|exact Hch].
Qed.

(** (X17) A UI frame built by [build_ui_frame] from texts that name stations
    is
    decoded by the simulator as it was meant: destination, source and via
    path with the call signs given and the secondary ids modulo 16, control
    byte 0x03 of an unnumbered frame without poll bit, PID 0xF0, and the
    payload as info field. *)
Theorem built_ui_frame_decodes (source dest : string) (payload : bytes)
    (via : list string) (sc dc : string) (ss ds : Z)
    (vias : list (string * Z)) :
  names int source sc ss -> names int dest dc ds ->
  Forall2 (fun v a => names int v a.1 a.2) via vias ->
  exists frame : bytes,
    build_ui_frame int source dest payload via = Some frame
    /\ length frame = (16 + 7 * length via + length payload)%nat
    /\ decode_ax25_frame frame
       = {| raw := frame;
            dest := Some {| callsign := dc; ssid := Z.land ds 0x0F |};
            source := Some {| callsign := sc; ssid := Z.land ss 0x0F |};
            via := map (fun a => {| callsign := a.1;
                                    ssid := Z.land a.2 0x0F |}) vias;
            control := 0x03; frame_type := U_FRAME; ns := 0; nr := 0;
            pf := false; pid := 0xF0; info := payload |}.
Proof.
  intros Hsrc Hdst Hvia.
  pose proof (named_upper _ _ _ Hsrc) as Hsu.
  pose proof (named_upper _ _ _ Hdst) as Hdu.
  destruct Hsrc as (Hsc & Hsn & Hslen & Hsup).
  destruct Hdst as (Hdc & Hdn & Hdlen & Hdup).
  unfold build_ui_frame. cbv zeta. rewrite Hsc, Hsn, Hdc, Hdn.
  destruct (encode_field dc ds false Hdlen Hdup)
    as (dfield & Hdenc & Hd7 & _ & Hdaddr & _).
  destruct (encode_field sc ss (length via =? 0)%nat Hslen Hsup)
    as (sfield & Hsenc & Hs7 & _ & Hsaddr & Hslast).
  rewrite Hdenc, Hsenc. rewrite Hsu in Hsaddr. rewrite Hdu in Hdaddr.
  destruct (via_fields_chain via vias 0 sfield
              ([0x03] ++ [0xF0] ++ payload) Hvia Hslast)
    as (fields & Hfs & H7 & Hcount & Hmap & Hch).
  cbn [Nat.add] in Hfs. rewrite Hfs.
  eexists. split; [reflexivity|].
  assert (Hvl : length (concat fields) = (7 * length fields)%nat).
  { clear -H7. induction H7 as [|f fields Hf _ IH]; [reflexivity|].
    cbn. rewrite length_app, IH, Hf. lia. }
  split.
  - rewrite !length_app, Hd7, Hs7, Hvl, Hcount. cbn [length]. lia.
  - rewrite (decode_frame_fields dfield sfield fields
               ([0x03] ++ [0xF0] ++ payload) Hd7 Hs7 H7 Hch).
    cbn [app hd tl]. change (has_pid 3) with true. cbv iota.
    unfold classify_control.
    change (Z.land 3 1 =? 0) with false.
    change (Z.land 3 3 =? 1) with false. cbv iota.
    cbn [RfSimulator.dest RfSimulator.source RfSimulator.via ns nr].
    rewrite Hdaddr, Hsaddr, Hmap.
    reflexivity.
Qed.

(** (X18) The frames of [build_sabm] and [build_ua] are decoded by the
    simulator
    as unnumbered frames from the source to the destination named, with
    the poll/final bit set, no PID and no info field, and are shown as
    SABM and UA. *)
Theorem built_sabm_ua_decode (source dest : string) (sc dc : string)
    (ss ds : Z) :
  names int source sc ss -> names int dest dc ds ->
  exists sabm ua : bytes,
    build_sabm int source dest = Some sabm
    /\ build_ua int source dest = Some ua
    /\ decode_ax25_frame sabm
       = {| raw := sabm;
            dest := Some {| callsign := dc; ssid := Z.land ds 0x0F |};
            source := Some {| callsign := sc; ssid := Z.land ss 0x0F |};
            via := []; control := 0x3F; frame_type := U_FRAME; ns := 0;
            nr := 0; pf := true; pid := 0; info := [] |}
    /\ decode_ax25_frame ua
       = {| raw := ua;
            dest := Some {| callsign := dc; ssid := Z.land ds 0x0F |};
            source := Some {| callsign := sc; ssid := Z.land ss 0x0F |};
            via := []; control := 0x73; frame_type := U_FRAME; ns := 0;
            nr := 0; pf := true; pid := 0; info := [] |}
    /\ u_type_str 0x3F = "SABM"%string /\ u_type_str 0x73 = "UA"%string.
Proof.
  intros Hsrc Hdst.
  pose proof (named_upper _ _ _ Hsrc) as Hsu.
  pose proof (named_upper _ _ _ Hdst) as Hdu.
  destruct Hsrc as (Hsc & Hsn & Hslen & Hsup).
  destruct Hdst as (Hdc & Hdn & Hdlen & Hdup).
  unfold build_sabm, build_ua, build_unnumbered. cbv zeta.
  rewrite Hsc, Hsn, Hdc, Hdn.
  destruct (encode_field dc ds false Hdlen Hdup)
    as (dfield & Hdenc & Hd7 & _ & Hdaddr & _).
  destruct (encode_field sc ss true Hslen Hsup)
    as (sfield & Hsenc & Hs7 & _ & Hsaddr & Hslast).
  rewrite Hdenc, Hsenc. rewrite Hsu in Hsaddr. rewrite Hdu in Hdaddr.
  eexists. eexists. split; [reflexivity|]. split; [reflexivity|].
  assert (Hch : forall tail, chained [sfield] tail) by (intros; now left).
  split; [|split; [|split; reflexivity]].
  - pose proof (decode_frame_fields dfield sfield [] [0x3F] Hd7 Hs7
                  ltac:(constructor) (Hch _)) as H.
    cbn [concat app] in H. cbv zeta in H. rewrite H.
    cbn [map]. rewrite Hdaddr, Hsaddr. reflexivity.
  - pose proof (decode_frame_fields dfield sfield [] [0x73] Hd7 Hs7
                  ltac:(constructor) (Hch _)) as H.
    cbn [concat app] in H. cbv zeta in H. rewrite H.
    cbn [map]. rewrite Hdaddr, Hsaddr. reflexivity.
Qed.

End BuiltFrames.

Lemma test_1_named :
  TestFrames.names TestFrames.int_of_digits "test-1" "TEST" 1.
Proof.
  repeat split; try reflexivity; [cbn; lia|].
  repeat constructor; vm_compute; discriminate.
Qed.

Lemma test_2_named :
  TestFrames.names TestFrames.int_of_digits "TEST-2" "TEST" 2.
Proof.
  repeat split; try reflexivity; [cbn; lia|].
  repeat constructor; vm_compute; discriminate.
Qed.

Lemma wide_named :
  Forall2 (fun v (a : string * Z) =>
             TestFrames.names TestFrames.int_of_digits v a.1 a.2)
    ["WIDE-18"%string] [("WIDE"%string, 18)].
Proof.
  constructor; [|constructor].
  repeat split; try reflexivity; [cbn; lia|].
  repeat constructor; vm_compute; discriminate.
Qed.

Lemma built_ui_frame_decodes_witness :
  TestFrames.names TestFrames.int_of_digits "test-1" "TEST" 1
  /\ TestFrames.names TestFrames.int_of_digits "TEST-2" "TEST" 2
  /\ Forall2 (fun v (a : string * Z) =>
                TestFrames.names TestFrames.int_of_digits v a.1 a.2)
       ["WIDE-18"%string] [("WIDE"%string, 18)]
  /\ exists frame : bytes,
       TestFrames.build_ui_frame TestFrames.int_of_digits "test-1" "TEST-2"
         [0x48; 0x49] ["WIDE-18"%string] = Some frame
       /\ length frame = (16 + 7 * length ["WIDE-18"%string]
                          + length [0x48; 0x49])%nat.
Proof.
  split; [exact test_1_named|]. split; [exact test_2_named|].
  split; [exact wide_named|].
  destruct (built_ui_frame_decodes TestFrames.int_of_digits "test-1" "TEST-2"
              [0x48; 0x49] ["WIDE-18"%string] "TEST" "TEST" 1 2
              [("WIDE"%string, 18)] test_1_named test_2_named wide_named)
    as (frame & Hbuilt & Hlen & _).
  exists frame. split; [exact Hbuilt|exact Hlen].
Defined.

Lemma built_sabm_ua_decode_witness :
  TestFrames.names TestFrames.int_of_digits "test-1" "TEST" 1
  /\ TestFrames.names TestFrames.int_of_digits "TEST-2" "TEST" 2
  /\ exists sabm ua : bytes,
       TestFrames.build_sabm TestFrames.int_of_digits "test-1" "TEST-2"
       = Some sabm
       /\ TestFrames.build_ua TestFrames.int_of_digits "test-1" "TEST-2"
          = Some ua.
Proof.
  split; [exact test_1_named|]. split; [exact test_2_named|].
  destruct (built_sabm_ua_decode TestFrames.int_of_digits "test-1" "TEST-2"
              "TEST" "TEST" 1 2 test_1_named test_2_named)
    as (sabm & ua & Hs & Hu & _).
  exists sabm, ua. split; [exact Hs|exact Hu].
Defined.

Lemma address_roundtrip_printable_witness :
  (String.length "k0epi" <= 6)%nat
  /\ Forall Further.is_call_char (list_ascii_of_string "k0epi")
  /\ exists field : bytes,
       VisualTest.encode_ax25_address "k0epi" 23 true = Some field
       /\ RfSimulator.decode_ax25_address field 0
          = ({| RfSimulator.callsign := upper "k0epi";
                RfSimulator.ssid := Z.land 23 0x0F |}, true).
Proof.
  assert (Hlen : (String.length "k0epi" <= 6)%nat) by (cbn; lia).
  assert (Hc : Forall Further.is_call_char (list_ascii_of_string "k0epi"))
    by (repeat constructor; vm_compute; discriminate).
  split; [exact Hlen|]. split; [exact Hc|].
  destruct (address_roundtrip_printable "k0epi" 23 true Hlen Hc)
    as (field & Henc & _ & _ & Hdec).
  exists field. split; [exact Henc|exact Hdec].
Defined.

(** ** The size of an escaped payload *)

Lemma kiss_escape_plain (p : bytes) :
  ~ In FEND p -> ~ In FESC p -> kiss_escape p = p.
Proof.
  induction p as [|b p IH]; [reflexivity|]. cbn [In]. intros Hf He.
  cbn [kiss_escape].
  destruct (Z.eqb_spec b FEND) as [->|_]; [tauto|].
  destruct (Z.eqb_spec b FESC) as [->|_]; [tauto|].
  rewrite IH by tauto. reflexivity.
Qed.


(** ** The commands sent to the TNC *)

Section Tnc4.
Import Tnc4Commands.

Lemma low_byte (n : Z) : 0 <= Z.land n 0xFF < 256.
Proof.
  change (Z.land n 0xFF) with (Z.land n (Z.ones 8)).
  rewrite Z.land_ones by lia. change (2 ^ 8) with 256.
  apply Z.mod_pos_bound. lia.
Qed.

(** The entries of [SETTING_MAP]: a KISS parameter without a hardware
    command, or the hardware type with a command byte. *)
Lemma setting_entry (key : string) (t : Z) (c : option Z) (d : string) :
  SETTING_MAP !! key = Some (t, c, d) ->
  (1 <= t <= 5 /\ c = None)
  \/ (t = KISS_TYPE_HARDWARE /\ exists h, c = Some h /\ 0 <= h < 256).
Proof.
  intros E. apply elem_of_list_to_map_2 in E.
  repeat (apply elem_of_cons in E as [E|E];
          [injection E as _ -> -> _;
           first [ left; split; [cbv; split; intros H; discriminate H
                                |reflexivity]
                 | right; split; [reflexivity|];
                   eexists; split; [reflexivity|];
                   cbv; split; [intros H; discriminate H|reflexivity] ]|]).
  inversion E.
Qed.

Lemma set_command_frames (key : string) (value : Value) :
  exists (command : list (string * bytes)) (sent : list (Z * bytes)),
    set_command key value = Some command
    /\ (length command <= 1)%nat
    /\ map snd command = map (fun f => Tnc4Config.kiss_frame f.1 f.2) sent
    /\ Forall setting_frame sent.
Proof.
  unfold set_command.
  destruct (SETTING_MAP !! key) as [[[kiss_type hw_cmd] desc]|] eqn:E;
    [|exists [], []; repeat split; auto; constructor].
  apply setting_entry in E.
  assert (Hint : forall n, exists command sent,
            (let val := Z.land n 0xFF in
             let text := (desc +:+ " = " +:+ Value_str value)%string in
             if kiss_type =? KISS_TYPE_HARDWARE
             then match hw_cmd with
                  | Some hw_cmd =>
                      Some [(text, Tnc4Config.kiss_frame KISS_TYPE_HARDWARE
                                     [hw_cmd; val])]
                  | None => None
                  end
             else Some [(text, Tnc4Config.kiss_frame kiss_type [val])])
            = Some command
            /\ (length command <= 1)%nat
            /\ map snd command
               = map (fun f => Tnc4Config.kiss_frame f.1 f.2) sent
            /\ Forall setting_frame sent).
  { intros n. pose proof (low_byte n) as Hval. cbv zeta.
    destruct E as [[Ht ->]|[-> (h & -> & Hh)]].
    - replace (kiss_type =? KISS_TYPE_HARDWARE) with false
        by (symmetry; apply Z.eqb_neq; unfold KISS_TYPE_HARDWARE; lia).
      eexists. exists [(kiss_type, [Z.land n 0xFF])].
      split; [reflexivity|]. split; [cbn; lia|]. split; [reflexivity|].
      constructor; [|constructor]. unfold setting_frame. cbn [fst snd].
      split; [lia|]. split; [constructor; [exact Hval|constructor]|].
      split; [unfold KISS_TYPE_HARDWARE; lia|reflexivity].
    - rewrite Z.eqb_refl.
      eexists. exists [(KISS_TYPE_HARDWARE, [h; Z.land n 0xFF])].
      split; [reflexivity|]. split; [cbn; lia|]. split; [reflexivity|].
      constructor; [|constructor]. unfold setting_frame. cbn [fst snd].
      split; [unfold KISS_TYPE_HARDWARE; lia|].
      split; [constructor; [exact Hh|constructor; [exact Hval|constructor]]|].
      split; [reflexivity|congruence]. }
  destruct value as [n|b|].
  - apply Hint.
  - apply Hint.
  - exists [], []. repeat split; auto; constructor.
Qed.

Lemma commands_of_frames (items : list (string * Value)) :
  exists (commands : list (string * bytes)) (sent : list (Z * bytes)),
    commands_of items = Some commands
    /\ (length commands <= length items)%nat
    /\ map snd commands = map (fun f => Tnc4Config.kiss_frame f.1 f.2) sent
    /\ Forall setting_frame sent.
Proof.
  induction items as [|[key value] items (commands & sent & IH & Hn & Hm & Hf)].
  - exists [], []. repeat split; auto; constructor.
  - destruct (set_command_frames key value)
      as (command & sent1 & Hc & Hn1 & Hm1 & Hf1).
    exists (command ++ commands), (sent1 ++ sent).
    cbn [commands_of]. rewrite Hc, IH.
    split; [reflexivity|]. split; [rewrite length_app; cbn; lia|].
    split; [now rewrite !map_app, Hm1, Hm|]. now apply Forall_app.
Qed.

Lemma sorted_length (items : list (string * Value)) :
  length (sorted items) = length items.
Proof.
  assert (Hins : forall item l, length (insert_item item l) = S (length l)).
  { intros item l. induction l as [|other l IH]; [reflexivity|].
    cbn. destruct (String.leb _ _); cbn; [reflexivity|now rewrite IH]. }
  unfold sorted. induction items as [|item items IH]; [reflexivity|].
  cbn [foldr length]. now rewrite Hins, IH.
Qed.

Lemma setting_frame_typed (sent : list (Z * bytes)) :
  Forall setting_frame sent ->
  Forall (fun f : Z * bytes => f.1 <> FEND /\ f.1 <> FESC) sent.
Proof.
  intros H. eapply Forall_impl; [exact H|].
  intros f (Ht & _). unfold FEND, FESC. lia.
Qed.

(** (X20) [build_set_commands] never raises. It gives at most one command per
    setting, each a frame of [kiss_frame] with a type byte from 1 to 6 and
    one value byte, or for a hardware command the command byte and the
    value byte, the value being the setting modulo 256. What [cmd_apply]
    writes to the serial port is read back by [extract_kiss_frames] as
    these commands in order, followed by SAVE_EEPROM and RESET when these
    are asked for, whatever the values are. *)
Theorem set_commands_read_back (settings : list (string * Value))
    (save_eeprom reset : bool) :
  exists (commands : list (string * bytes)) (sent : list (Z * bytes)),
    build_set_commands settings = Some commands
    /\ (length commands <= length settings)%nat
    /\ map snd commands = map (fun f => Tnc4Config.kiss_frame f.1 f.2) sent
    /\ Forall setting_frame sent
    /\ Tnc4Frames.extract_kiss_frames (concat (map snd commands)) = sent
    /\ cmd_apply settings true save_eeprom reset = Some []
    /\ exists written : list bytes,
         cmd_apply settings false save_eeprom reset = Some written
         /\ Tnc4Frames.extract_kiss_frames (concat written)
            = if (length commands =? 0)%nat then []
              else sent
                   ++ (if save_eeprom
                       then [(KISS_TYPE_HARDWARE, [HW_SAVE_EEPROM])] else [])
                   ++ (if reset
                       then [(KISS_TYPE_HARDWARE, [HW_RESET])] else []).
Proof.
  destruct (commands_of_frames (sorted settings))
    as (commands & sent & Hc & Hn & Hm & Hf).
  rewrite sorted_length in Hn.
  exists commands, sent. unfold cmd_apply, build_set_commands. rewrite Hc.
  split; [reflexivity|]. split; [exact Hn|]. split; [exact Hm|].
  split; [exact Hf|].
  assert (Hread : forall more : list (Z * bytes),
            Forall (fun f : Z * bytes => f.1 <> FEND /\ f.1 <> FESC) more ->
            Tnc4Frames.extract_kiss_frames
              (concat (map snd commands
                       ++ map (fun f => Tnc4Config.kiss_frame f.1 f.2) more))
            = sent ++ more).
  { intros more Hmore. rewrite Hm, <- map_app.
    pose proof (extract_loop_frames (sent ++ more) []) as H.
    cbn [app] in H. unfold Tnc4Frames.extract_kiss_frames. apply H.
    - apply Forall_app. split; [now apply setting_frame_typed|exact Hmore].
    - constructor.
    - apply framed_length. }
  split.
  - specialize (Hread [] ltac:(constructor)). cbn [map] in Hread.
    now rewrite !app_nil_r in Hread.
  - destruct commands as [|command commands]; [split; [reflexivity|]|].
    + exists []. split; reflexivity.
    + split; [reflexivity|]. eexists. split; [reflexivity|].
      cbn [length Nat.eqb].
      specialize (Hread ((if save_eeprom
                          then [(KISS_TYPE_HARDWARE, [HW_SAVE_EEPROM])]
                          else [])
                         ++ (if reset
                             then [(KISS_TYPE_HARDWARE, [HW_RESET])]
                             else []))).
      rewrite map_app in Hread.
      replace (map (fun f : Z * bytes => Tnc4Config.kiss_frame f.1 f.2)
                 (if save_eeprom
                  then [(KISS_TYPE_HARDWARE, [HW_SAVE_EEPROM])] else []))
        with (if save_eeprom
              then [Tnc4Config.kiss_frame KISS_TYPE_HARDWARE [HW_SAVE_EEPROM]]
              else []) in Hread by (destruct save_eeprom; reflexivity).
      replace (map (fun f : Z * bytes => Tnc4Config.kiss_frame f.1 f.2)
                 (if reset then [(KISS_TYPE_HARDWARE, [HW_RESET])] else []))
        with (if reset
              then [Tnc4Config.kiss_frame KISS_TYPE_HARDWARE [HW_RESET]]
              else []) in Hread by (destruct reset; reflexivity).
      apply Hread.
      destruct save_eeprom, reset; repeat constructor; discriminate.
Qed.

End Tnc4.

(** ** The decoder of the test station and the decoder of the simulator *)

Section Decoders.
Import RfSimulator.

Lemma visual_address (data : bytes) (offset : nat) :
  (offset + 7 <= length data)%nat ->
  VisualTestDecoder.decode_ax25_address data offset
  = (Some (decode_ax25_address data offset).1,
     (decode_ax25_address data offset).2, (offset + 7)%nat).
Proof.
  intros Hlen.
  unfold VisualTestDecoder.decode_ax25_address, decode_ax25_address.
  destruct (Nat.ltb_spec (length data) (offset + 7)); [lia|reflexivity].
Qed.

Lemma visual_via_loop (fuel : nat) (data : bytes) (via : list AX25Address)
    (offset : nat) (is_last : bool) :
  VisualTestDecoder.via_loop fuel data via offset is_last
  = (let '(v, o, l) := via_loop fuel data via offset is_last in (v, o, l)).
Proof.
  revert via offset is_last.
  induction fuel as [|fuel IH]; intros via offset is_last; [reflexivity|].
  cbn [VisualTestDecoder.via_loop via_loop].
  destruct is_last; cbn [negb andb]; [reflexivity|].
  destruct (Nat.leb_spec (offset + 7) (length data)) as [Hle|_];
    [|reflexivity].
  rewrite visual_address by exact Hle.
  destruct (decode_ax25_address data offset) as [a l]. cbn [fst snd].
  apply IH.
Qed.

Lemma via_loop_offset (fuel : nat) (data : bytes) (via : list AX25Address)
    (offset : nat) (is_last : bool) :
  let '(v, o, l) := via_loop fuel data via offset is_last in
  VisualTestDecoder.via_loop fuel data via offset is_last = (v, o, l).
Proof.
  rewrite visual_via_loop.
  now destruct (via_loop fuel data via offset is_last) as [[v o] l].
Qed.

Lemma s_name_no_pid (k : Z) :
  String.eqb (default "S?"%string (s_types !! k)) "I" = false
  /\ String.eqb (default "S?"%string (s_types !! k)) "UI" = false.
Proof.
  destruct (s_types !! k) as [name|] eqn:E; [|split; reflexivity].
  apply elem_of_list_to_map_2 in E.
  repeat (apply elem_of_cons in E as [E|E];
          [injection E as _ ->; split; reflexivity|]).
  inversion E.
Qed.

Lemma u_name_pid (c : Z) :
  String.eqb (u_type_str c) "I" = false
  /\ String.eqb (u_type_str c) "UI" = (Z.land c 0xEF =? 0x03).
Proof.
  unfold u_type_str.
  destruct (u_types !! Z.land c 0xEF) as [name|] eqn:E.
  - apply elem_of_list_to_map_2 in E.
    repeat (apply elem_of_cons in E as [E|E];
            [injection E as H1 ->; rewrite H1; split; reflexivity|]).
    inversion E.
  - cbn [default from_option id]. split; [reflexivity|].
    destruct (Z.eqb_spec (Z.land c 0xEF) 3) as [H3|_]; [|reflexivity].
    rewrite H3 in E. discriminate E.
Qed.

(** Both decoders have run through the same tests: what is left is to
    compare the fields. *)
Ltac agree_leaf :=
  unfold VisualTestDecoder.type_name, VisualTestDecoder.carries_pid;
  repeat
    (progress
       (cbn -[Nat.ltb drop VisualTestDecoder.startswith Z.land Z.shiftr
              u_type_str s_types];
        repeat match goal with
          | H : ?t = true |- context [?t] => rewrite H
          | H : ?t = false |- context [?t] => rewrite H
          end));
  repeat split; reflexivity.

(** (X21) The decoder of Scripts/visual-test.py and the decoder of the
    simulator
    read every byte string alike: the same destination, source and via
    path; the frame type of the test station is the name under which the
    simulator shows the frame, or AXDP; the PID is the same where there is
    one. The test station takes a payload only from the frames that carry
    a PID, where the simulator takes the rest of any frame as info
    field. *)
Theorem decoders_agree (data : bytes) :
  let v := VisualTestDecoder.decode_ax25_frame data in
  let g := decode_ax25_frame data in
  VisualTestDecoder.dest v = dest g
  /\ VisualTestDecoder.source v = source g
  /\ VisualTestDecoder.via v = via g
  /\ VisualTestDecoder.frame_type v
     = (if VisualTestDecoder.is_axdp v then "AXDP"%string
        else VisualTestDecoder.type_name g)
  /\ default 0 (VisualTestDecoder.pid v) = pid g
  /\ VisualTestDecoder.payload v
     = (if VisualTestDecoder.carries_pid g then info g else [])
  /\ VisualTestDecoder.is_axdp v
     = VisualTestDecoder.carries_pid g
       && VisualTestDecoder.startswith (info g)
            VisualTestDecoder.AXDP_MAGIC.
Proof.
  cbv zeta.
  unfold VisualTestDecoder.decode_ax25_frame, decode_ax25_frame.
  destruct (Nat.ltb_spec (length data) 14) as [|Hlen];
    [repeat split; reflexivity|].
  rewrite (visual_address data 0) by (cbn; lia).
  cbv beta iota zeta. cbn [Nat.add].
  rewrite (visual_address data 7) by lia.
  cbv beta iota zeta. cbn [Nat.add].
  destruct (decode_ax25_address data 0) as [d dl].
  destruct (decode_ax25_address data 7) as [s is_last]. cbn [fst snd].
  pose proof (via_loop_offset (length data) data [] 14 is_last) as Hloop.
  destruct (via_loop (length data) data [] 14 is_last) as [[vp offset] l].
  rewrite Hloop. clear Hloop.
  set (c := at_index data offset).
  destruct (offset <? length data)%nat eqn:E0; [|agree_leaf].
  unfold VisualTestDecoder.decode_frame_type, classify_control.
  destruct (Z.land c 1 =? 0) eqn:E1.
  - (* information frame *)
    destruct (S offset <? length data)%nat eqn:Ea; [|agree_leaf].
    destruct (S (S offset) <? length data)%nat eqn:Eb; [|agree_leaf].
    destruct (VisualTestDecoder.startswith (drop (S (S offset)) data)
                VisualTestDecoder.AXDP_MAGIC) eqn:Em; agree_leaf.
  - destruct (Z.land c 3 =? 1) eqn:E3.
    + (* supervisory frame *)
      destruct (s_name_no_pid (Z.land (Z.shiftr c 2) 3)) as [HI HUI].
      rewrite HI, HUI.
      destruct (S offset <? length data)%nat eqn:Ea; agree_leaf.
    + (* unnumbered frame *)
      destruct (u_name_pid c) as [HI HUI].
      change (default ("U(" +:+ format_02X c +:+ ")")%string
                (u_types !! Z.land c 0xEF))
        with (u_type_str c).
      rewrite HI, HUI.
      destruct (Z.land c 0xEF =? 3) eqn:EU.
      * destruct (S offset <? length data)%nat eqn:Ea; [|agree_leaf].
        destruct (S (S offset) <? length data)%nat eqn:Eb; [|agree_leaf].
        destruct (VisualTestDecoder.startswith (drop (S (S offset)) data)
                    VisualTestDecoder.AXDP_MAGIC) eqn:Em; agree_leaf.
      * destruct (S offset <? length data)%nat eqn:Ea; agree_leaf.
Qed.

End Decoders.

(** ** The simulator's decoder on arbitrary bytes *)

Section Robust.
Import RfSimulator Further.

Lemma append_length (s t : string) :
  String.length (s +:+ t) = (String.length s + String.length t)%nat.
Proof.
  induction s as [|a s IH]; [reflexivity|].
  rewrite append_cons. cbn. now rewrite IH.
Qed.

Lemma lstrip_length (s : string) :
  (String.length (lstrip s) <= String.length s)%nat.
Proof.
  induction s as [|a s IH]; [reflexivity|]. cbn.
  destruct (isspace a); cbn; lia.
Qed.

Lemma rstrip_length (s : string) :
  (String.length (rstrip s) <= String.length s)%nat.
Proof.
  induction s as [|a s IH]; [reflexivity|]. cbn.
  destruct (rstrip s) as [|b r]; [destruct (isspace a); cbn; lia|].
  cbn in *. lia.
Qed.

Lemma callsign_steps_length (cells : bytes) (acc : string) :
  (String.length (fold_left callsign_step cells acc)
   <= String.length acc + length cells)%nat.
Proof.
  revert acc. induction cells as [|b cells IH]; intros acc; [cbn; lia|].
  cbn [fold_left length]. etransitivity; [apply IH|].
  unfold callsign_step. cbv zeta.
  destruct (negb _); [rewrite append_length; cbn|]; lia.
Qed.

Lemma low_bits_3 (n : Z) : 0 <= Z.land n 0x07 <= 7.
Proof.
  change (Z.land n 0x07) with (Z.land n (Z.ones 3)).
  rewrite Z.land_ones by lia. change (2 ^ 3) with 8.
  pose proof (Z.mod_pos_bound n 8 ltac:(lia)). lia.
Qed.

Lemma low_bits_4 (n : Z) : 0 <= Z.land n 0x0F <= 15.
Proof.
  change (Z.land n 0x0F) with (Z.land n (Z.ones 4)).
  rewrite Z.land_ones by lia. change (2 ^ 4) with 16.
  pose proof (Z.mod_pos_bound n 16 ltac:(lia)). lia.
Qed.

Lemma decoded_address_ok (data : bytes) (offset : nat) :
  address_ok (decode_ax25_address data offset).1.
Proof.
  destruct (Nat.ltb_spec (length data) (offset + 7)) as [Hshort|Hlen].
  - unfold decode_ax25_address.
    destruct (Nat.ltb_spec (length data) (offset + 7)); [|lia].
    split; cbn; lia.
  - rewrite decode_ax25_address_fold by exact Hlen.
    split; cbn [fst callsign ssid].
    + unfold strip. etransitivity; [apply rstrip_length|].
      etransitivity; [apply lstrip_length|].
      etransitivity; [apply callsign_steps_length|].
      rewrite length_take. cbn [String.length]. lia.
    + apply low_bits_4.
Qed.

Lemma via_loop_bounds (fuel : nat) (data : bytes) (via : list AX25Address)
    (offset : nat) (is_last : bool) :
  (offset <= length data)%nat -> Forall address_ok via ->
  let '(v, o, _) := via_loop fuel data via offset is_last in
  (o <= length data)%nat
  /\ (offset + 7 * length v = o + 7 * length via)%nat
  /\ Forall address_ok v.
Proof.
  revert via offset is_last.
  induction fuel as [|fuel IH]; intros via offset is_last Hoff Hvia.
  - cbn. repeat split; auto.
  - cbn [via_loop].
    destruct (negb is_last && (offset + 7 <=? length data)%nat) eqn:E;
      [|repeat split; auto].
    apply andb_prop in E as [_ E]. apply Nat.leb_le in E.
    pose proof (decoded_address_ok data offset) as Hok.
    destruct (decode_ax25_address data offset) as [a l]. cbn [fst] in Hok.
    specialize (IH (via ++ [a]) (offset + 7)%nat l E).
    destruct (via_loop fuel data (via ++ [a]) (offset + 7) l) as [[v o] l'].
    destruct IH as (H1 & H2 & H3).
    { apply Forall_app. split; [exact Hvia|].
      constructor; [exact Hok|constructor]. }
    rewrite length_app in H2. cbn [length] in H2.
    repeat split; [exact H1|lia|exact H3].
Qed.

(** (X22) [decode_ax25_frame] is safe on every byte string. It keeps the bytes
    as [raw]; below 14 bytes it decodes nothing; from 14 bytes on it
    returns a destination and a source; the via path and the info field
    together never account for more bytes than follow the first two
    addresses, and the info field is a tail of the data; every call sign
    has at most six characters, every secondary id is between 0 and 15,
    and the sequence numbers are between 0 and 7. *)
Theorem decode_ax25_frame_bounds (data : bytes) :
  let g := decode_ax25_frame data in
  raw g = data
  /\ ((length data < 14)%nat -> g = AX25Frame_new data)
  /\ ((14 <= length data)%nat -> is_Some (dest g) /\ is_Some (source g))
  /\ (7 * length (via g) + length (info g) <= length data - 14)%nat
  /\ (exists k : nat, info g = drop k data)
  /\ (forall a, dest g = Some a -> address_ok a)
  /\ (forall a, source g = Some a -> address_ok a)
  /\ Forall address_ok (via g)
  /\ 0 <= ns g <= 7 /\ 0 <= nr g <= 7.
Proof.
  cbv zeta. unfold decode_ax25_frame.
  destruct (Nat.ltb_spec (length data) 14) as [Hshort|Hlen].
  { cbn [raw dest source via info ns nr AX25Frame_new length].
    split; [reflexivity|]. split; [reflexivity|]. split; [intros; lia|].
    split; [lia|].
    split; [exists (length data); now rewrite drop_all|].
    split; [discriminate|]. split; [discriminate|].
    split; [constructor|lia]. }
  pose proof (decoded_address_ok data 0) as Hd.
  pose proof (decoded_address_ok data 7) as Hs.
  destruct (decode_ax25_address data 0) as [d dl].
  destruct (decode_ax25_address data 7) as [s is_last]. cbn [fst] in Hd, Hs.
  pose proof (via_loop_bounds (length data) data [] 14 is_last Hlen
                ltac:(constructor)) as Hloop.
  destruct (via_loop (length data) data [] 14 is_last) as [[vp offset] l].
  destruct Hloop as (Ho & Hcount & Hvp). cbn [length] in Hcount.
  set (c := at_index data offset).
  pose proof (low_bits_3 (Z.shiftr c 1)) as Hns.
  pose proof (low_bits_3 (Z.shiftr c 5)) as Hnr.
  assert (Hdrop : forall k, length (drop k data) = (length data - k)%nat)
    by (intros; apply length_drop).
  assert (Hgoal : forall g : AX25Frame,
            raw g = data -> dest g = Some d -> source g = Some s ->
            via g = vp ->
            ((info g = [] \/ exists k, (offset <= k)%nat /\ info g = drop k data))
            -> 0 <= ns g <= 7 -> 0 <= nr g <= 7 ->
            raw g = data
            /\ ((length data < 14)%nat -> g = AX25Frame_new data)
            /\ ((14 <= length data)%nat ->
                is_Some (dest g) /\ is_Some (source g))
            /\ (7 * length (via g) + length (info g) <= length data - 14)%nat
            /\ (exists k : nat, info g = drop k data)
            /\ (forall a, dest g = Some a -> address_ok a)
            /\ (forall a, source g = Some a -> address_ok a)
            /\ Forall address_ok (via g)
            /\ 0 <= ns g <= 7 /\ 0 <= nr g <= 7).
  { intros g Hraw Hdest Hsrc Hvia Hinfo Hn1 Hn2.
    rewrite Hdest, Hsrc, Hvia.
    split; [exact Hraw|]. split; [lia|]. split; [eauto|].
    split; [|split; [|split; [|split; [|split; [exact Hvp|auto]]]]].
    - destruct Hinfo as [->|(k & Hk & ->)]; [cbn; lia|].
      rewrite Hdrop. lia.
    - destruct Hinfo as [->|(k & _ & ->)]; [|eauto].
      exists (length data). now rewrite drop_all.
    - now intros a [= <-].
    - now intros a [= <-]. }
  destruct (offset <? length data)%nat eqn:E0.
  - unfold classify_control. fold c.
    destruct (Z.land c 1 =? 0); [|destruct (Z.land c 3 =? 1)];
      cbn [frame_type control FrameType_eqb orb andb];
      repeat match goal with
        | |- context [if ?b then _ else _] => destruct b eqn:?
        end;
      apply Hgoal; cbn; try reflexivity; try lia;
      try (now left);
      try (right; eexists; split; [|reflexivity]; lia).
  - cbn [frame_type FrameType_eqb orb andb AX25Frame_new].
    rewrite E0. apply Hgoal; cbn; try reflexivity; try lia. now left.
Qed.

End Robust.

(** ** The monitor's decoder and the simulator's decoder *)

Section Monitor.
Import RfSimulator.

Lemma monitor_chars (cells : bytes) (chars : list ascii) :
  string_of_list_ascii
    (fold_left
       (fun (chars : list ascii) (b : Z) =>
          let c := Z.land (Z.shiftr b 1) 0x7F in
          if negb (c =? 0x20) then chars ++ [chr c] else chars)
       cells chars)
  = fold_left callsign_step cells (string_of_list_ascii chars).
Proof.
  revert chars. induction cells as [|b cells IH]; intros chars;
    [reflexivity|].
  cbn [fold_left]. rewrite IH. f_equal.
  unfold callsign_step. cbv zeta. destruct (negb _); [|reflexivity].
  clear. induction chars as [|a chars IH]; [reflexivity|].
  cbn. now rewrite IH.
Qed.

(** [decode_callsign] on the seven bytes of a field, against
    [decode_ax25_address] of the simulator. *)
Lemma monitor_callsign (data : bytes) (offset : nat) :
  (offset + 7 <= length data)%nat ->
  let field := take 7 (drop offset data) in
  let a := (decode_ax25_address data offset).1 in
  KissMonitorFrames.decode_callsign field
  = ((KissMonitorFrames.field_callsign field
      +:+ KissMonitorFrames.ssid_suffix (ssid a))%string,
     ssid a, (decode_ax25_address data offset).2)
  /\ callsign a = strip (KissMonitorFrames.field_callsign field).
Proof.
  intros Hlen. cbv zeta.
  rewrite decode_ax25_address_fold by exact Hlen. cbn [fst snd ssid callsign].
  assert (Hf : length (take 7 (drop offset data)) = 7%nat)
    by (rewrite length_take, length_drop; lia).
  assert (H6 : at_index (take 7 (drop offset data)) 6
               = at_index data (offset + 6)).
  { unfold at_index.
    rewrite !nth_lookup, lookup_take_lt by lia.
    now rewrite lookup_drop. }
  assert (Ht : take 6 (take 7 (drop offset data)) = take 6 (drop offset data)).
  { rewrite take_take. reflexivity. }
  unfold KissMonitorFrames.field_callsign. rewrite Ht. split; [|reflexivity].
  unfold KissMonitorFrames.decode_callsign.
  destruct (Nat.ltb_spec (length (take 7 (drop offset data))) 7); [lia|].
  cbv zeta. rewrite H6.
  pose proof (fold_left_indices
                (fun (chars : list ascii) (b : Z) =>
                   let c := Z.land (Z.shiftr b 1) 0x7F in
                   if negb (c =? 0x20) then chars ++ [chr c] else chars)
                (take 7 (drop offset data)) 0 6 [] ltac:(lia)) as Hfold.
  cbn [Nat.add] in Hfold. rewrite drop_0, Ht in Hfold.
  cbv zeta in Hfold. rewrite Hfold, monitor_chars.
  unfold KissMonitorFrames.ssid_suffix.
  destruct (0 <? Z.land (Z.shiftr (at_index data (offset + 6)) 1) 15);
    [reflexivity|].
  now rewrite append_nil_r.
Qed.

Lemma monitor_via_loop (fuel : nat) (data : bytes) (names : list string)
    (via : list AX25Address) (offset : nat) (is_last : bool) :
  let '(names', o, l) :=
    KissMonitorFrames.via_loop fuel data names offset is_last in
  let '(via', o', l') := via_loop fuel data via offset is_last in
  o = o' /\ l = l'
  /\ (length names' + length via = length via' + length names)%nat.
Proof.
  revert names via offset is_last.
  induction fuel as [|fuel IH]; intros names via offset is_last.
  - cbn. repeat split; lia.
  - cbn [KissMonitorFrames.via_loop via_loop].
    destruct (negb is_last && (offset + 7 <=? length data)%nat) eqn:E;
      [|repeat split; lia].
    apply andb_prop in E as [_ E]. apply Nat.leb_le in E.
    destruct (monitor_callsign data offset E) as [Hm _]. cbv zeta in Hm.
    rewrite Hm. destruct (decode_ax25_address data offset) as [a l].
    cbn [fst snd].
    specialize (IH (names ++ [(KissMonitorFrames.field_callsign
                                 (take 7 (drop offset data))
                               +:+ KissMonitorFrames.ssid_suffix (ssid a))
                              %string])
                   (via ++ [a]) (offset + 7)%nat l).
    destruct (KissMonitorFrames.via_loop fuel data _ _ l) as [[n' o] l1].
    destruct (via_loop fuel data _ _ l) as [[v' o'] l2].
    destruct IH as (H1 & H2 & H3). rewrite !length_app in H3. cbn in H3.
    repeat split; [exact H1|exact H2|lia].
Qed.

Lemma monitor_pid_test (c : Z) (f : AX25Frame) :
  KissMonitorFrames.is_I_or_UI (KissMonitor.decode_frame_type c).1.1.1
  = VisualTestDecoder.carries_pid (classify_control f c).
Proof.
  unfold KissMonitor.decode_frame_type, classify_control,
    VisualTestDecoder.carries_pid.
  destruct (Z.land c 1 =? 0); [reflexivity|].
  destruct (Z.land c 3 =? 1).
  - cbn [frame_type FrameType_eqb orb andb].
    repeat match goal with
      | |- context [if ?b then _ else _] => destruct b
      end; reflexivity.
  - cbn [frame_type control FrameType_eqb orb andb].
    repeat match goal with
      | |- context [if ?b then _ else _] => destruct b eqn:?
      end; try reflexivity; lia.
Qed.

(** (X23) The monitor's [decode] against the simulator's [decode_ax25_frame]
    on
    the bytes after the command byte. The monitor shows no frame for a
    command byte with a low nibble other than 0, for fewer than 15 bytes,
    and for a frame in which the simulator finds no control byte. Where it
    shows one, both have the same control byte, PID, info field and length
    of the via path; the monitor's source and destination are the call
    signs as the fields spell them, unstripped, followed by a dash and the
    secondary id when that is not 0, where the simulator has the stripped
    call sign. *)
Theorem monitor_decode_agrees (kiss_frame : bytes) :
  let ax25 := drop 1 kiss_frame in
  let g := decode_ax25_frame ax25 in
  (KissMonitorFrames.decode kiss_frame = None <->
   kiss_frame = [] \/ Z.land (at_index kiss_frame 0) 0x0F <> 0
   \/ (length ax25 < 15)%nat \/ frame_type g = UNKNOWN)
  /\ forall f, KissMonitorFrames.decode kiss_frame = Some f ->
       KissMonitorFrames.raw f = kiss_frame
       /\ KissMonitorFrames.control f = control g
       /\ (KissMonitorFrames.frame_type f, KissMonitorFrames.ns f,
           KissMonitorFrames.nr f, KissMonitorFrames.poll_final f)
          = KissMonitor.decode_frame_type (control g)
       /\ default 0 (KissMonitorFrames.pid f) = pid g
       /\ KissMonitorFrames.payload f = info g
       /\ KissMonitorFrames.is_axdp f
          = VisualTestDecoder.startswith (info g)
              KissMonitorFrames.AXDP_MAGIC
       /\ length (KissMonitorFrames.via_path f) = length (via g)
       /\ exists d s,
            dest g = Some d /\ source g = Some s
            /\ callsign d
               = strip (KissMonitorFrames.field_callsign (take 7 ax25))
            /\ callsign s
               = strip (KissMonitorFrames.field_callsign
                          (take 7 (drop 7 ax25)))
            /\ KissMonitorFrames.destination f
               = (KissMonitorFrames.field_callsign (take 7 ax25)
                  +:+ KissMonitorFrames.ssid_suffix (ssid d))%string
            /\ KissMonitorFrames.source f
               = (KissMonitorFrames.field_callsign (take 7 (drop 7 ax25))
                  +:+ KissMonitorFrames.ssid_suffix (ssid s))%string.
Proof.
  cbv zeta. unfold KissMonitorFrames.decode.
  destruct kiss_frame as [|cmd ax25].
  { cbn. split; [split; [intros _; now left|reflexivity]|discriminate]. }
  change (length (cmd :: ax25) <? 1)%nat with false. cbv iota.
  change (at_index (cmd :: ax25) 0) with cmd.
  change (drop 1 (cmd :: ax25)) with ax25.
  destruct (Z.eqb_spec (Z.land cmd 0x0F) 0) as [Hcmd|Hcmd]; cbn [negb];
    [|split; [split; [intros _; right; now left|reflexivity]
             |discriminate]].
  destruct (Nat.ltb_spec (length ax25) 15) as [Hshort|Hlen];
    [split; [split; [intros _; right; right; now left|reflexivity]
            |discriminate]|].
  destruct (monitor_callsign ax25 0 ltac:(lia)) as [Hmd Hcd].
  destruct (monitor_callsign ax25 7 ltac:(lia)) as [Hms Hcs].
  cbv zeta in Hmd, Hcd, Hms, Hcs. rewrite drop_0 in Hmd, Hcd.
  rewrite Hmd, Hms. clear Hmd Hms.
  unfold decode_ax25_frame.
  destruct (Nat.ltb_spec (length ax25) 14) as [|_]; [lia|].
  destruct (decode_ax25_address ax25 0) as [d dl].
  destruct (decode_ax25_address ax25 7) as [s is_last].
  cbn [fst snd] in *.
  pose proof (monitor_via_loop (length ax25) ax25 [] [] 14 is_last) as Hloop.
  destruct (KissMonitorFrames.via_loop (length ax25) ax25 [] 14 is_last)
    as [[names o] l].
  destruct (via_loop (length ax25) ax25 [] 14 is_last) as [[vp offset] l'].
  destruct Hloop as (-> & -> & Hcount). cbn [length] in Hcount.
  rewrite !Nat.add_0_r in Hcount.
  cbn [raw dest source via control frame_type ns nr pf pid info
       AX25Frame_new].
  destruct (Nat.leb_spec (length ax25) offset) as [Hend|Hctl].
  - (* no control byte *)
    replace (offset <? length ax25)%nat with false
      by (symmetry; apply Nat.ltb_ge; exact Hend).
    cbn [frame_type FrameType_eqb orb andb].
    replace (offset <? length ax25)%nat with false
      by (symmetry; apply Nat.ltb_ge; exact Hend).
    cbn [frame_type].
    split; [split; [intros _; now repeat right|reflexivity]|discriminate].
  - replace (offset <? length ax25)%nat with true
      by (symmetry; apply Nat.ltb_lt; exact Hctl).
    set (c := at_index ax25 offset).
    set (k := classify_control _ c).
    pose proof (monitor_pid_test c
                  {| raw := ax25; dest := Some d; source := Some s;
                     via := vp; control := 0; frame_type := UNKNOWN;
                     ns := 0; nr := 0; pf := false; pid := 0;
                     info := [] |}) as Hpid.
    fold k in Hpid. unfold VisualTestDecoder.carries_pid in Hpid.
    rewrite <- Hpid.
    assert (Hk : control k = c /\ dest k = Some d /\ source k = Some s
                 /\ via k = vp /\ frame_type k <> UNKNOWN
                 /\ pid k = 0 /\ info k = []).
    { subst k. unfold classify_control.
      destruct (Z.land c 1 =? 0); [|destruct (Z.land c 3 =? 1)];
        cbn; repeat split; discriminate. }
    destruct Hk as (Hkc & Hkd & Hks & Hkv & Hkt & Hkp & Hki).
    destruct (KissMonitor.decode_frame_type c) as [[[ft mns] mnr] mpf] eqn:Et.
    cbn [fst]. 
    destruct (KissMonitorFrames.is_I_or_UI ft
              && (S offset <? length ax25)%nat) eqn:Ep.
    + apply andb_prop in Ep as [Eft Ea]. rewrite Eft, Ea. cbn [andb].
      cbn [raw dest source via control frame_type ns nr pf pid info].
      destruct (S (S offset) <? length ax25)%nat eqn:Eb;
        cbn [raw dest source via control frame_type ns nr pf pid info];
        (split;
         [split;
          [intros H; discriminate H
          |intros [H|[H|[H|H]]];
           [discriminate H|exfalso; apply H; exact Hcmd|lia
           |exfalso; apply Hkt; exact H]]
         |]);
        intros f Hf; injection Hf as <-;
        cbn [KissMonitorFrames.raw KissMonitorFrames.control
             KissMonitorFrames.frame_type KissMonitorFrames.ns
             KissMonitorFrames.nr KissMonitorFrames.poll_final
             KissMonitorFrames.pid KissMonitorFrames.payload
             KissMonitorFrames.is_axdp KissMonitorFrames.via_path
             KissMonitorFrames.destination KissMonitorFrames.source
             default from_option id];
        rewrite ?Hkc, ?Et, ?Hki, ?Hkp, ?Hkv;
        (repeat (split; [first [reflexivity|assumption|lia]|]));
        exists d, s; rewrite ?Hkd, ?Hks; repeat split; assumption.
    + assert (Hnopid :
                (if KissMonitorFrames.is_I_or_UI ft
                 then if (S offset <? length ax25)%nat
                      then ({| raw := raw k; dest := dest k;
                               source := source k; via := via k;
                               control := control k;
                               frame_type := frame_type k; ns := ns k;
                               nr := nr k; pf := pf k;
                               pid := at_index ax25 (S offset);
                               info := info k |}, S (S offset))
                      else (k, S offset)
                 else (k, S offset)) = (k, S offset)).
      { destruct (KissMonitorFrames.is_I_or_UI ft); [|reflexivity].
        cbn [andb] in Ep. now rewrite Ep. }
      rewrite Hnopid.
      destruct (S offset <? length ax25)%nat eqn:Ea;
        cbn [raw dest source via control frame_type ns nr pf pid info];
        (split;
         [split;
          [intros H; discriminate H
          |intros [H|[H|[H|H]]];
           [discriminate H|exfalso; apply H; exact Hcmd|lia
           |exfalso; apply Hkt; exact H]]
         |]);
        intros f Hf; injection Hf as <-;
        cbn [KissMonitorFrames.raw KissMonitorFrames.control
             KissMonitorFrames.frame_type KissMonitorFrames.ns
             KissMonitorFrames.nr KissMonitorFrames.poll_final
             KissMonitorFrames.pid KissMonitorFrames.payload
             KissMonitorFrames.is_axdp KissMonitorFrames.via_path
             KissMonitorFrames.destination KissMonitorFrames.source
             default from_option id];
        rewrite ?Hkc, ?Et, ?Hki, ?Hkp, ?Hkv;
        (repeat (split; [first [reflexivity|assumption|lia]|]));
        exists d, s; rewrite ?Hkd, ?Hks; repeat split; assumption.
Qed.

End Monitor.
